(** * fancy_matplotlib: the chart template and its four variants

    A shallow embedding of [plotting_template.py] and [chart_templates.py].

    - Python values are the inductive [pyval]; Python and numpy integers are
      [Z], floats are exact rationals [Q] (rounding is not modelled).
    - Exceptions are the inductive [exn]; a computation that may raise
      returns [pyresult].
    - The plotting backend ([matplotlib.pyplot]) is opaque: every call to it
      is recorded as an [event], in call order, and is taken to return
      normally.  A method that draws is a computation in the monad [plt]
      (an error monad that also collects the events issued so far).
    - A chart object is the record [chart]; a method takes the object and
      returns the updated object.  Overriding is a method table [class]. *)

From Stdlib Require Import ZArith QArith Qround List String Ascii Bool Lia.
From Stdlib Require Import DecimalString Sorted Lqa.
Import ListNotations.

Set Implicit Arguments.
Set Warnings "-register-all".
Open Scope Z_scope.

(** ** Python values and exceptions *)

Inductive pyval : Type :=
| PNone
| PInt (z : Z)
| PFloat (q : Q)
| PStr (s : string)
| PList (l : list pyval)
| PArr (l : list pyval).

Inductive exn : Type :=
| InvalidInputException (msg : string)
| NotImplementedError
| TypeError
| ValueError
| IndexError
| AttributeError
| ZeroDivisionError.

Definition pyresult (A : Type) : Type := (exn + A)%type.

Definition ok {A} (a : A) : pyresult A := inr a.
Definition throw {A} (e : exn) : pyresult A := inl e.

Definition rbind {A B} (m : pyresult A) (f : A -> pyresult B) : pyresult B :=
  match m with
  | inl e => inl e
  | inr a => f a
  end.

Declare Scope py_scope.
Delimit Scope py_scope with py.
Notation "x <~ m ;; k" := (rbind m (fun x => k))
  (at level 61, m at next level, right associativity) : py_scope.
Open Scope py_scope.

(** [try: m except TypeError: h] *)
Definition try_except_TypeError {A} (m h : pyresult A) : pyresult A :=
  match m with
  | inl TypeError => h
  | r => r
  end.

(** *** Builtins *)

Definition isinstance_list (v : pyval) : bool :=
  match v with PList _ => true | _ => false end.

Definition isinstance_ndarray (v : pyval) : bool :=
  match v with PArr _ => true | _ => false end.

Definition isinstance_str (v : pyval) : bool :=
  match v with PStr _ => true | _ => false end.

Fixpoint chars (s : string) : list pyval :=
  match s with
  | EmptyString => []
  | String a s' => PStr (String a EmptyString) :: chars s'
  end.

(** [iter(v)]: the elements a [for] loop or a generator sees. *)
Definition py_iter (v : pyval) : pyresult (list pyval) :=
  match v with
  | PList l => ok l
  | PArr l => ok l
  | PStr s => ok (chars s)
  | _ => throw TypeError
  end.

Definition py_len (v : pyval) : pyresult Z :=
  match v with
  | PList l => ok (Z.of_nat (List.length l))
  | PArr l => ok (Z.of_nat (List.length l))
  | PStr s => ok (Z.of_nat (String.length s))
  | _ => throw TypeError
  end.

Definition Qlt_bool (a b : Q) : bool := negb (Qle_bool b a).

(** Truth value, as [if v], [not v] and [v if c else w] take it.  An array of
    one element has the truth value of the element; an array of more than one
    element has none, and neither has an empty array (numpy raises
    [ValueError]; before numpy 2.2 the empty array was false, with a
    deprecation warning). *)
Fixpoint py_truthy (v : pyval) : pyresult bool :=
  match v with
  | PNone => ok false
  | PInt z => ok (negb (z =? 0))
  | PFloat q => ok (negb (Qeq_bool q 0))
  | PStr s => ok (negb (String.eqb s ""))
  | PList l => ok (match l with [] => false | _ => true end)
  | PArr [] => throw ValueError
  | PArr [x] => py_truthy x
  | PArr _ => throw ValueError
  end.

(** [a == b] and [a < b].  Numbers compare by value, strings and lists
    lexicographically; comparing arrays yields an array, whose truth value
    [min], [max] and [sorted] cannot take. *)
Fixpoint py_eq (a b : pyval) {struct a} : pyresult bool :=
  match a, b with
  | PNone, PNone => ok true
  | PInt x, PInt y => ok (x =? y)
  | PInt x, PFloat y => ok (Qeq_bool (inject_Z x) y)
  | PFloat x, PInt y => ok (Qeq_bool x (inject_Z y))
  | PFloat x, PFloat y => ok (Qeq_bool x y)
  | PStr s, PStr t => ok (String.eqb s t)
  | PList l, PList m =>
      (fix go (l m : list pyval) {struct l} : pyresult bool :=
         match l, m with
         | [], [] => ok true
         | x :: l', y :: m' =>
             e <~ py_eq x y ;;
             if e then go l' m' else ok false
         | _, _ => ok false
         end) l m
  | PArr _, _ => throw ValueError
  | _, PArr _ => throw ValueError
  | _, _ => ok false
  end.

Fixpoint py_lt (a b : pyval) {struct a} : pyresult bool :=
  match a, b with
  | PInt x, PInt y => ok (x <? y)
  | PInt x, PFloat y => ok (Qlt_bool (inject_Z x) y)
  | PFloat x, PInt y => ok (Qlt_bool x (inject_Z y))
  | PFloat x, PFloat y => ok (Qlt_bool x y)
  | PStr s, PStr t => ok (String.ltb s t)
  | PList l, PList m =>
      (fix go (l m : list pyval) {struct l} : pyresult bool :=
         match l, m with
         | [], [] => ok false
         | [], _ :: _ => ok true
         | _ :: _, [] => ok false
         | x :: l', y :: m' =>
             e <~ py_eq x y ;;
             if e then go l' m' else py_lt x y
         end) l m
  | PArr _, _ => throw ValueError
  | _, PArr _ => throw ValueError
  | _, _ => throw TypeError
  end.

(** [min(f(x) for x in l)] and [max(f(x) for x in l)]: the generator is
    consumed lazily, so the first exception in iteration order wins.  [min]
    replaces the current value when [item < current], [max] when
    [item > current]. *)
Fixpoint min_loop (f : pyval -> pyresult pyval) (cur : pyval) (l : list pyval)
  : pyresult pyval :=
  match l with
  | [] => ok cur
  | x :: l' =>
      v <~ f x ;;
      b <~ py_lt v cur ;;
      min_loop f (if b then v else cur) l'
  end.

Fixpoint max_loop (f : pyval -> pyresult pyval) (cur : pyval) (l : list pyval)
  : pyresult pyval :=
  match l with
  | [] => ok cur
  | x :: l' =>
      v <~ f x ;;
      b <~ py_lt cur v ;;
      max_loop f (if b then v else cur) l'
  end.

Definition min_gen (f : pyval -> pyresult pyval) (l : list pyval) : pyresult pyval :=
  match l with
  | [] => throw ValueError
  | x :: l' => v <~ f x ;; min_loop f v l'
  end.

Definition max_gen (f : pyval -> pyresult pyval) (l : list pyval) : pyresult pyval :=
  match l with
  | [] => throw ValueError
  | x :: l' => v <~ f x ;; max_loop f v l'
  end.

(** [min(v)] and [max(v)] of an iterable. *)
Definition py_min (v : pyval) : pyresult pyval :=
  l <~ py_iter v ;; min_gen (fun x => ok x) l.

Definition py_max (v : pyval) : pyresult pyval :=
  l <~ py_iter v ;; max_gen (fun x => ok x) l.

(** Arithmetic.  An array and a number broadcast. *)
Definition num_add (a b : pyval) : pyresult pyval :=
  match a, b with
  | PInt x, PInt y => ok (PInt (x + y))
  | PInt x, PFloat y => ok (PFloat (inject_Z x + y))
  | PFloat x, PInt y => ok (PFloat (x + inject_Z y))
  | PFloat x, PFloat y => ok (PFloat (x + y))
  | _, _ => throw TypeError
  end.

Definition num_sub (a b : pyval) : pyresult pyval :=
  match a, b with
  | PInt x, PInt y => ok (PInt (x - y))
  | PInt x, PFloat y => ok (PFloat (inject_Z x - y))
  | PFloat x, PInt y => ok (PFloat (x - inject_Z y))
  | PFloat x, PFloat y => ok (PFloat (x - y))
  | _, _ => throw TypeError
  end.

Fixpoint mapM {A B} (f : A -> pyresult B) (l : list A) : pyresult (list B) :=
  match l with
  | [] => ok []
  | x :: l' => y <~ f x ;; ys <~ mapM f l' ;; ok (y :: ys)
  end.

Definition py_add (a b : pyval) : pyresult pyval :=
  match a, b with
  | PStr s, PStr t => ok (PStr (String.append s t))
  | PList l, PList m => ok (PList (l ++ m))
  | PArr l, (PInt _ | PFloat _) => r <~ mapM (fun x => num_add x b) l ;; ok (PArr r)
  | (PInt _ | PFloat _), PArr l => r <~ mapM (fun x => num_add a x) l ;; ok (PArr r)
  | _, _ => num_add a b
  end.

Definition py_sub (a b : pyval) : pyresult pyval :=
  match a, b with
  | PArr l, (PInt _ | PFloat _) => r <~ mapM (fun x => num_sub x b) l ;; ok (PArr r)
  | (PInt _ | PFloat _), PArr l => r <~ mapM (fun x => num_sub a x) l ;; ok (PArr r)
  | _, _ => num_sub a b
  end.

Definition py_mul (a b : pyval) : pyresult pyval :=
  match a, b with
  | PInt x, PInt y => ok (PInt (x * y))
  | PInt x, PFloat y => ok (PFloat (inject_Z x * y))
  | PFloat x, PInt y => ok (PFloat (x * inject_Z y))
  | PFloat x, PFloat y => ok (PFloat (x * y))
  | _, _ => throw TypeError
  end.

Definition Qdiv_py (x y : Q) : pyresult pyval :=
  if Qeq_bool y 0 then throw ZeroDivisionError else ok (PFloat (x / y)).

(** True division [a / b]. *)
Definition py_truediv (a b : pyval) : pyresult pyval :=
  match a, b with
  | PInt x, PInt y => Qdiv_py (inject_Z x) (inject_Z y)
  | PInt x, PFloat y => Qdiv_py (inject_Z x) y
  | PFloat x, PInt y => Qdiv_py x (inject_Z y)
  | PFloat x, PFloat y => Qdiv_py x y
  | _, _ => throw TypeError
  end.

(** [str(n)] and [int(x)] *)
Definition py_str (n : Z) : string := NilZero.string_of_int (Z.to_int n).

Definition py_int (v : pyval) : pyresult Z :=
  match v with
  | PInt z => ok z
  | PFloat q => ok (Z.quot (Qnum q) (Zpos (Qden q)))
  | _ => throw TypeError
  end.

(** [v[i]] for an index [i >= 0] *)
Definition py_getitem (v : pyval) (i : nat) : pyresult pyval :=
  match v with
  | PList l | PArr l =>
      match nth_error l i with Some x => ok x | None => throw IndexError end
  | PStr s =>
      match nth_error (chars s) i with Some x => ok x | None => throw IndexError end
  | _ => throw TypeError
  end.

(** The elements of [range(a, b, s)] for [s <> 0]. *)
Definition range_list (a b s : Z) : list Z :=
  let n :=
    if 0 <? s then (if a <? b then (b - a + s - 1) / s else 0)
    else (if b <? a then (a - b - s - 1) / (- s) else 0) in
  map (fun i => a + Z.of_nat i * s) (seq 0 (Z.to_nat n)).

Definition as_index (v : pyval) : pyresult Z :=
  match v with
  | PInt z => ok z
  | _ => throw TypeError
  end.

Definition py_range (a b s : pyval) : pyresult (list Z) :=
  a' <~ as_index a ;;
  b' <~ as_index b ;;
  s' <~ as_index s ;;
  if s' =? 0 then throw ValueError else ok (range_list a' b' s').

Definition as_number (v : pyval) : pyresult Q :=
  match v with
  | PInt z => ok (inject_Z z)
  | PFloat q => ok q
  | _ => throw TypeError
  end.

(** [np.arange(start, stop, step)]: integers when all three are, else
    [ceil((stop - start) / step)] floats [start + i * step].  The floats are
    exact here; numpy takes the quotient and its ceiling in doubles, so where
    the exact quotient is a whole number it can return one point more or
    less.  The theorems on the histogram below say where these points
    start and end, not how many they are. *)
Definition np_arange (start stop step : pyval) : pyresult (list pyval) :=
  match start, stop, step with
  | PInt a, PInt b, PInt s =>
      if s =? 0 then throw ZeroDivisionError
      else ok (map PInt (range_list a b s))
  | _, _, _ =>
      a <~ as_number start ;;
      b <~ as_number stop ;;
      s <~ as_number step ;;
      if Qeq_bool s 0 then throw ZeroDivisionError
      else
        let n := Z.to_nat (Qceiling ((b - a) / s)) in
        ok (map (fun i => PFloat (a + inject_Z (Z.of_nat i) * s)) (seq 0 n))
  end.

(** [sorted(l)]: a stable sort that only asks [y < x]. *)
Fixpoint sorted_insert (x : pyval) (l : list pyval) : pyresult (list pyval) :=
  match l with
  | [] => ok [x]
  | y :: l' =>
      b <~ py_lt y x ;;
      if b then r <~ sorted_insert x l' ;; ok (y :: r) else ok (x :: y :: l')
  end.

Fixpoint py_sorted (l : list pyval) : pyresult (list pyval) :=
  match l with
  | [] => ok []
  | x :: l' => r <~ py_sorted l' ;; sorted_insert x r
  end.

(** [np.array(v)] *)
Definition np_array (v : pyval) : pyval :=
  match v with
  | PList l => PArr l
  | _ => v
  end.

(** [enumerate(l)] *)
Definition enumerate {A} (l : list A) : list (nat * A) :=
  combine (seq 0 (List.length l)) l.

(** ** The palette *)

Definition rgb : Type := (Q * Q * Q)%type.

Definition tableau20_raw : list (Z * Z * Z) :=
  [ (31, 119, 180); (174, 199, 232); (255, 127, 14); (255, 187, 120);
    (44, 160, 44); (152, 223, 138); (214, 39, 40); (255, 152, 150);
    (148, 103, 189); (197, 176, 213); (140, 86, 75); (196, 156, 148);
    (227, 119, 194); (247, 182, 210); (127, 127, 127); (199, 199, 199);
    (188, 189, 34); (219, 219, 141); (23, 190, 207); (158, 218, 229) ].

(** The module-level loop that scales every triple to the unit range. *)
Definition tableau20 : list rgb :=
  map (fun c : Z * Z * Z =>
         let '(r, g, b) := c in
         (inject_Z r / 255, inject_Z g / 255, inject_Z b / 255)%Q)
      tableau20_raw.

(** [tableau20[index]] *)
Definition tableau20_at (index : nat) : pyresult rgb :=
  match nth_error tableau20 index with
  | Some c => ok c
  | None => throw IndexError
  end.

(** ** The plotting backend *)

Inductive color : Type :=
| Named (name : string)
| RGB (c : rgb).

Inductive axes : Type := Axes (position : Z).

(** One constructor per backend call the code makes, with the arguments it
    passes ([None] for a keyword it leaves out). *)
Inductive event : Type :=
| plt_rc_text (usetex : bool)
| plt_rc_font (family : string)
| plt_subplot (position : Z)
| spine_set_visible (a : axes) (side : string) (visible : bool)
| plt_yticks (ticks labels : pyval)
| plt_xticks (ticks labels : pyval)
| plt_plot (x y : pyval) (fmt : option string) (lw : Q) (c : color)
           (alpha : option Q) (label : pyval)
| plt_bar (x height : pyval) (lw : Q) (width : option pyval) (c : color)
          (label : pyval)
| plt_hist (x bins : pyval) (colors : list color) (edgecolor : string) (lw : Q)
| plt_title (s : pyval)
| plt_xlabel (s : pyval)
| plt_ylabel (s : pyval)
| plt_legend (loc : Z) (frameon : bool) (bbox_to_anchor : Q * Q) (fontsize : Z)
| plt_show.

(** A drawing computation: its result or exception, and the backend calls it
    made up to there, oldest first. *)
Definition plt (A : Type) : Type := (pyresult A * list event)%type.

Definition ret {A} (a : A) : plt A := (inr a, []).
Definition raise {A} (e : exn) : plt A := (inl e, []).
Definition lift {A} (r : pyresult A) : plt A := (r, []).
Definition emit (ev : event) : plt unit := (inr tt, [ev]).

Definition bind {A B} (m : plt A) (f : A -> plt B) : plt B :=
  match m with
  | (inl e, w) => (inl e, w)
  | (inr a, w) => let (r, w') := f a in (r, w ++ w')
  end.

Notation "x <- m ;; k" := (bind m (fun x => k))
  (at level 61, m at next level, right associativity) : py_scope.
Notation "' p <- m ;; k" := (bind m (fun x => match x with p => k end))
  (at level 61, p pattern, m at next level, right associativity) : py_scope.

(** [for x in l: s = body(x, s)] *)
Fixpoint for_each {A S} (l : list A) (body : A -> S -> plt S) (s : S) : plt S :=
  match l with
  | [] => ret s
  | x :: l' => s' <- body x s ;; for_each l' body s'
  end.

Definition events {A} (m : plt A) : list event := snd m.
Definition outcome {A} (m : plt A) : pyresult A := fst m.

(** ** The chart object *)

Record chart : Type := Chart {
  x_data : pyval;
  converted_x_data : pyval;
  y_data : pyval;
  diff_x_ticks : pyval;
  diff_y_ticks : pyval;
  x_axis_label : pyval;
  y_axis_label : pyval;
  y_descriptors : pyval;
  title : pyval;
  min_x : pyval;
  max_x : pyval;
  min_y : pyval;
  max_y : pyval;
  ax : option axes;
  grid_range : pyval;
  bar_width : pyval;     (* MultipleBarChart only *)
  num_bins : pyval;      (* Histogram only *)
  bins : pyval           (* Histogram only *)
}.

Definition set_converted_x_data (v : pyval) (c : chart) : chart :=
  Chart (x_data c) v (y_data c) (diff_x_ticks c) (diff_y_ticks c)
        (x_axis_label c) (y_axis_label c) (y_descriptors c) (title c)
        (min_x c) (max_x c) (min_y c) (max_y c) (ax c) (grid_range c)
        (bar_width c) (num_bins c) (bins c).

Definition set_min_x (v : pyval) (c : chart) : chart :=
  Chart (x_data c) (converted_x_data c) (y_data c) (diff_x_ticks c) (diff_y_ticks c)
        (x_axis_label c) (y_axis_label c) (y_descriptors c) (title c)
        v (max_x c) (min_y c) (max_y c) (ax c) (grid_range c)
        (bar_width c) (num_bins c) (bins c).

Definition set_max_x (v : pyval) (c : chart) : chart :=
  Chart (x_data c) (converted_x_data c) (y_data c) (diff_x_ticks c) (diff_y_ticks c)
        (x_axis_label c) (y_axis_label c) (y_descriptors c) (title c)
        (min_x c) v (min_y c) (max_y c) (ax c) (grid_range c)
        (bar_width c) (num_bins c) (bins c).

Definition set_min_y (v : pyval) (c : chart) : chart :=
  Chart (x_data c) (converted_x_data c) (y_data c) (diff_x_ticks c) (diff_y_ticks c)
        (x_axis_label c) (y_axis_label c) (y_descriptors c) (title c)
        (min_x c) (max_x c) v (max_y c) (ax c) (grid_range c)
        (bar_width c) (num_bins c) (bins c).

Definition set_max_y (v : pyval) (c : chart) : chart :=
  Chart (x_data c) (converted_x_data c) (y_data c) (diff_x_ticks c) (diff_y_ticks c)
        (x_axis_label c) (y_axis_label c) (y_descriptors c) (title c)
        (min_x c) (max_x c) (min_y c) v (ax c) (grid_range c)
        (bar_width c) (num_bins c) (bins c).

Definition set_ax (a : option axes) (c : chart) : chart :=
  Chart (x_data c) (converted_x_data c) (y_data c) (diff_x_ticks c) (diff_y_ticks c)
        (x_axis_label c) (y_axis_label c) (y_descriptors c) (title c)
        (min_x c) (max_x c) (min_y c) (max_y c) a (grid_range c)
        (bar_width c) (num_bins c) (bins c).

Definition set_grid_range (v : pyval) (c : chart) : chart :=
  Chart (x_data c) (converted_x_data c) (y_data c) (diff_x_ticks c) (diff_y_ticks c)
        (x_axis_label c) (y_axis_label c) (y_descriptors c) (title c)
        (min_x c) (max_x c) (min_y c) (max_y c) (ax c) v
        (bar_width c) (num_bins c) (bins c).

Definition set_bar_width (v : pyval) (c : chart) : chart :=
  Chart (x_data c) (converted_x_data c) (y_data c) (diff_x_ticks c) (diff_y_ticks c)
        (x_axis_label c) (y_axis_label c) (y_descriptors c) (title c)
        (min_x c) (max_x c) (min_y c) (max_y c) (ax c) (grid_range c)
        v (num_bins c) (bins c).

Definition set_num_bins (v : pyval) (c : chart) : chart :=
  Chart (x_data c) (converted_x_data c) (y_data c) (diff_x_ticks c) (diff_y_ticks c)
        (x_axis_label c) (y_axis_label c) (y_descriptors c) (title c)
        (min_x c) (max_x c) (min_y c) (max_y c) (ax c) (grid_range c)
        (bar_width c) v (bins c).

Definition set_bins (v : pyval) (c : chart) : chart :=
  Chart (x_data c) (converted_x_data c) (y_data c) (diff_x_ticks c) (diff_y_ticks c)
        (x_axis_label c) (y_axis_label c) (y_descriptors c) (title c)
        (min_x c) (max_x c) (min_y c) (max_y c) (ax c) (grid_range c)
        (bar_width c) (num_bins c) v.

(** The methods a subclass overrides. *)
Record class : Type := Class {
  v_check_inputs : chart -> plt chart;
  v_get_min_max : chart -> plt chart;
  v_get_ticks : chart -> plt chart;
  v_get_grid_range : chart -> plt chart;
  v_plot : chart -> plt chart
}.

(** [self.y_descriptors[index] if self.y_descriptors else None] *)
Definition descriptor (self : chart) (index : nat) : pyresult pyval :=
  t <~ py_truthy (y_descriptors self) ;;
  if t then py_getitem (y_descriptors self) index else ok PNone.

(** ** plotting_template.py: [BasePlot] *)

Module BasePlot.

(** [__init__]; the defaults are [diff_x_ticks=1], [diff_y_ticks=10] and
    [None] for the labels, the descriptors and the title. *)
Definition init (x_data y_data diff_x_ticks diff_y_ticks x_axis_label
                 y_axis_label y_descriptors title : pyval) : chart :=
  {| x_data := x_data;
     converted_x_data := x_data;
     y_data := y_data;
     diff_x_ticks := diff_x_ticks;
     diff_y_ticks := diff_y_ticks;
     x_axis_label := x_axis_label;
     y_axis_label := y_axis_label;
     y_descriptors := y_descriptors;
     title := title;
     min_x := PNone;
     max_x := PNone;
     min_y := PNone;
     max_y := PNone;
     ax := None;
     grid_range := PNone;
     bar_width := PNone;
     num_bins := PNone;
     bins := PNone |}.

Definition check_inputs (self : chart) : plt chart :=
  ret self.

Definition plot (self : chart) : plt chart :=
  raise NotImplementedError.

Definition set_font : plt unit :=
  _ <- emit (plt_rc_text true) ;;
  emit (plt_rc_font "serif").

Definition include_text (self : chart) : plt chart :=
  t <- lift (py_truthy (title self)) ;;
  _ <- (if t then emit (plt_title (title self)) else ret tt) ;;
  t <- lift (py_truthy (x_axis_label self)) ;;
  _ <- (if t then emit (plt_xlabel (x_axis_label self)) else ret tt) ;;
  t <- lift (py_truthy (y_axis_label self)) ;;
  _ <- (if t then emit (plt_ylabel (y_axis_label self)) else ret tt) ;;
  t <- lift (py_truthy (y_descriptors self)) ;;
  _ <- (if t then emit (plt_legend 7 false (1.112, 0.5)%Q 8) else ret tt) ;;
  _ <- emit plt_show ;;
  ret self.

Definition remove_spines (self : chart) : plt chart :=
  match ax self with
  | None => raise AttributeError
  | Some a =>
      _ <- emit (spine_set_visible a "top" false) ;;
      _ <- emit (spine_set_visible a "bottom" false) ;;
      _ <- emit (spine_set_visible a "right" false) ;;
      _ <- emit (spine_set_visible a "left" false) ;;
      ret self
  end.

Definition get_min_max (self : chart) : plt chart :=
  lift (
    mn <~ py_min (converted_x_data self) ;;
    let self := set_min_x mn self in
    mx <~ py_max (converted_x_data self) ;;
    let self := set_max_x mx self in
    t <~ py_truthy (y_data self) ;;
    if negb t then ok self
    else
      try_except_TypeError
        (ys <~ py_iter (y_data self) ;;
         mn <~ min_gen py_min ys ;;
         ys <~ py_iter (y_data self) ;;
         mx <~ max_gen py_max ys ;;
         ok (set_max_y mx (set_min_y mn self)))
        (mn <~ py_min (y_data self) ;;
         mx <~ py_max (y_data self) ;;
         ok (set_max_y mx (set_min_y mn self)))).

Definition get_ticks (self : chart) : plt chart :=
  stop_y <- lift (py_add (max_y self) (diff_y_ticks self)) ;;
  y_tick_range <- lift (py_range (min_y self) stop_y (diff_y_ticks self)) ;;
  stop_x <- lift (py_add (max_x self) (diff_x_ticks self)) ;;
  x_tick_range <- lift (py_range (min_x self) stop_x (diff_x_ticks self)) ;;
  _ <- emit (plt_yticks (PList (map PInt y_tick_range))
                        (PList (map (fun x => PStr (py_str x)) y_tick_range))) ;;
  x0 <- lift (py_getitem (x_data self) 0) ;;
  _ <- (if isinstance_str x0
        then emit (plt_xticks (PList (map PInt x_tick_range)) (x_data self))
        else emit (plt_xticks (PList (map PInt x_tick_range))
                              (PList (map PInt x_tick_range)))) ;;
  ret self.

Definition get_grid_range (self : chart) : plt chart :=
  raise NotImplementedError.

Definition get_grid (self : chart) : plt chart :=
  stop_y <- lift (py_add (max_y self) (diff_y_ticks self)) ;;
  y_range <- lift (py_range (min_y self) stop_y (diff_y_ticks self)) ;;
  for_each y_range
    (fun y self =>
       n <- lift (py_len (grid_range self)) ;;
       _ <- emit (plt_plot (grid_range self)
                           (PList (repeat (PInt y) (Z.to_nat n)))
                           (Some "--"%string) 0.5%Q (Named "black") (Some 0.3%Q)
                           PNone) ;;
       ret self)
    self.

(** [set_up_chart] and [__call__] run the methods of the object's own
    class [cls]. *)
Definition set_up_chart (cls : class) (self : chart) : plt chart :=
  self <- v_check_inputs cls self ;;
  _ <- set_font ;;
  _ <- emit (plt_subplot 111) ;;
  let self := set_ax (Some (Axes 111)) self in
  self <- remove_spines self ;;
  self <- v_get_min_max cls self ;;
  self <- v_get_ticks cls self ;;
  self <- v_get_grid_range cls self ;;
  get_grid self.

Definition call (cls : class) (self : chart) : plt chart :=
  self <- set_up_chart cls self ;;
  self <- v_plot cls self ;;
  self <- include_text self ;;
  _ <- emit plt_show ;;
  ret self.

Definition methods : class :=
  {| v_check_inputs := check_inputs;
     v_get_min_max := get_min_max;
     v_get_ticks := get_ticks;
     v_get_grid_range := get_grid_range;
     v_plot := plot |}.

End BasePlot.

(** ** chart_templates.py *)

Definition DEFAULT_BAR_WIDTH : pyval := PFloat 0.8.

Module LineChart.

Definition init := BasePlot.init.

Definition get_grid_range (self : chart) : plt chart :=
  lift (
    stop <~ py_add (max_x self) (diff_x_ticks self) ;;
    r <~ np_arange (min_x self) stop (PInt 1) ;;
    ok (set_grid_range (PArr r) self)).

Definition plot (self : chart) : plt chart :=
  ys <- lift (py_iter (y_data self)) ;;
  for_each (enumerate ys)
    (fun (it : nat * pyval) self =>
       let (index, y_arr) := it in
       c <- lift (tableau20_at index) ;;
       label <- lift (descriptor self index) ;;
       _ <- emit (plt_plot (x_data self) y_arr None 1 (RGB c) None label) ;;
       ret self)
    self.

Definition methods : class :=
  {| v_check_inputs := BasePlot.check_inputs;
     v_get_min_max := BasePlot.get_min_max;
     v_get_ticks := BasePlot.get_ticks;
     v_get_grid_range := get_grid_range;
     v_plot := plot |}.

End LineChart.

Module SingleBarChart.

Definition init (x_data' y_data' diff_x_ticks' diff_y_ticks' x_axis_label'
                 y_axis_label' y_descriptors' title' : pyval) : pyresult chart :=
  let self := BasePlot.init x_data' y_data' diff_x_ticks' diff_y_ticks'
                x_axis_label' y_axis_label' y_descriptors' title' in
  n <~ py_len (x_data self) ;;
  r <~ np_arange (PInt 0) (PInt n) (PInt 1) ;;
  ok (set_converted_x_data (PArr r) self).

Definition check_inputs (self : chart) : plt chart :=
  l <- lift (py_iter (y_data self)) ;;
  let is_list_of_lists := existsb isinstance_list l in
  l <- lift (py_iter (y_data self)) ;;
  let is_list_of_arrays := existsb isinstance_ndarray l in
  if is_list_of_arrays || is_list_of_lists
  then raise (InvalidInputException "This function plots only one bar")
  else ret self.

Definition get_grid_range (self : chart) : plt chart :=
  lift (
    stop <~ py_add (max_x self) (PInt 1) ;;
    r <~ np_arange (min_x self) stop (PInt 1) ;;
    half <~ py_mul (PFloat 0.5) DEFAULT_BAR_WIDTH ;;
    lo <~ py_sub (min_x self) half ;;
    half <~ py_mul (PFloat 0.5) DEFAULT_BAR_WIDTH ;;
    hi <~ py_add (max_x self) half ;;
    let grid_range := r ++ [lo] ++ [hi] in
    s <~ py_sorted grid_range ;;
    ok (set_grid_range (PList s) self)).

Definition plot (self : chart) : plt chart :=
  c <- lift (tableau20_at 0) ;;
  label <- lift (descriptor self 0) ;;
  _ <- emit (plt_bar (converted_x_data self) (y_data self) 1 None (RGB c) label) ;;
  ret self.

Definition methods : class :=
  {| v_check_inputs := check_inputs;
     v_get_min_max := BasePlot.get_min_max;
     v_get_ticks := BasePlot.get_ticks;
     v_get_grid_range := get_grid_range;
     v_plot := plot |}.

End SingleBarChart.

Module MultipleBarChart.

Definition init (x_data' y_data' diff_x_ticks' diff_y_ticks' x_axis_label'
                 y_axis_label' y_descriptors' title' : pyval) : pyresult chart :=
  let self := BasePlot.init x_data' y_data' diff_x_ticks' diff_y_ticks'
                x_axis_label' y_axis_label' y_descriptors' title' in
  n <~ py_len (x_data self) ;;
  r <~ np_arange (PInt 0) (PInt n) (PInt 1) ;;
  let self := set_converted_x_data (PArr r) self in
  k <~ py_len y_data' ;;
  ok (set_bar_width (PFloat (if k <? 5 then 0.25 else 0.1)) self).

(** [self.bar_width * len(self.y_data) / 2] *)
Definition half_span (self : chart) : pyresult pyval :=
  k <~ py_len (y_data self) ;;
  w <~ py_mul (bar_width self) (PInt k) ;;
  py_truediv w (PInt 2).

Definition get_grid_range (self : chart) : plt chart :=
  lift (
    stop <~ py_add (max_x self) (PInt 1) ;;
    r <~ np_arange (min_x self) stop (PInt 1) ;;
    pad <~ half_span self ;;
    lo <~ py_sub (min_x self) pad ;;
    pad <~ half_span self ;;
    hi <~ py_add (max_x self) pad ;;
    let grid_range := r ++ [lo] ++ [hi] in
    s <~ py_sorted grid_range ;;
    ok (set_grid_range (PList s) self)).

(** [start_step] is one array, shifted in place after every series; each
    [plt_bar] event holds the positions the array has when the call is
    made (the backend builds its rectangles during the call). *)
Definition plot (self : chart) : plt chart :=
  pad <- lift (half_span self) ;;
  a <- lift (py_sub (np_array (converted_x_data self)) pad) ;;
  h <- lift (py_mul (PFloat 0.5) (bar_width self)) ;;
  start_step <- lift (py_add a h) ;;
  ys <- lift (py_iter (y_data self)) ;;
  _ <- for_each (enumerate ys)
    (fun (it : nat * pyval) start_step =>
       let (index, y_arr) := it in
       c <- lift (tableau20_at index) ;;
       label <- lift (descriptor self index) ;;
       _ <- emit (plt_bar start_step y_arr 1 (Some (bar_width self)) (RGB c) label) ;;
       lift (py_add start_step (bar_width self)))
    start_step ;;
  ret self.

Definition methods : class :=
  {| v_check_inputs := BasePlot.check_inputs;
     v_get_min_max := BasePlot.get_min_max;
     v_get_ticks := BasePlot.get_ticks;
     v_get_grid_range := get_grid_range;
     v_plot := plot |}.

End MultipleBarChart.

(** A loop that draws nothing. *)
Fixpoint rfold {A S} (l : list A) (body : A -> S -> pyresult S) (s : S) : pyresult S :=
  match l with
  | [] => ok s
  | x :: l' => s' <~ body x s ;; rfold l' body s'
  end.

Module Histogram.

Section Init.

(** [np.histogram(a, bins=n)] of numpy: the per-bin counts and the bin
    edges.  It is a library function, so the constructor takes it as a
    parameter. *)
Variable np_histogram : pyval -> pyval -> pyresult (pyval * pyval).

Definition init (x_data' num_bins' diff_x_ticks' diff_y_ticks' x_axis_label'
                 y_axis_label' y_descriptors' title' : pyval) : pyresult chart :=
  let self := BasePlot.init x_data' PNone diff_x_ticks' diff_y_ticks'
                x_axis_label' y_axis_label' y_descriptors' title' in
  let self := set_num_bins num_bins' self in
  let self := set_bins (PList []) self in
  let hist_bin_values := PList [] in
  xs <~ py_iter x_data' ;;
  st <~ rfold xs
    (fun x_array (st : chart * pyval) =>
       let (self, hist_bin_values) := st in
       hb <~ np_histogram x_array (num_bins self) ;;
       let (current_hist_bin_values, bins') := hb in
       bl <~ py_iter bins' ;;
       b <~ py_add (bins self) (PList bl) ;;
       let self := set_bins b self in
       cl <~ py_iter current_hist_bin_values ;;
       hist_bin_values <~ py_add hist_bin_values (PList cl) ;;
       ok (self, hist_bin_values))
    (self, hist_bin_values) ;;
  let (self, hist_bin_values) := st : chart * pyval in
  let self := set_min_y (PInt 0) self in
  mx <~ py_max hist_bin_values ;;
  ok (set_max_y mx self).

End Init.

Definition get_min_max (self : chart) : plt chart :=
  ret self.

Definition get_ticks (self : chart) : plt chart :=
  stop_y <- lift (py_add (max_y self) (diff_y_ticks self)) ;;
  y_tick_range <- lift (py_range (min_y self) stop_y (diff_y_ticks self)) ;;
  mn <- lift (py_min (bins self)) ;;
  mx <- lift (py_max (bins self)) ;;
  stop_x <- lift (py_add mx (diff_x_ticks self)) ;;
  x_tick_range <- lift (np_arange mn stop_x (diff_x_ticks self)) ;;
  _ <- emit (plt_yticks (PList (map PInt y_tick_range))
               (PList (map (fun x => PStr (String.append (py_str x) "%"))
                           y_tick_range))) ;;
  ints <- lift (mapM py_int x_tick_range) ;;
  _ <- emit (plt_xticks (PArr x_tick_range) (PList (map PInt ints))) ;;
  ret self.

Definition get_grid_range (self : chart) : plt chart :=
  lift (
    mn <~ py_min (bins self) ;;
    mx <~ py_max (bins self) ;;
    mx' <~ py_max (bins self) ;;
    mn' <~ py_min (bins self) ;;
    d <~ py_sub mx' mn' ;;
    n <~ py_len (bins self) ;;
    step <~ py_truediv d (PInt n) ;;
    r <~ np_arange mn mx step ;;
    let self := set_grid_range (PList r) self in
    mx <~ py_max (bins self) ;;
    g <~ py_iter (grid_range self) ;;
    ok (set_grid_range (PList (g ++ [mx])) self)).

Definition plot (self : chart) : plt chart :=
  n <- lift (py_len (x_data self)) ;;
  cs <- lift (mapM tableau20_at (seq 0 (Z.to_nat n))) ;;
  _ <- emit (plt_hist (x_data self) (num_bins self) (map RGB cs) "black" 0.5%Q) ;;
  ret self.

Definition methods : class :=
  {| v_check_inputs := BasePlot.check_inputs;
     v_get_min_max := get_min_max;
     v_get_ticks := get_ticks;
     v_get_grid_range := get_grid_range;
     v_plot := plot |}.

End Histogram.

(** ** Rendering a chart of each class *)

Inductive variant : Type := Base | Line | SingleBar | MultipleBar | Hist.

Definition methods_of (v : variant) : class :=
  match v with
  | Base => BasePlot.methods
  | Line => LineChart.methods
  | SingleBar => SingleBarChart.methods
  | MultipleBar => MultipleBarChart.methods
  | Hist => Histogram.methods
  end.

(** [chart()] on an object of class [v] *)
Definition render (v : variant) (self : chart) : plt chart :=
  BasePlot.call (methods_of v) self.

(** ** numpy's histogram, over exact rationals

    The reference instance of the constructor's parameter: [bins] equal-width
    bins over the range of the data ([0..1] when there is none, widened by a
    half on each side when the range is a point); the last bin is closed on
    the right. *)

Definition Qmin_list (x : Q) (l : list Q) : Q :=
  fold_left (fun m v => if Qlt_bool v m then v else m) l x.

Definition Qmax_list (x : Q) (l : list Q) : Q :=
  fold_left (fun m v => if Qlt_bool m v then v else m) l x.

Definition histogram_range (a : list Q) : Q * Q :=
  match a with
  | [] => (0, 1)%Q
  | x :: a' =>
      let lo := Qmin_list x a' in
      let hi := Qmax_list x a' in
      if Qeq_bool lo hi then (lo - 0.5, hi + 0.5)%Q else (lo, hi)
  end.

Definition bin_index (lo hi : Q) (n : Z) (v : Q) : Z :=
  if Qeq_bool v hi then n - 1
  else Qfloor ((v - lo) / (hi - lo) * inject_Z n).

Definition histogram_counts (a : list Q) (n : Z) : list Z :=
  let (lo, hi) := histogram_range a in
  map (fun i =>
         Z.of_nat (List.length
           (filter (fun v => bin_index lo hi n v =? Z.of_nat i) a)))
      (seq 0 (Z.to_nat n)).

Definition histogram_edges (a : list Q) (n : Z) : list Q :=
  let (lo, hi) := histogram_range a in
  map (fun i => lo + inject_Z (Z.of_nat i) * ((hi - lo) / inject_Z n))%Q
      (seq 0 (S (Z.to_nat n))).

Definition np_histogram (a bins : pyval) : pyresult (pyval * pyval) :=
  n <~ as_index bins ;;
  if n <? 1 then throw ValueError
  else
    l <~ match a with
         | PInt _ | PFloat _ => ok [a]
         | _ => py_iter a
         end ;;
    qs <~ mapM as_number l ;;
    ok (PArr (map PInt (histogram_counts qs n)),
        PArr (map PFloat (histogram_edges qs n))).

(** ** Vocabulary of the statements *)

(** The value is a list or an array: what [check_inputs] of the single-bar
    chart looks for among the elements of [y_data]. *)
Definition is_sequence (v : pyval) : bool :=
  isinstance_list v || isinstance_ndarray v.

(** [y] is nested: iterating it meets a list or an array. *)
Definition nested (y : pyval) : Prop :=
  exists l, py_iter y = ok l /\ existsb is_sequence l = true.

Definition is_show (ev : event) : bool :=
  match ev with plt_show => true | _ => false end.

(** Number of display flushes among the backend calls. *)
Definition count_show (w : list event) : nat :=
  List.length (filter is_show w).

(** The backend calls every render makes once validation has passed:
    [set_font], [plt.subplot(111)] and [remove_spines]. *)
Definition style_calls : list event :=
  [ plt_rc_text true; plt_rc_font "serif"; plt_subplot 111;
    spine_set_visible (Axes 111) "top" false;
    spine_set_visible (Axes 111) "bottom" false;
    spine_set_visible (Axes 111) "right" false;
    spine_set_visible (Axes 111) "left" false ].

(** Lists of integers and of strings, as the tests write them. *)
Definition ints (l : list Z) : pyval := PList (map PInt l).
Definition strs (l : list string) : pyval := PList (map PStr l).

(** What [set_up_chart] does after [remove_spines]. *)
Definition ranges_and_grid (cls : class) (self : chart) : plt chart :=
  self <- v_get_min_max cls self ;;
  self <- v_get_ticks cls self ;;
  self <- v_get_grid_range cls self ;;
  BasePlot.get_grid self.

(** No display flush among the backend calls. *)
Definition no_show (w : list event) : Prop :=
  Forall (fun ev => is_show ev = false) w.

(** What the constructor stores and no stage of a render assigns. *)
Definition inputs (c : chart) :=
  (x_data c, converted_x_data c, y_data c, diff_x_ticks c, diff_y_ticks c,
   x_axis_label c, y_axis_label c, y_descriptors c, title c,
   bar_width c, num_bins c, bins c).

Definition y_range (c : chart) : pyval * pyval := (min_y c, max_y c).

(** The method leaves [f] of the object as it was. *)
Definition keeps {A} (f : chart -> A) (m : chart -> plt chart) : Prop :=
  forall self self' w, m self = (inr self', w) -> f self' = f self.

(** A backend call that draws a data series: a solid line, a bar series or
    a histogram (the dashed lines of the grid are not). *)
Definition is_series (ev : event) : bool :=
  match ev with
  | plt_plot _ _ None _ _ _ _ => true
  | plt_bar _ _ _ _ _ _ => true
  | plt_hist _ _ _ _ _ => true
  | _ => false
  end.

(** [labels] are the legend labels of [k] series: [None] for each when no
    descriptors were supplied ([None] or an empty list), else the first [k]
    of the descriptors, which must be that many. *)
Definition labels_for (self : chart) (k : nat) (labels : list pyval) : Prop :=
  (py_truthy (y_descriptors self) = ok false /\ labels = repeat PNone k) \/
  (exists ds, y_descriptors self = PList ds /\ ds <> [] /\
              (k <= List.length ds)%nat /\ labels = firstn k ds).

(** The palette entry [i mod 20]. *)
Definition palette (i : nat) : color :=
  RGB (nth (i mod 20) tableau20 (0, 0, 0)%Q).

(** The calls [LineChart.plot] makes for the series [ys]. *)
Definition line_calls (self : chart) (labels : list pyval) (ys : list pyval)
  : list event :=
  map (fun it : nat * pyval =>
         plt_plot (x_data self) (snd it) None 1 (palette (fst it)) None
                  (nth (fst it) labels PNone))
      (enumerate ys).

(** The calls [MultipleBarChart.plot] makes for the series [ys], from series
    number [i] on, when the bars of that series are at the positions [qs]:
    every series is drawn [w] to the right of the one before. *)
Fixpoint bar_calls (w : Q) (labels : list pyval) (i : nat) (qs : list Q)
         (ys : list pyval) : list event :=
  match ys with
  | [] => []
  | y :: ys' =>
      plt_bar (PArr (map PFloat qs)) y 1 (Some (PFloat w)) (palette i)
              (nth i labels PNone)
      :: bar_calls w labels (S i) (map (fun q => q + w)%Q qs) ys'
  end.

(** The positions of the first series of [n] over the integer positions
    [xs]: [np.array(xs) - w * n / 2 + 0.5 * w]. *)
Definition first_positions (xs : list Z) (w : Q) (n : Z) : list Q :=
  map (fun x => inject_Z x - w * inject_Z n / inject_Z 2 + 0.5 * w)%Q xs.

(** [a < b] holds in Python. *)
Definition py_less (a b : pyval) : Prop := py_lt a b = ok true.

(** The grid range of a bar chart: the integer positions from [a] to [b]
    between two boundary values, [pad] before [a] and [pad] after [b]. *)
Definition padded_grid (a b : Z) (pad : Q) : list pyval :=
  PFloat (inject_Z a - pad) :: map PInt (range_list a (b + 1) 1)
  ++ [PFloat (inject_Z b + pad)].

(** [g] is the integer positions from [a] to [b] plus two boundary values,
    one [pad] below [a] and one [pad] above [b], both strictly outside
    [a .. b], the whole in ascending order. *)
Definition padded_by (a b : Z) (pad : Q) (g : pyval) : Prop :=
  g = PList (padded_grid a b pad) /\
  (forall z, In z (range_list a (b + 1) 1) <-> a <= z <= b) /\
  (inject_Z a - pad < inject_Z a)%Q /\
  (inject_Z b < inject_Z b + pad)%Q /\
  Sorted py_less (padded_grid a b pad).

(** [np_hist] bins the sequence [x_array] into [n] bins: it returns [n]
    counts, [fst r], and the bin edges, [snd r]. *)
Definition binned (np_hist : pyval -> pyval -> pyresult (pyval * pyval))
           (n : Z) (x_array : pyval) (r : list Z * list pyval) : Prop :=
  np_hist x_array (PInt n) = ok (PArr (map PInt (fst r)), PArr (snd r)) /\
  List.length (fst r) = Z.to_nat n.

(** The computation does not raise [InvalidInputException]. *)
Definition not_invalid {A} (r : pyresult A) : Prop :=
  match r with
  | inl (InvalidInputException _) => False
  | _ => True
  end.

(** The class inherits [get_min_max] and [get_ticks] from [BasePlot]: every
    class but the histogram. *)
Definition uses_base_ranges (v : variant) : bool :=
  match v with Hist => false | _ => true end.

(** [y] can be iterated and holds no list and no array. *)
Definition flat (y : pyval) : Prop :=
  exists l, py_iter y = ok l /\ existsb is_sequence l = false.

(** [check_inputs] of the class lets the object through: only the single-bar
    chart checks anything. *)
Definition passes_check (v : variant) (self : chart) : Prop :=
  match v with
  | SingleBar => flat (y_data self)
  | _ => True
  end.

(** [zs] are the integer values of [y], which is one series or a list of
    non-empty series. *)
Definition all_values (y : pyval) (zs : list Z) : Prop :=
  y = ints zs \/
  exists yss, y = PList (map ints yss) /\ Forall (fun l => l <> []) yss /\
              zs = List.concat yss.

(** A list of floats. *)
Definition floats (l : list Q) : pyval := PList (map PFloat l).

(** [y] is one non-empty series of floats, or a non-empty list of them. *)
Definition float_data (y : pyval) : Prop :=
  (exists ys, ys <> [] /\ y = floats ys) \/
  (exists yss, yss <> [] /\ Forall (fun l => l <> []) yss /\
               y = PList (map floats yss)).

(** The ranges and the steps of both axes are integers, the steps not 0:
    [a .. b] by [d] for y and [a' .. b'] by [d'] for x. *)
Definition int_ranges (self : chart) (a b d a' b' d' : Z) : Prop :=
  min_y self = PInt a /\ max_y self = PInt b /\ diff_y_ticks self = PInt d /\
  min_x self = PInt a' /\ max_x self = PInt b' /\ diff_x_ticks self = PInt d' /\
  d <> 0 /\ d' <> 0.

(** The call [get_grid] makes for the height [y]: a dashed black line over
    the grid range [g], which has [n] points. *)
Definition grid_line (g : pyval) (n : nat) (y : Z) : event :=
  plt_plot g (PList (repeat (PInt y) n)) (Some "--"%string) 0.5%Q
           (Named "black") (Some 0.3%Q) PNone.

(** A backend call that sets the title, an axis label or the legend. *)
Definition is_text (ev : event) : bool :=
  match ev with
  | plt_title _ | plt_xlabel _ | plt_ylabel _ | plt_legend _ _ _ _ => true
  | _ => false
  end.

(** What the y ticks and the grid lines are computed from. *)
Definition y_ticks (c : chart) := (min_y c, max_y c, diff_y_ticks c).

(** A call that is made only when [t] holds. *)
Definition optional (t : bool) (ev : event) : list event :=
  if t then [ev] else [].

(** The calls of [include_text] when the title, the two axis labels and the
    descriptors have the truth values [t1 .. t4]. *)
Definition text_calls (self : chart) (t1 t2 t3 t4 : bool) : list event :=
  optional t1 (plt_title (title self))
  ++ optional t2 (plt_xlabel (x_axis_label self))
  ++ optional t3 (plt_ylabel (y_axis_label self))
  ++ optional t4 (plt_legend 7 false (1.112, 0.5)%Q 8)
  ++ [plt_show].




(** The three components of the colour are between 0 and 1. *)
Definition unit_range (c : rgb) : Prop :=
  let '(r, g, b) := c in
  (0 <= r <= 1 /\ 0 <= g <= 1 /\ 0 <= b <= 1)%Q.

(** [unit_range], as a test. *)
Definition unit_rangeb (c : rgb) : bool :=
  let '(r, g, b) := c in
  Qle_bool 0 r && Qle_bool r 1 && Qle_bool 0 g && Qle_bool g 1
  && Qle_bool 0 b && Qle_bool b 1.

(** The bar of width [w] at the position [q] (its middle) lies in the slot
    of half-width [pad] around [x]. *)
Definition in_slot (w pad : Q) (q : Q) (x : Z) : Prop :=
  (inject_Z x - pad <= q - w / 2 /\ q + w / 2 <= inject_Z x + pad)%Q.

(** The smallest and the largest y value, as [get_min_max] looks for them:
    over the series of [y], or over [y] itself when that raises
    [TypeError]. *)
Definition y_extremes (y : pyval) : pyresult (pyval * pyval) :=
  try_except_TypeError
    (ys <~ py_iter y ;;
     mn <~ min_gen py_min ys ;;
     ys <~ py_iter y ;;
     mx <~ max_gen py_max ys ;;
     ok (mn, mx))
    (mn <~ py_min y ;;
     mx <~ py_max y ;;
     ok (mn, mx)).

(** The assignments of [get_min_max]: the x range, and the y range if there
    is one. *)
Definition with_ranges (a b : pyval) (oy : option (pyval * pyval)) (s : chart)
  : chart :=
  match oy with
  | None => set_max_x b (set_min_x a s)
  | Some (mn, mx) => set_max_y mx (set_min_y mn (set_max_x b (set_min_x a s)))
  end.

(** What [get_min_max] computes from the x positions [cx] and the data
    [y]. *)
Definition ranges_of (cx y : pyval) : pyresult (pyval * pyval * option (pyval * pyval)) :=
  a <~ py_min cx ;;
  b <~ py_max cx ;;
  t <~ py_truthy y ;;
  if negb t then ok (a, b, None)
  else p <~ y_extremes y ;; ok (a, b, Some p).

(** ** The monad *)

Lemma bind_lift_ok {A B} (a : A) (r : pyresult A) (f : A -> plt B) :
  r = ok a -> bind (lift r) f = f a.
Proof. intros ->. unfold bind, lift, ok. destruct (f a); reflexivity. Qed.

Lemma bind_ret {A B} (a : A) (f : A -> plt B) : bind (ret a) f = f a.
Proof. unfold bind, ret. destruct (f a); reflexivity. Qed.

Lemma bind_emit {B} (ev : event) (f : unit -> plt B) :
  bind (emit ev) f = (outcome (f tt), ev :: events (f tt)).
Proof. unfold bind, emit, outcome, events. destruct (f tt); reflexivity. Qed.

(** A sequence that returns: both halves returned, and the calls are those of
    the first followed by those of the second. *)
Lemma bind_inv {A B} (m : plt A) (f : A -> plt B) (b : B) (w : list event) :
  bind m f = (inr b, w) ->
  exists a w1 w2, m = (inr a, w1) /\ f a = (inr b, w2) /\ w = w1 ++ w2.
Proof.
  unfold bind. destruct m as [[e | a] w1]; [discriminate |].
  destruct (f a) as [r w2] eqn:E. intros H. inversion H; subst.
  exists a, w1, w2. auto.
Qed.

Lemma lift_inv {A} (r : pyresult A) (a : A) (w : list event) :
  lift r = (inr a, w) -> r = ok a /\ w = [].
Proof. unfold lift. intros H. inversion H; auto. Qed.

Lemma rbind_inv {A B} (m : pyresult A) (f : A -> pyresult B) (b : B) :
  rbind m f = ok b -> exists a, m = ok a /\ f a = ok b.
Proof. destruct m as [e | a]; simpl; [discriminate | eauto]. Qed.

(** A property of every backend call of a sequence follows from the same
    property of its parts. *)
Lemma Forall_events_bind {A B} (P : event -> Prop) (m : plt A) (f : A -> plt B) :
  Forall P (events m) -> (forall a, Forall P (events (f a))) ->
  Forall P (events (bind m f)).
Proof.
  intros Hm Hf. destruct m as [[e | a] w]; simpl in *; [exact Hm |].
  specialize (Hf a). destruct (f a) as [r w2]; simpl in *.
  apply Forall_app; auto.
Qed.

Lemma Forall_events_for_each {A S} (P : event -> Prop) (l : list A)
      (body : A -> S -> plt S) (s : S) :
  (forall x s, Forall P (events (body x s))) ->
  Forall P (events (for_each l body s)).
Proof.
  intros Hb. revert s. induction l as [| x l IH]; intros s; simpl.
  - constructor.
  - apply Forall_events_bind; auto.
Qed.

Lemma Forall_events_lift {A} (P : event -> Prop) (r : pyresult A) :
  Forall P (events (lift r)).
Proof. constructor. Qed.

Lemma Forall_events_emit (P : event -> Prop) (ev : event) :
  P ev -> Forall P (events (emit ev)).
Proof. intros H. repeat constructor. exact H. Qed.

Lemma Forall_events_ret {A} (P : event -> Prop) (a : A) :
  Forall P (events (ret a)).
Proof. constructor. Qed.

Lemma Forall_events_raise {A} (P : event -> Prop) (e : exn) :
  Forall P (events (raise e : plt A)).
Proof. constructor. Qed.

(** Proves [Forall P (events m)] for a computation written with the monad's
    operations, when [P] holds of every call it can make. *)
Ltac events_all :=
  repeat first
    [ apply Forall_events_lift
    | apply Forall_events_ret
    | apply Forall_events_raise
    | apply Forall_events_emit; try (simpl; congruence)
    | apply Forall_events_for_each; intros
    | apply Forall_events_bind; [| intros]
    | match goal with
      | |- Forall _ (events (if ?b then _ else _)) => destruct b
      | |- Forall _ (events (let (_, _) := ?p in _)) => destruct p
      | |- Forall _ (events (match ?o with Some _ => _ | None => _ end)) =>
          destruct o
      end ].

(** ** Validation comes first *)

Lemma check_inputs_draws_nothing (v : variant) (self : chart) :
  events (v_check_inputs (methods_of v) self) = [].
Proof.
  destruct v; try reflexivity.
  simpl. unfold SingleBarChart.check_inputs, bind, lift.
  destruct (py_iter (y_data self)) as [e | l]; simpl; [reflexivity |].
  destruct (existsb isinstance_ndarray l || existsb isinstance_list l); reflexivity.
Qed.

Lemma render_stops_at_check_inputs (v : variant) (self : chart) (e : exn) :
  outcome (v_check_inputs (methods_of v) self) = inl e ->
  render v self = (inl e, []).
Proof.
  intros H. pose proof (check_inputs_draws_nothing v self) as Hw.
  unfold render, BasePlot.call, BasePlot.set_up_chart.
  destruct (v_check_inputs (methods_of v) self) as [r w]; simpl in *; subst.
  reflexivity.
Qed.

Lemma render_draws_after_check_inputs (v : variant) (self : chart) :
  events (render v self) <> [] ->
  exists self', v_check_inputs (methods_of v) self = (inr self', []).
Proof.
  intros H. pose proof (check_inputs_draws_nothing v self) as Hw.
  destruct (v_check_inputs (methods_of v) self) as [[e | self'] w] eqn:E;
    simpl in Hw; subst.
  - exfalso. apply H.
    rewrite (render_stops_at_check_inputs v self (e := e)); [reflexivity |].
    rewrite E. reflexivity.
  - eauto.
Qed.

(** Once validation has passed, the style calls are made and the ranges, the
    ticks and the grid follow. *)
Lemma set_up_chart_checked (cls : class) (self self1 : chart) :
  v_check_inputs cls self = (inr self1, []) ->
  BasePlot.set_up_chart cls self =
  (outcome (ranges_and_grid cls (set_ax (Some (Axes 111)) self1)),
   style_calls ++ events (ranges_and_grid cls (set_ax (Some (Axes 111)) self1))).
Proof.
  intros H. unfold BasePlot.set_up_chart. rewrite H.
  fold (ranges_and_grid cls).
  unfold BasePlot.set_font, BasePlot.remove_spines. simpl.
  destruct (ranges_and_grid cls (set_ax (Some (Axes 111)) self1)) as [r w].
  reflexivity.
Qed.

(** ** Only validation raises [InvalidInputException] *)

Lemma not_invalid_rbind {A B} (m : pyresult A) (f : A -> pyresult B) :
  not_invalid m -> (forall a, not_invalid (f a)) -> not_invalid (rbind m f).
Proof. intros Hm Hf. destruct m as [e | a]; simpl; [exact Hm | apply Hf]. Qed.

Lemma not_invalid_try {A} (m h : pyresult A) :
  not_invalid m -> not_invalid h -> not_invalid (try_except_TypeError m h).
Proof. intros Hm Hh. destruct m as [[] | a]; simpl; auto. Qed.

(** The comparisons recurse through nested lists. *)
Lemma py_eq_ni : forall a b : pyval, not_invalid (py_eq a b).
Proof.
  fix IH 1. intros a b.
  destruct a as [| x | x | s | l | l]; destruct b as [| y | y | t | m | m];
    try exact I.
  cbn [py_eq]. revert m. induction l as [| x l IHl]; intros [| y m];
    try exact I.
  apply not_invalid_rbind; [apply IH |].
  intros []; [apply IHl | exact I].
Qed.

Lemma py_lt_ni : forall a b : pyval, not_invalid (py_lt a b).
Proof.
  fix IH 1. intros a b.
  destruct a as [| x | x | s | l | l]; destruct b as [| y | y | t | m | m];
    try exact I.
  cbn [py_lt]. revert m. induction l as [| x l IHl]; intros [| y m];
    try exact I.
  apply not_invalid_rbind; [apply py_eq_ni |].
  intros []; [apply IHl | apply IH].
Qed.

Lemma py_truthy_ni : forall v : pyval, not_invalid (py_truthy v).
Proof.
  fix IH 1. intros v. destruct v as [| x | x | s | l | l]; try exact I.
  destruct l as [| x [| y l]]; try exact I.
  change (not_invalid (py_truthy x)). apply IH.
Qed.

(** Goes through the cases of a builtin. *)
Ltac ni :=
  repeat first
    [ exact I
    | apply py_lt_ni
    | apply py_eq_ni
    | apply py_truthy_ni
    | apply not_invalid_rbind; [| intros]
    | apply not_invalid_try
    | match goal with
      | |- not_invalid (if ?b then _ else _) => destruct b
      | |- not_invalid (match ?v with PNone => _ | _ => _ end) => destruct v
      | |- not_invalid (match ?o with Some _ => _ | None => _ end) => destruct o
      | |- not_invalid (match ?l with [] => _ | _ :: _ => _ end) => destruct l
      | |- not_invalid (let (_, _) := ?p in _) => destruct p
      end ].

Lemma py_iter_ni (v : pyval) : not_invalid (py_iter v).
Proof. unfold py_iter; ni. Qed.

Lemma py_len_ni (v : pyval) : not_invalid (py_len v).
Proof. unfold py_len; ni. Qed.

Lemma num_add_ni (a b : pyval) : not_invalid (num_add a b).
Proof. unfold num_add; ni. Qed.

Lemma num_sub_ni (a b : pyval) : not_invalid (num_sub a b).
Proof. unfold num_sub; ni. Qed.

Lemma mapM_ni {A B} (f : A -> pyresult B) (l : list A) :
  (forall x, not_invalid (f x)) -> not_invalid (mapM f l).
Proof. intros Hf. induction l; simpl; ni; auto. Qed.

Lemma py_add_ni (a b : pyval) : not_invalid (py_add a b).
Proof.
  unfold py_add; ni; try apply num_add_ni;
    try (apply mapM_ni; intros; apply num_add_ni).
Qed.

Lemma py_sub_ni (a b : pyval) : not_invalid (py_sub a b).
Proof.
  unfold py_sub; ni; try apply num_sub_ni;
    try (apply mapM_ni; intros; apply num_sub_ni).
Qed.

Lemma py_mul_ni (a b : pyval) : not_invalid (py_mul a b).
Proof. unfold py_mul; ni. Qed.

Lemma py_truediv_ni (a b : pyval) : not_invalid (py_truediv a b).
Proof. unfold py_truediv, Qdiv_py; ni. Qed.

Lemma py_int_ni (v : pyval) : not_invalid (py_int v).
Proof. unfold py_int; ni. Qed.

Lemma py_getitem_ni (v : pyval) (i : nat) : not_invalid (py_getitem v i).
Proof. unfold py_getitem; ni. Qed.

Lemma as_index_ni (v : pyval) : not_invalid (as_index v).
Proof. unfold as_index; ni. Qed.

Lemma as_number_ni (v : pyval) : not_invalid (as_number v).
Proof. unfold as_number; ni. Qed.

Lemma py_range_ni (a b c : pyval) : not_invalid (py_range a b c).
Proof. unfold py_range; ni; apply as_index_ni. Qed.

Lemma np_arange_ni (a b c : pyval) : not_invalid (np_arange a b c).
Proof. unfold np_arange; ni; apply as_number_ni. Qed.

Lemma min_loop_ni (f : pyval -> pyresult pyval) :
  (forall x, not_invalid (f x)) ->
  forall l c, not_invalid (min_loop f c l).
Proof. intros Hf. induction l; intros c; simpl; ni; auto. Qed.

Lemma max_loop_ni (f : pyval -> pyresult pyval) :
  (forall x, not_invalid (f x)) ->
  forall l c, not_invalid (max_loop f c l).
Proof. intros Hf. induction l; intros c; simpl; ni; auto. Qed.

Lemma min_gen_ni (f : pyval -> pyresult pyval) (l : list pyval) :
  (forall x, not_invalid (f x)) -> not_invalid (min_gen f l).
Proof. intros Hf. unfold min_gen; ni; auto. apply min_loop_ni; auto. Qed.

Lemma max_gen_ni (f : pyval -> pyresult pyval) (l : list pyval) :
  (forall x, not_invalid (f x)) -> not_invalid (max_gen f l).
Proof. intros Hf. unfold max_gen; ni; auto. apply max_loop_ni; auto. Qed.

Lemma py_min_ni (v : pyval) : not_invalid (py_min v).
Proof.
  unfold py_min; ni; [apply py_iter_ni | apply min_gen_ni; intros; exact I].
Qed.

Lemma py_max_ni (v : pyval) : not_invalid (py_max v).
Proof.
  unfold py_max; ni; [apply py_iter_ni | apply max_gen_ni; intros; exact I].
Qed.

Lemma sorted_insert_ni (x : pyval) (l : list pyval) :
  not_invalid (sorted_insert x l).
Proof. induction l; simpl; ni; auto. Qed.

Lemma py_sorted_ni (l : list pyval) : not_invalid (py_sorted l).
Proof. induction l; simpl; ni; auto. apply sorted_insert_ni. Qed.

Lemma tableau20_at_ni (i : nat) : not_invalid (tableau20_at i).
Proof. unfold tableau20_at; ni. Qed.

Lemma descriptor_ni (c : chart) (i : nat) : not_invalid (descriptor c i).
Proof. unfold descriptor; ni. apply py_getitem_ni. Qed.

Create HintDb exn.
#[local] Hint Resolve py_eq_ni py_lt_ni py_truthy_ni
  py_iter_ni py_len_ni num_add_ni num_sub_ni py_add_ni py_sub_ni py_mul_ni
  py_truediv_ni py_int_ni py_getitem_ni as_index_ni as_number_ni py_range_ni
  np_arange_ni py_min_ni py_max_ni py_sorted_ni tableau20_at_ni descriptor_ni
  : exn.

Lemma ni_bind {A B} (m : plt A) (f : A -> plt B) :
  not_invalid (outcome m) -> (forall a, not_invalid (outcome (f a))) ->
  not_invalid (outcome (bind m f)).
Proof.
  intros Hm Hf. destruct m as [[e | a] w]; simpl in *; [exact Hm |].
  specialize (Hf a). destruct (f a) as [r w2]. exact Hf.
Qed.

Lemma ni_for_each {A S} (l : list A) (body : A -> S -> plt S) (s : S) :
  (forall x s, not_invalid (outcome (body x s))) ->
  not_invalid (outcome (for_each l body s)).
Proof.
  intros Hb. revert s. induction l as [| x l IH]; intros s; simpl.
  - exact I.
  - apply ni_bind; auto.
Qed.

Lemma ni_lift {A} (r : pyresult A) :
  not_invalid r -> not_invalid (outcome (lift r)).
Proof. intros H. exact H. Qed.

(** Goes through a method written with the monad's operations. *)
Ltac ni_plt :=
  repeat match goal with
         | |- True => exact I
         | |- not_invalid (outcome (bind _ _)) => apply ni_bind; [| intros]
         | |- not_invalid (outcome (for_each _ _ _)) => apply ni_for_each; intros
         | |- not_invalid (outcome (lift _)) => apply ni_lift
         | |- not_invalid (outcome (ret _)) => exact I
         | |- not_invalid (outcome (emit _)) => exact I
         | |- not_invalid (outcome (raise _)) => exact I
         | |- not_invalid (rbind _ _) => apply not_invalid_rbind; [| intros]
         | |- not_invalid (try_except_TypeError _ _) => apply not_invalid_try
         | |- not_invalid (min_gen _ _) => apply min_gen_ni; intros
         | |- not_invalid (max_gen _ _) => apply max_gen_ni; intros
         | |- not_invalid (mapM _ _) => apply mapM_ni; intros
         | |- not_invalid (ok _) => exact I
         | |- not_invalid (outcome (if ?b then _ else _)) => destruct b
         | |- not_invalid (if ?b then _ else _) => destruct b
         | |- not_invalid (outcome (let (_, _) := ?p in _)) => destruct p
         | |- not_invalid (outcome (match ?o with Some _ => _ | None => _ end)) =>
             destruct o
         | |- not_invalid _ => solve [auto with exn]
         end.

(** Replaces the methods of a class by the functions that implement them. *)
Ltac unfold_methods :=
  cbv beta iota delta
    [methods_of BasePlot.methods LineChart.methods SingleBarChart.methods
     MultipleBarChart.methods Histogram.methods
     v_check_inputs v_get_min_max v_get_ticks v_get_grid_range v_plot].

Lemma ranges_and_grid_ni (v : variant) (self : chart) :
  not_invalid (outcome (ranges_and_grid (methods_of v) self)).
Proof.
  unfold ranges_and_grid.
  destruct v; unfold_methods;
    unfold BasePlot.get_min_max, BasePlot.get_ticks,
      BasePlot.get_grid_range, BasePlot.get_grid, LineChart.get_grid_range,
      SingleBarChart.get_grid_range, MultipleBarChart.get_grid_range,
      MultipleBarChart.half_span,
      Histogram.get_min_max, Histogram.get_ticks, Histogram.get_grid_range;
    ni_plt.
Qed.

Lemma plot_ni (v : variant) (self : chart) :
  not_invalid (outcome (v_plot (methods_of v) self)).
Proof.
  destruct v; unfold_methods;
    unfold BasePlot.plot, LineChart.plot, SingleBarChart.plot,
      MultipleBarChart.plot, MultipleBarChart.half_span, Histogram.plot;
    ni_plt.
Qed.

Lemma include_text_ni (self : chart) :
  not_invalid (outcome (BasePlot.include_text self)).
Proof. unfold BasePlot.include_text. ni_plt. Qed.

(** Past validation, no stage of a render raises [InvalidInputException]. *)
Lemma render_checked_not_invalid (v : variant) (self self1 : chart) :
  v_check_inputs (methods_of v) self = (inr self1, []) ->
  not_invalid (outcome (render v self)).
Proof.
  intros H. unfold render, BasePlot.call.
  rewrite (set_up_chart_checked _ _ H).
  pose proof (ranges_and_grid_ni v (set_ax (Some (Axes 111)) self1)) as N.
  destruct (ranges_and_grid (methods_of v) (set_ax (Some (Axes 111)) self1))
    as [[e | c] w]; cbn [outcome events fst snd bind] in *; [exact N |].
  change (not_invalid
            (outcome
               (bind (inr c, style_calls ++ w)
                  (fun self =>
                     bind (v_plot (methods_of v) self)
                       (fun self =>
                          bind (BasePlot.include_text self)
                            (fun self => bind (emit plt_show) (fun _ => ret self))))))).
  apply ni_bind; [exact I |]. intros c1.
  apply ni_bind; [apply plot_ni |]. intros c2.
  apply ni_bind; [apply include_text_ni |]. intros c3.
  exact I.
Qed.

(** C3.  For every chart class and every chart object: the validation hook
    makes no backend call; when it raises, [render] raises the same exception
    and has made no backend call at all (no font setting, no subplot, no
    spine removal, no ticks, no grid, no plot); a render that raises
    [InvalidInputException] has made no backend call, since no later stage
    raises it; and a render that made any backend call had its validation
    hook return first. *)
Theorem validation_precedes_drawing (v : variant) (self : chart) :
  events (v_check_inputs (methods_of v) self) = [] /\
  (forall e, outcome (v_check_inputs (methods_of v) self) = inl e ->
             render v self = (inl e, [])) /\
  (forall msg, outcome (render v self) = inl (InvalidInputException msg) ->
               render v self = (inl (InvalidInputException msg), [])) /\
  (events (render v self) <> [] ->
   exists self', v_check_inputs (methods_of v) self = (inr self', [])).
Proof.
  split; [apply check_inputs_draws_nothing |].
  split; [intros e; apply render_stops_at_check_inputs |].
  split; [| apply render_draws_after_check_inputs].
  intros msg H.
  pose proof (check_inputs_draws_nothing v self) as Hw.
  destruct (v_check_inputs (methods_of v) self) as [[e | c] w] eqn:E;
    simpl in Hw; subst w.
  - assert (R : render v self = (inl e, [])).
    { apply render_stops_at_check_inputs. rewrite E. reflexivity. }
    rewrite R in H. simpl in H. inversion H; subst e. exact R.
  - pose proof (render_checked_not_invalid v self E) as N.
    rewrite H in N. destruct N.
Qed.

Lemma validation_precedes_drawing_witness :
  exists self,
    SingleBarChart.init (strs ["A"; "B"; "C"; "D"; "E"]%string)
      (PList [ints [10; 30; 70; 100; 150]; ints [20; 40; 80; 120; 30]])
      (PInt 1) (PInt 10) (PStr "Sample x-axis") (PStr "Sample y-axis") PNone
      (PStr "Sample plot") = ok self /\
    render SingleBar self =
    (inl (InvalidInputException "This function plots only one bar"), []).
Proof.
  eexists. split; [reflexivity |].
  apply (proj1 (proj2 (validation_precedes_drawing SingleBar _))).
  reflexivity.
Defined.

(** ** Single-bar validation *)

Lemma SingleBarChart_check_inputs_spec (self : chart) :
  SingleBarChart.check_inputs self =
  match py_iter (y_data self) with
  | inl e => (inl e, [])
  | inr l =>
      if existsb is_sequence l
      then (inl (InvalidInputException "This function plots only one bar"), [])
      else (inr self, [])
  end.
Proof.
  unfold SingleBarChart.check_inputs, bind, lift.
  destruct (py_iter (y_data self)) as [e | l]; simpl; [reflexivity |].
  replace (existsb is_sequence l)
    with (existsb isinstance_ndarray l || existsb isinstance_list l).
  - destruct (existsb isinstance_ndarray l || existsb isinstance_list l); reflexivity.
  - induction l as [| x l IH]; simpl; [reflexivity |].
    rewrite <- IH. unfold is_sequence.
    destruct (isinstance_list x), (isinstance_ndarray x),
      (existsb isinstance_ndarray l), (existsb isinstance_list l); reflexivity.
Qed.

Lemma py_iter_not_invalid (v : pyval) (msg : string) :
  py_iter v <> inl (InvalidInputException msg).
Proof. destruct v; simpl; discriminate. Qed.

(** C1, as the code has it.  Constructing a single-bar chart validates
    nothing: it returns an object for every [x] that has a length, nested [y]
    or not.  Rendering an object constructed with a nested [y] raises
    [InvalidInputException], whatever [x] is, before any backend call. *)
Theorem SingleBarChart_nested_y_rejected_at_render
        (x y dx dy xl yl yd t : pyval) :
  (forall n, py_len x = ok n ->
     exists self, SingleBarChart.init x y dx dy xl yl yd t = ok self) /\
  (forall self,
     SingleBarChart.init x y dx dy xl yl yd t = ok self ->
     nested y ->
     render SingleBar self =
     (inl (InvalidInputException "This function plots only one bar"), [])).
Proof.
  split.
  - intros n Hn. unfold SingleBarChart.init. simpl. rewrite Hn. simpl. eauto.
  - intros self Hinit (l & Hl & Hex).
    apply render_stops_at_check_inputs.
    change (v_check_inputs (methods_of SingleBar) self)
      with (SingleBarChart.check_inputs self).
    rewrite SingleBarChart_check_inputs_spec.
    assert (Hy : y_data self = y).
    { unfold SingleBarChart.init in Hinit. simpl in Hinit.
      destruct (py_len x) as [e | n]; simpl in Hinit; [discriminate |].
      inversion Hinit. reflexivity. }
    rewrite Hy, Hl. unfold ok. cbv iota beta. rewrite Hex. reflexivity.
Qed.

Lemma SingleBarChart_nested_y_rejected_at_render_witness :
  exists self,
    SingleBarChart.init (strs ["A"; "B"]%string)
      (PList [ints [10; 30]; ints [20; 40]])
      (PInt 1) (PInt 10) PNone PNone PNone PNone = ok self /\
    render SingleBar self =
    (inl (InvalidInputException "This function plots only one bar"), []).
Proof.
  eexists. split; [reflexivity |].
  apply (proj2 (SingleBarChart_nested_y_rejected_at_render
                  (strs ["A"; "B"]%string)
                  (PList [ints [10; 30]; ints [20; 40]])
                  (PInt 1) (PInt 10) PNone PNone PNone PNone)).
  - reflexivity.
  - exists [ints [10; 30]; ints [20; 40]]. split; reflexivity.
Defined.

(** C1 as stated fails: the constructor returns an object for the nested
    [y] of the claim; no exception is raised at construction time. *)
Lemma SingleBarChart_init_accepts_nested_y :
  exists self,
    SingleBarChart.init (strs ["A"; "B"]%string)
      (PList [ints [10; 30]; ints [20; 40]])
      (PInt 1) (PInt 10) PNone PNone PNone PNone = ok self /\
    nested (y_data self) /\
    forall msg,
      SingleBarChart.init (strs ["A"; "B"]%string)
        (PList [ints [10; 30]; ints [20; 40]])
        (PInt 1) (PInt 10) PNone PNone PNone PNone
      <> throw (InvalidInputException msg).
Proof.
  eexists. split; [reflexivity |]. split.
  - exists [ints [10; 30]; ints [20; 40]]. split; reflexivity.
  - intros msg. discriminate.
Qed.

(** C4, as the code has it.  Validation of a single-bar chart raises
    [InvalidInputException] exactly when [y_data] is nested, that is, when
    some element of it is a list or an array.  Neither the length of [y_data]
    against [x_data] nor the type of its elements is looked at. *)
Theorem SingleBarChart_check_inputs_iff_nested (self : chart) :
  (exists msg,
     outcome (SingleBarChart.check_inputs self) = inl (InvalidInputException msg))
  <-> nested (y_data self).
Proof.
  rewrite SingleBarChart_check_inputs_spec. unfold nested. split.
  - intros (msg & H). destruct (py_iter (y_data self)) as [e | l] eqn:E.
    + simpl in H. inversion H; subst.
      exfalso. exact (py_iter_not_invalid _ E).
    + exists l. split; [reflexivity |].
      destruct (existsb is_sequence l); [reflexivity | discriminate].
  - intros (l & Hl & Hex). rewrite Hl. unfold ok. cbv iota beta.
    rewrite Hex. simpl. eauto.
Qed.

Lemma SingleBarChart_check_inputs_iff_nested_witness :
  exists msg,
    outcome (SingleBarChart.check_inputs
               (BasePlot.init (strs ["A"; "B"]%string)
                  (PList [ints [10; 30]; ints [20; 40]])
                  (PInt 1) (PInt 10) PNone PNone PNone PNone))
    = inl (InvalidInputException msg).
Proof.
  apply (proj2 (SingleBarChart_check_inputs_iff_nested _)).
  exists [ints [10; 30]; ints [20; 40]]. split; reflexivity.
Defined.

(** C4 as stated fails: a flat numeric [y] of two values against an [x] of
    three labels passes validation. *)
Lemma SingleBarChart_check_inputs_ignores_length :
  exists self,
    SingleBarChart.init (strs ["A"; "B"; "C"]%string) (ints [10; 30])
      (PInt 1) (PInt 10) PNone PNone PNone PNone = ok self /\
    py_len (x_data self) = ok 3 /\
    py_len (y_data self) = ok 2 /\
    SingleBarChart.check_inputs self = (inr self, []).
Proof.
  eexists. split; [reflexivity |]. repeat split.
Qed.

(** ** The display is flushed twice *)

Lemma set_up_chart_no_show (v : variant) (self : chart) :
  no_show (events (BasePlot.set_up_chart (methods_of v) self)).
Proof.
  unfold no_show, BasePlot.set_up_chart.
  destruct v; unfold_methods;
    unfold BasePlot.check_inputs, SingleBarChart.check_inputs, BasePlot.set_font,
      BasePlot.remove_spines, BasePlot.get_min_max, BasePlot.get_ticks,
      BasePlot.get_grid_range, BasePlot.get_grid, LineChart.get_grid_range,
      SingleBarChart.get_grid_range, MultipleBarChart.get_grid_range,
      Histogram.get_min_max, Histogram.get_ticks, Histogram.get_grid_range;
    events_all.
Qed.

Lemma plot_no_show (v : variant) (self : chart) :
  no_show (events (v_plot (methods_of v) self)).
Proof.
  unfold no_show.
  destruct v; unfold_methods;
    unfold BasePlot.plot, LineChart.plot, SingleBarChart.plot,
      MultipleBarChart.plot, Histogram.plot;
    events_all.
Qed.

Lemma optional_call_inv (t : bool) (ev : event) (u : unit) (w : list event) :
  (if t then emit ev else ret tt) = (inr u, w) -> w = if t then [ev] else [].
Proof. destruct t; intros H; inversion H; reflexivity. Qed.

Lemma no_show_app (a b : list event) : no_show a -> no_show b -> no_show (a ++ b).
Proof. intros Ha Hb. apply Forall_app. split; assumption. Qed.

Lemma no_show_optional (t : bool) (ev : event) :
  is_show ev = false -> no_show (if t then [ev] else []).
Proof. intros H. destruct t; repeat constructor. exact H. Qed.

(** [include_text] ends with [plt.show()], its only display flush. *)
Lemma include_text_shows (self self' : chart) (w : list event) :
  BasePlot.include_text self = (inr self', w) ->
  exists wt, w = wt ++ [plt_show] /\ no_show wt.
Proof.
  unfold BasePlot.include_text. intros H.
  repeat (apply bind_inv in H; destruct H as (? & ? & ? & ? & H & ?)).
  repeat match goal with
         | H : lift _ = (inr _, _) |- _ => apply lift_inv in H; destruct H
         | H : (if _ then emit _ else ret tt) = (inr _, _) |- _ =>
             apply optional_call_inv in H
         | H : emit _ = (inr _, _) |- _ => inversion H; clear H
         | H : ret _ = (inr _, _) |- _ => inversion H; clear H
         end.
  subst. simpl. rewrite ?app_nil_r.
  eexists. rewrite !app_assoc. split; [reflexivity |].
  repeat (apply no_show_app; [| apply no_show_optional; reflexivity]).
  apply no_show_optional; reflexivity.
Qed.

Lemma count_show_app (a b : list event) :
  count_show (a ++ b) = (count_show a + count_show b)%nat.
Proof. unfold count_show. rewrite filter_app, length_app. reflexivity. Qed.

Lemma count_show_no_show (w : list event) : no_show w -> count_show w = 0%nat.
Proof.
  unfold no_show, count_show. induction 1 as [| ev w Hev _ IH]; simpl.
  - reflexivity.
  - rewrite Hev. exact IH.
Qed.

(** C10.  A render that returns has flushed the display exactly twice: the
    backend calls end with the [plt.show()] that closes [include_text]
    followed by the [plt.show()] of [__call__], and no call before them is a
    flush. *)
Theorem render_flushes_twice (v : variant) (self self' : chart) (w : list event) :
  render v self = (inr self', w) ->
  exists c1 c2 w0 wt,
    BasePlot.include_text c1 = (inr c2, wt ++ [plt_show]) /\
    w = w0 ++ (wt ++ [plt_show]) ++ [plt_show] /\
    count_show (w0 ++ wt) = 0%nat /\
    count_show w = 2%nat.
Proof.
  unfold render, BasePlot.call. intros H.
  apply bind_inv in H. destruct H as (c0 & w1 & r1 & Hset & H & ->).
  apply bind_inv in H. destruct H as (c1 & w2 & r2 & Hplot & H & ->).
  apply bind_inv in H. destruct H as (c2 & w3 & r3 & Htext & H & ->).
  apply bind_inv in H. destruct H as (u & w4 & r4 & Hshow & H & ->).
  inversion Hshow; subst. inversion H; subst. clear Hshow H.
  destruct (include_text_shows _ Htext) as (wt & Ew & Hwt). subst w3.
  pose proof (set_up_chart_no_show v self) as N1. rewrite Hset in N1.
  pose proof (plot_no_show v c0) as N2. rewrite Hplot in N2.
  simpl in N1, N2.
  assert (N : count_show ((w1 ++ w2) ++ wt) = 0%nat).
  { rewrite !count_show_app, !count_show_no_show by assumption. reflexivity. }
  exists c1, self', (w1 ++ w2), wt. repeat split.
  - exact Htext.
  - rewrite app_nil_r, <- !app_assoc. reflexivity.
  - exact N.
  - rewrite app_nil_r.
    replace (w1 ++ w2 ++ (wt ++ [plt_show]) ++ [plt_show])
      with (((w1 ++ w2) ++ wt) ++ [plt_show; plt_show])
      by (rewrite <- !app_assoc; reflexivity).
    rewrite count_show_app, N. reflexivity.
Qed.

Lemma render_flushes_twice_witness :
  exists self' w,
    render Line
      (LineChart.init (ints [0; 1; 2; 3; 4])
         (PList [ints [10; 30; 70; 100; 150]; ints [20; 40; 80; 120; 30]])
         (PInt 1) (PInt 10) (PStr "Sample x-axis") PNone
         (strs ["Line 1"; "Line 2"]%string) (PStr "Sample plot"))
    = (inr self', w) /\
    count_show w = 2%nat.
Proof.
  eexists. eexists. split; [vm_compute; reflexivity |].
  destruct (render_flushes_twice Line
              (LineChart.init (ints [0; 1; 2; 3; 4])
                 (PList [ints [10; 30; 70; 100; 150]; ints [20; 40; 80; 120; 30]])
                 (PInt 1) (PInt 10) (PStr "Sample x-axis") PNone
                 (strs ["Line 1"; "Line 2"]%string) (PStr "Sample plot"))
              (ltac:(vm_compute; reflexivity)))
    as (_ & _ & _ & _ & _ & _ & _ & H).
  exact H.
Defined.

(** ** The abstract hooks *)

(** C9.  [get_grid_range] and [plot] of the base class raise
    [NotImplementedError] on every object, without a backend call.  Rendering
    an object of the base class therefore never returns; when the stages
    before the grid range ([get_min_max], [get_ticks]) return, the exception
    of the render is the [NotImplementedError] of [get_grid_range]. *)
Theorem abstract_hooks_not_implemented :
  (forall self, BasePlot.get_grid_range self = (inl NotImplementedError, [])) /\
  (forall self, BasePlot.plot self = (inl NotImplementedError, [])) /\
  (forall self, exists e, outcome (render Base self) = inl e) /\
  (forall self c1 c2 w,
     BasePlot.get_min_max (set_ax (Some (Axes 111)) self) = (inr c1, []) ->
     BasePlot.get_ticks c1 = (inr c2, w) ->
     render Base self = (inl NotImplementedError, style_calls ++ w)).
Proof.
  assert (G : forall c,
             exists e, outcome (ranges_and_grid BasePlot.methods c) = inl e).
  { intros c. unfold ranges_and_grid. unfold_methods.
    destruct (BasePlot.get_min_max c) as [[e | c1] w1]; simpl; [eauto |].
    destruct (BasePlot.get_ticks c1) as [[e | c2] w2]; simpl; eauto. }
  split; [reflexivity |]. split; [reflexivity |]. split.
  - intros self. destruct (G (set_ax (Some (Axes 111)) self)) as (e & He).
    exists e. unfold render, BasePlot.call.
    rewrite (set_up_chart_checked (methods_of Base) self (self1 := self))
      by reflexivity.
    change (methods_of Base) with BasePlot.methods. rewrite He. reflexivity.
  - intros self c1 c2 w Hmm Ht.
    unfold render, BasePlot.call.
    rewrite (set_up_chart_checked (methods_of Base) self (self1 := self))
      by reflexivity.
    change (methods_of Base) with BasePlot.methods.
    unfold ranges_and_grid. unfold_methods.
    rewrite Hmm. simpl. rewrite Ht. simpl. rewrite app_nil_r. reflexivity.
Qed.

Lemma abstract_hooks_not_implemented_witness :
  exists w,
    render Base
      (BasePlot.init (ints [0; 1; 2]) (PList [ints [10; 30; 20]])
         (PInt 1) (PInt 10) PNone PNone PNone PNone)
    = (inl NotImplementedError, style_calls ++ w).
Proof.
  eexists.
  eapply (proj2 (proj2 (proj2 abstract_hooks_not_implemented))).
  - vm_compute. reflexivity.
  - vm_compute. reflexivity.
Defined.

(** ** What a render leaves unchanged *)

Lemma try_except_inv {A} (m h : pyresult A) (a : A) :
  try_except_TypeError m h = ok a -> m = ok a \/ h = ok a.
Proof. destruct m as [[] |]; simpl; auto; discriminate. Qed.

Lemma for_each_keeps {A B} (f : chart -> B) (l : list A)
      (body : A -> chart -> plt chart) :
  (forall x, keeps f (body x)) -> keeps f (for_each l body).
Proof.
  intros Hb. induction l as [| x l IH]; intros self self' w H; simpl in H.
  - inversion H. reflexivity.
  - apply bind_inv in H. destruct H as (s1 & w1 & w2 & H1 & H2 & _).
    rewrite (IH _ _ _ H2). eapply Hb; eauto.
Qed.

(** Takes apart every hypothesis that says a computation returned. *)
Ltac inv_plt :=
  repeat match goal with
         | H : bind _ _ = (inr _, _) |- _ =>
             apply bind_inv in H; destruct H as (? & ? & ? & ? & H & ?)
         | H : lift _ = (inr _, _) |- _ => apply lift_inv in H; destruct H
         | H : rbind _ _ = ok _ |- _ =>
             apply rbind_inv in H; destruct H as (? & ? & H)
         | H : rbind _ _ = inr _ |- _ =>
             apply rbind_inv in H; destruct H as (? & ? & H)
         | H : ret _ = (inr _, _) |- _ => inversion H; clear H
         | H : emit _ = (inr _, _) |- _ => inversion H; clear H
         | H : raise _ = (inr _, _) |- _ => discriminate H
         | H : ok _ = ok _ |- _ => inversion H; clear H
         | H : ok _ = inr _ |- _ => inversion H; clear H
         | H : throw _ = ok _ |- _ => discriminate H
         | H : try_except_TypeError _ _ = ok _ |- _ =>
             apply try_except_inv in H; destruct H as [H | H]
         | H : (if ?b then _ else _) = (inr _, _) |- _ => destruct b
         | H : (if ?b then _ else _) = ok _ |- _ => destruct b
         | H : match ?o with Some _ => _ | None => _ end = (inr _, _) |- _ =>
             destruct o
         end.

Lemma check_inputs_returns_self (v : variant) (self self' : chart) (w : list event) :
  v_check_inputs (methods_of v) self = (inr self', w) -> self' = self.
Proof.
  destruct v; unfold_methods;
    unfold BasePlot.check_inputs, SingleBarChart.check_inputs;
    intros H; inv_plt; subst; reflexivity.
Qed.

Lemma remove_spines_returns_self (self self' : chart) (w : list event) :
  BasePlot.remove_spines self = (inr self', w) -> self' = self.
Proof. unfold BasePlot.remove_spines. intros H. inv_plt; subst; reflexivity. Qed.

Lemma get_min_max_keeps_inputs (v : variant) :
  keeps inputs (v_get_min_max (methods_of v)).
Proof.
  destruct v; unfold_methods; intros self self' w H;
    unfold BasePlot.get_min_max, Histogram.get_min_max in H;
    inv_plt; subst; reflexivity.
Qed.

Lemma get_ticks_returns_self (v : variant) (self self' : chart) (w : list event) :
  v_get_ticks (methods_of v) self = (inr self', w) -> self' = self.
Proof.
  destruct v; unfold_methods;
    unfold BasePlot.get_ticks, Histogram.get_ticks;
    intros H; inv_plt; subst; reflexivity.
Qed.

Lemma get_grid_range_keeps_inputs (v : variant) :
  keeps inputs (v_get_grid_range (methods_of v)).
Proof.
  destruct v; unfold_methods; intros self self' w H;
    unfold BasePlot.get_grid_range, LineChart.get_grid_range,
      SingleBarChart.get_grid_range, MultipleBarChart.get_grid_range,
      Histogram.get_grid_range in H;
    inv_plt; subst; reflexivity.
Qed.

Lemma get_grid_returns_self (self self' : chart) (w : list event) :
  BasePlot.get_grid self = (inr self', w) -> self' = self.
Proof.
  unfold BasePlot.get_grid. intros H. inv_plt.
  eapply (for_each_keeps (f := fun c => c)) in H; [exact H |].
  intros y s s' w' Hb. inv_plt; subst; reflexivity.
Qed.

Lemma plot_returns_self (v : variant) (self self' : chart) (w : list event) :
  v_plot (methods_of v) self = (inr self', w) -> self' = self.
Proof.
  destruct v; unfold_methods;
    unfold BasePlot.plot, LineChart.plot, SingleBarChart.plot,
      MultipleBarChart.plot, Histogram.plot;
    intros H; inv_plt; subst; try reflexivity.
  eapply (for_each_keeps (f := fun c => c)) in H; [exact H |].
  intros [i y] s s' w' Hb. inv_plt; subst; reflexivity.
Qed.

Lemma include_text_returns_self (self self' : chart) (w : list event) :
  BasePlot.include_text self = (inr self', w) -> self' = self.
Proof.
  unfold BasePlot.include_text. intros H.
  repeat (apply bind_inv in H; destruct H as (? & ? & ? & _ & H & _)).
  inversion H. reflexivity.
Qed.

(** The stages of [set_up_chart], one by one. *)
Lemma set_up_chart_inv (v : variant) (self self' : chart) (w : list event) :
  BasePlot.set_up_chart (methods_of v) self = (inr self', w) ->
  exists c1 w1 w2 w3 w4,
    v_check_inputs (methods_of v) self = (inr self, []) /\
    v_get_min_max (methods_of v) (set_ax (Some (Axes 111)) self) = (inr c1, w1) /\
    v_get_ticks (methods_of v) c1 = (inr c1, w2) /\
    v_get_grid_range (methods_of v) c1 = (inr self', w3) /\
    BasePlot.get_grid self' = (inr self', w4) /\
    w = style_calls ++ w1 ++ w2 ++ w3 ++ w4.
Proof.
  intros H.
  destruct (v_check_inputs (methods_of v) self) as [[e | c0] w0] eqn:Hc.
  - unfold BasePlot.set_up_chart in H. rewrite Hc in H. discriminate.
  - pose proof (check_inputs_draws_nothing v self) as Hw. rewrite Hc in Hw.
    simpl in Hw. subst w0.
    assert (c0 = self) by (eapply check_inputs_returns_self; eauto); subst c0.
    rewrite (set_up_chart_checked _ _ Hc) in H.
    unfold ranges_and_grid in H.
    destruct (v_get_min_max (methods_of v) (set_ax (Some (Axes 111)) self))
      as [[e | c1] w1] eqn:H1; cbn [bind] in H; [discriminate |].
    destruct (v_get_ticks (methods_of v) c1) as [[e | c2] w2] eqn:H2;
      cbn [bind] in H; [discriminate |].
    assert (c2 = c1) by (eapply get_ticks_returns_self; eauto); subst c2.
    destruct (v_get_grid_range (methods_of v) c1) as [[e | c3] w3] eqn:H3;
      cbn [bind] in H; [discriminate |].
    destruct (BasePlot.get_grid c3) as [[e | c4] w4] eqn:H4;
      cbn [bind] in H; [discriminate |].
    assert (c4 = c3) by (eapply get_grid_returns_self; eauto); subst c4.
    simpl in H. inversion H; subst.
    exists c1, w1, w2, w3, w4. repeat split; auto.
Qed.

Lemma set_up_chart_keeps_inputs (v : variant) :
  keeps inputs (BasePlot.set_up_chart (methods_of v)).
Proof.
  intros self self' w H.
  destruct (set_up_chart_inv v self H) as (c1 & w1 & w2 & w3 & w4 & _ & H1 & _ & H3 & _).
  rewrite (@get_grid_range_keeps_inputs v _ _ _ H3).
  rewrite (@get_min_max_keeps_inputs v _ _ _ H1). reflexivity.
Qed.

(** The stages of a render that returns: the set-up, the plot and the text,
    in this order, followed by the last [plt.show()]. *)
Lemma render_inv (v : variant) (self self' : chart) (w : list event) :
  render v self = (inr self', w) ->
  exists ws wp wt,
    BasePlot.set_up_chart (methods_of v) self = (inr self', ws) /\
    v_plot (methods_of v) self' = (inr self', wp) /\
    BasePlot.include_text self' = (inr self', wt) /\
    w = ws ++ wp ++ wt ++ [plt_show].
Proof.
  unfold render, BasePlot.call. intros H.
  apply bind_inv in H. destruct H as (c0 & ws & r1 & Hset & H & ->).
  apply bind_inv in H. destruct H as (c1 & wp & r2 & Hplot & H & ->).
  apply bind_inv in H. destruct H as (c2 & wt & r3 & Htext & H & ->).
  apply bind_inv in H. destruct H as (u & w4 & r4 & Hshow & H & ->).
  assert (c1 = c0) by (eapply plot_returns_self; eauto); subst c1.
  assert (c2 = c0) by (eapply include_text_returns_self; eauto); subst c2.
  inversion Hshow; subst. inversion H; subst. clear Hshow H.
  exists ws, wp, wt. repeat split; auto.
Qed.

Lemma inputs_bar_width (c c' : chart) :
  inputs c' = inputs c -> bar_width c' = bar_width c.
Proof. unfold inputs. intros H. inversion H. reflexivity. Qed.

Lemma render_keeps_inputs (v : variant) : keeps inputs (render v).
Proof.
  intros self self' w H.
  destruct (render_inv v self H) as (ws & wp & wt & Hs & _).
  exact (@set_up_chart_keeps_inputs v _ _ _ Hs).
Qed.

(** ** The width of the bars of a multiple-bar chart *)

(** C6.  The constructor of a multiple-bar chart returns an object whenever
    [x] and [y] have a length, and the [bar_width] of the object is 0.25 when
    [y] has fewer than 5 series and 0.1 otherwise.  The constructor has no
    argument for the width, and a render leaves [bar_width] as it is. *)
Theorem MultipleBarChart_bar_width (x y dx dy xl yl yd t : pyval) :
  (forall n k, py_len x = ok n -> py_len y = ok k ->
     exists self, MultipleBarChart.init x y dx dy xl yl yd t = ok self) /\
  (forall self,
     MultipleBarChart.init x y dx dy xl yl yd t = ok self ->
     exists k,
       py_len y = ok k /\
       bar_width self = PFloat (if k <? 5 then 0.25 else 0.1) /\
       (k < 5 -> bar_width self = PFloat 0.25) /\
       (5 <= k -> bar_width self = PFloat 0.1) /\
       (forall self' w,
          render MultipleBar self = (inr self', w) ->
          bar_width self' = bar_width self)).
Proof.
  split.
  - intros n k Hn Hk. unfold MultipleBarChart.init. simpl.
    rewrite Hn. simpl. rewrite Hk. simpl. eauto.
  - intros self H. unfold MultipleBarChart.init in H. simpl in H.
    destruct (py_len x) as [e | n]; simpl in H; [discriminate |].
    destruct (py_len y) as [e | k]; simpl in H; [discriminate |].
    inversion H; subst. clear H.
    exists k. split; [reflexivity |]. split; [reflexivity |].
    split; [| split].
    + intros Hk. simpl. apply Z.ltb_lt in Hk. rewrite Hk. reflexivity.
    + intros Hk. simpl. apply Z.ltb_ge in Hk. rewrite Hk. reflexivity.
    + intros self' w Hr. apply inputs_bar_width.
      exact (@render_keeps_inputs MultipleBar _ _ _ Hr).
Qed.

Lemma MultipleBarChart_bar_width_witness :
  exists self,
    MultipleBarChart.init (strs ["A"; "B"; "C"; "D"; "E"]%string)
      (PList [ints [10; 30; 70; 100; 150]; ints [20; 40; 80; 120; 30];
              ints [10; 30; 70; 100; 150]])
      (PInt 1) (PInt 10) (PStr "Sample x-axis") PNone
      (strs ["Line 1"; "Line 2"; "Line 3"]%string) (PStr "Sample plot")
    = ok self /\
    bar_width self = PFloat 0.25.
Proof.
  eexists. split; [reflexivity |].
  destruct (proj2 (MultipleBarChart_bar_width
                     (strs ["A"; "B"; "C"; "D"; "E"]%string)
                     (PList [ints [10; 30; 70; 100; 150]; ints [20; 40; 80; 120; 30];
                             ints [10; 30; 70; 100; 150]])
                     (PInt 1) (PInt 10) (PStr "Sample x-axis") PNone
                     (strs ["Line 1"; "Line 2"; "Line 3"]%string)
                     (PStr "Sample plot")) _ eq_refl)
    as (k & Hk & _ & Hlt & _).
  apply Hlt. simpl in Hk. inversion Hk. lia.
Defined.

(** ** The series of a line chart *)

Lemma tableau20_length : List.length tableau20 = 20%nat.
Proof. reflexivity. Qed.

Lemma tableau20_at_lt (i : nat) :
  (i < 20)%nat -> tableau20_at i = ok (nth (i mod 20) tableau20 (0, 0, 0)%Q).
Proof.
  intros H. unfold tableau20_at.
  rewrite Nat.mod_small by exact H.
  rewrite (nth_error_nth' tableau20 (0, 0, 0)%Q) by (rewrite tableau20_length; exact H).
  reflexivity.
Qed.

Lemma descriptor_labels (self : chart) (k : nat) (labels : list pyval) (i : nat) :
  labels_for self k labels -> (i < k)%nat ->
  descriptor self i = ok (nth i labels PNone).
Proof.
  intros [[Ht ->] | (ds & Hd & Hne & Hk & ->)] Hi; unfold descriptor.
  - rewrite Ht. simpl. rewrite nth_repeat_lt by exact Hi. reflexivity.
  - rewrite Hd. simpl. destruct ds as [| d ds]; [congruence |].
    cbv iota beta.
    assert (Hn : nth_error (d :: ds) i = Some (nth i (firstn k (d :: ds)) PNone)).
    { rewrite <- (firstn_skipn k (d :: ds)) at 1.
      rewrite nth_error_app1 by (rewrite length_firstn; lia).
      apply nth_error_nth'. rewrite length_firstn. lia. }
    rewrite Hn. reflexivity.
Qed.

Lemma LineChart_plot_loop (self : chart) (labels : list pyval) (k : nat) :
  labels_for self k labels -> (k <= 20)%nat ->
  forall (ys : list pyval) (s : nat),
    (s + List.length ys <= k)%nat ->
    for_each (combine (seq s (List.length ys)) ys)
      (fun (it : nat * pyval) self =>
         let (index, y_arr) := it in
         c <- lift (tableau20_at index) ;;
         label <- lift (descriptor self index) ;;
         _ <- emit (plt_plot (x_data self) y_arr None 1 (RGB c) None label) ;;
         ret self)
      self
    = (inr self,
       map (fun it : nat * pyval =>
              plt_plot (x_data self) (snd it) None 1 (palette (fst it)) None
                       (nth (fst it) labels PNone))
           (combine (seq s (List.length ys)) ys)).
Proof.
  intros Hl Hk. induction ys as [| y ys IH]; intros s Hs;
    cbn [List.length seq combine for_each map].
  - reflexivity.
  - cbn [List.length] in Hs.
    rewrite (bind_lift_ok _ (tableau20_at_lt (i := s) ltac:(lia))).
    rewrite (bind_lift_ok _ (descriptor_labels (i := s) Hl ltac:(lia))).
    cbn [bind emit ret]. rewrite IH by lia. reflexivity.
Qed.

Lemma LineChart_plot_spec (self : chart) (ys labels : list pyval) :
  py_iter (y_data self) = ok ys ->
  (List.length ys <= 20)%nat ->
  labels_for self (List.length ys) labels ->
  LineChart.plot self = (inr self, line_calls self labels ys).
Proof.
  intros Hy Hk Hl. unfold LineChart.plot.
  rewrite (bind_lift_ok _ Hy).
  unfold enumerate, line_calls.
  apply (LineChart_plot_loop Hl Hk ys 0). lia.
Qed.

Lemma set_up_chart_no_series (v : variant) (self : chart) :
  Forall (fun ev => is_series ev = false)
         (events (BasePlot.set_up_chart (methods_of v) self)).
Proof.
  unfold BasePlot.set_up_chart.
  destruct v; unfold_methods;
    unfold BasePlot.check_inputs, SingleBarChart.check_inputs, BasePlot.set_font,
      BasePlot.remove_spines, BasePlot.get_min_max, BasePlot.get_ticks,
      BasePlot.get_grid_range, BasePlot.get_grid, LineChart.get_grid_range,
      SingleBarChart.get_grid_range, MultipleBarChart.get_grid_range,
      Histogram.get_min_max, Histogram.get_ticks, Histogram.get_grid_range;
    events_all.
Qed.

Lemma include_text_no_series (self : chart) :
  Forall (fun ev => is_series ev = false) (events (BasePlot.include_text self)).
Proof. unfold BasePlot.include_text. events_all. Qed.

Lemma filter_none {A} (f : A -> bool) (l : list A) :
  Forall (fun x => f x = false) l -> filter f l = [].
Proof.
  induction 1 as [| x l Hx _ IH]; simpl; [reflexivity |].
  rewrite Hx. exact IH.
Qed.

Lemma filter_all {A} (f : A -> bool) (l : list A) :
  Forall (fun x => f x = true) l -> filter f l = l.
Proof.
  induction 1 as [| x l Hx _ IH]; simpl; [reflexivity |].
  rewrite Hx, IH. reflexivity.
Qed.

(** Of the backend calls of a render that returns, the series are those of
    the plot stage. *)
Lemma render_series (v : variant) (self self' : chart) (w wp : list event) :
  render v self = (inr self', w) ->
  v_plot (methods_of v) self' = (inr self', wp) ->
  Forall (fun ev => is_series ev = true) wp ->
  filter is_series w = wp.
Proof.
  intros Hr Hp Hall.
  destruct (render_inv v self Hr) as (ws & wp' & wt & Hs & Hp' & Ht & ->).
  rewrite Hp in Hp'. inversion Hp'; subst wp'.
  pose proof (set_up_chart_no_series v self) as N1. rewrite Hs in N1.
  pose proof (include_text_no_series self') as N2. rewrite Ht in N2.
  simpl in N1, N2.
  rewrite !filter_app, (filter_none _ N1), (filter_none _ N2), (filter_all _ Hall).
  simpl. apply app_nil_r.
Qed.

Lemma nth_error_enumerate_from {A} (ys : list A) (s i : nat) (y : A) :
  nth_error ys i = Some y ->
  nth_error (combine (seq s (List.length ys)) ys) i = Some ((s + i)%nat, y).
Proof.
  revert s i. induction ys as [| y0 ys IH]; intros s [| i] H; simpl in *;
    try discriminate.
  - inversion H. rewrite Nat.add_0_r. reflexivity.
  - rewrite (IH (S s) i H). f_equal. f_equal. lia.
Qed.

Lemma nth_error_enumerate {A} (ys : list A) (i : nat) (y : A) :
  nth_error ys i = Some y -> nth_error (enumerate ys) i = Some (i, y).
Proof. intros H. exact (nth_error_enumerate_from ys 0 i H). Qed.

Lemma enumerate_length {A} (ys : list A) :
  List.length (enumerate ys) = List.length ys.
Proof.
  unfold enumerate. rewrite length_combine, length_seq. apply Nat.min_id.
Qed.

Lemma inputs_plot_data (c c' : chart) :
  inputs c' = inputs c ->
  x_data c' = x_data c /\ y_data c' = y_data c /\
  y_descriptors c' = y_descriptors c /\
  converted_x_data c' = converted_x_data c /\ bar_width c' = bar_width c.
Proof. unfold inputs. intros H. inversion H. auto. Qed.

Lemma labels_for_inputs (c c' : chart) (k : nat) (labels : list pyval) :
  y_descriptors c' = y_descriptors c ->
  labels_for c k labels -> labels_for c' k labels.
Proof. unfold labels_for. intros ->. auto. Qed.

(** C2, as the code has it.  For a line chart of [k <= 20] series, with the
    legend labels either not supplied or at least [k] of them, [plot] makes
    exactly [k] backend calls, one solid line per series; line [i] is drawn
    over [x_data] with the palette entry [i mod 20] (which is entry [i]) and
    the [i]-th legend label, [None] when no labels were supplied.  In a render
    that returns these are the only series drawn. *)
Theorem LineChart_draws_one_line_per_series (self : chart) (ys labels : list pyval) :
  py_iter (y_data self) = ok ys ->
  (List.length ys <= 20)%nat ->
  labels_for self (List.length ys) labels ->
  LineChart.plot self = (inr self, line_calls self labels ys) /\
  List.length (line_calls self labels ys) = List.length ys /\
  (forall i y,
     nth_error ys i = Some y ->
     nth_error (line_calls self labels ys) i =
     Some (plt_plot (x_data self) y None 1 (palette i) None (nth i labels PNone))) /\
  (forall self' w,
     render Line self = (inr self', w) ->
     filter is_series w = line_calls self labels ys).
Proof.
  intros Hy Hk Hl. split; [| split; [| split]].
  - apply LineChart_plot_spec; assumption.
  - unfold line_calls. rewrite length_map. apply enumerate_length.
  - intros i y Hi. unfold line_calls.
    rewrite nth_error_map, (nth_error_enumerate ys i Hi). reflexivity.
  - intros self' w Hr.
    pose proof (@render_keeps_inputs Line _ _ _ Hr) as Hin.
    destruct (inputs_plot_data Hin) as (Hx & Hyd & Hd & _).
    assert (Hp : LineChart.plot self' = (inr self', line_calls self labels ys)).
    { replace (line_calls self labels ys) with (line_calls self' labels ys)
        by (unfold line_calls; rewrite Hx; reflexivity).
      apply LineChart_plot_spec.
      - rewrite Hyd. exact Hy.
      - exact Hk.
      - apply (labels_for_inputs (c := self)); assumption. }
    apply (render_series Line self Hr Hp).
    unfold line_calls. apply Forall_map. apply Forall_forall. intros; reflexivity.
Qed.

Lemma LineChart_draws_one_line_per_series_witness :
  LineChart.plot
    (LineChart.init (ints [0; 1; 2; 3; 4])
       (PList [ints [10; 30; 70; 100; 150]; ints [20; 40; 80; 120; 30]])
       (PInt 1) (PInt 10) (PStr "Sample x-axis") PNone
       (strs ["Line 1"; "Line 2"]%string) (PStr "Sample plot"))
  = (inr (LineChart.init (ints [0; 1; 2; 3; 4])
            (PList [ints [10; 30; 70; 100; 150]; ints [20; 40; 80; 120; 30]])
            (PInt 1) (PInt 10) (PStr "Sample x-axis") PNone
            (strs ["Line 1"; "Line 2"]%string) (PStr "Sample plot")),
     [ plt_plot (ints [0; 1; 2; 3; 4]) (ints [10; 30; 70; 100; 150]) None 1
                (palette 0) None (PStr "Line 1");
       plt_plot (ints [0; 1; 2; 3; 4]) (ints [20; 40; 80; 120; 30]) None 1
                (palette 1) None (PStr "Line 2") ]).
Proof.
  refine (proj1 (LineChart_draws_one_line_per_series
                   (self := LineChart.init (ints [0; 1; 2; 3; 4])
                      (PList [ints [10; 30; 70; 100; 150]; ints [20; 40; 80; 120; 30]])
                      (PInt 1) (PInt 10) (PStr "Sample x-axis") PNone
                      (strs ["Line 1"; "Line 2"]%string) (PStr "Sample plot"))
                   (ys := [ints [10; 30; 70; 100; 150]; ints [20; 40; 80; 120; 30]])
                   (labels := [PStr "Line 1"; PStr "Line 2"])
                   eq_refl _ _)).
  - simpl. lia.
  - right. exists [PStr "Line 1"; PStr "Line 2"].
    repeat split; [discriminate | simpl; lia].
Defined.

(** C2 as stated fails for [k > 20]: with 21 series, [plot] raises
    [IndexError] at the 21st (the palette has no entry 20; no modulo is
    taken), after 20 lines; so does the render.  With two series and one
    legend label, [plot] raises [IndexError] at the second series. *)
Lemma LineChart_21_series_raise :
  (py_len (y_data (LineChart.init (ints [0; 1]) (PList (repeat (ints [1; 2]) 21))
                     (PInt 1) (PInt 10) PNone PNone PNone PNone)) = ok 21 /\
   outcome (LineChart.plot
              (LineChart.init (ints [0; 1]) (PList (repeat (ints [1; 2]) 21))
                 (PInt 1) (PInt 10) PNone PNone PNone PNone)) = inl IndexError /\
   List.length (events (LineChart.plot
              (LineChart.init (ints [0; 1]) (PList (repeat (ints [1; 2]) 21))
                 (PInt 1) (PInt 10) PNone PNone PNone PNone))) = 20%nat /\
   outcome (render Line
              (LineChart.init (ints [0; 1]) (PList (repeat (ints [1; 2]) 21))
                 (PInt 1) (PInt 10) PNone PNone PNone PNone)) = inl IndexError /\
   List.length (filter is_series (events (render Line
              (LineChart.init (ints [0; 1]) (PList (repeat (ints [1; 2]) 21))
                 (PInt 1) (PInt 10) PNone PNone PNone PNone)))) = 20%nat) /\
  (outcome (LineChart.plot
              (LineChart.init (ints [0; 1]) (PList [ints [1; 2]; ints [3; 4]])
                 (PInt 1) (PInt 10) PNone PNone (strs ["only one"]%string) PNone))
   = inl IndexError /\
   List.length (events (LineChart.plot
              (LineChart.init (ints [0; 1]) (PList [ints [1; 2]; ints [3; 4]])
                 (PInt 1) (PInt 10) PNone PNone (strs ["only one"]%string) PNone)))
   = 1%nat).
Proof. repeat split; vm_compute; reflexivity. Qed.

(** ** The series of a multiple-bar chart *)

Lemma chars_length (s : string) : List.length (chars s) = String.length s.
Proof. induction s as [| a s IH]; simpl; [reflexivity | rewrite IH; reflexivity]. Qed.

Lemma py_iter_len (v : pyval) (l : list pyval) :
  py_iter v = ok l -> py_len v = ok (Z.of_nat (List.length l)).
Proof.
  destruct v; simpl; intros H; inversion H; subst; try reflexivity.
  rewrite chars_length. reflexivity.
Qed.

Lemma half_span_spec (self : chart) (w : Q) (ys : list pyval) :
  bar_width self = PFloat w ->
  py_iter (y_data self) = ok ys ->
  MultipleBarChart.half_span self
  = ok (PFloat (w * inject_Z (Z.of_nat (List.length ys)) / inject_Z 2)).
Proof.
  intros Hw Hy. unfold MultipleBarChart.half_span.
  rewrite (py_iter_len _ Hy), Hw. reflexivity.
Qed.

Lemma array_sub_float (xs : list Z) (p : Q) :
  py_sub (PArr (map PInt xs)) (PFloat p)
  = ok (PArr (map PFloat (map (fun x => inject_Z x - p)%Q xs))).
Proof.
  simpl.
  assert (H : mapM (fun x => num_sub x (PFloat p)) (map PInt xs)
              = ok (map PFloat (map (fun x => inject_Z x - p)%Q xs))).
  { induction xs as [| x xs IH]; simpl; [reflexivity |]. rewrite IH. reflexivity. }
  rewrite H. reflexivity.
Qed.

Lemma array_add_float (qs : list Q) (h : Q) :
  py_add (PArr (map PFloat qs)) (PFloat h)
  = ok (PArr (map PFloat (map (fun q => q + h)%Q qs))).
Proof.
  simpl.
  assert (H : mapM (fun x => num_add x (PFloat h)) (map PFloat qs)
              = ok (map PFloat (map (fun q => q + h)%Q qs))).
  { induction qs as [| q qs IH]; simpl; [reflexivity |]. rewrite IH. reflexivity. }
  rewrite H. reflexivity.
Qed.

Lemma bind_emit_lift_ok {A B} (ev : event) (a : A) (f : A -> plt B) :
  bind (bind (emit ev) (fun _ => lift (ok a))) f
  = (outcome (f a), ev :: events (f a)).
Proof. unfold bind, emit, lift, ok, outcome, events. destruct (f a); reflexivity. Qed.

Lemma MultipleBarChart_plot_loop (self : chart) (w : Q) (labels : list pyval)
      (k : nat) :
  bar_width self = PFloat w ->
  labels_for self k labels -> (k <= 20)%nat ->
  forall (ys : list pyval) (s : nat) (qs : list Q),
    (s + List.length ys <= k)%nat ->
    exists qs',
      for_each (combine (seq s (List.length ys)) ys)
        (fun (it : nat * pyval) start_step =>
           let (index, y_arr) := it in
           c <- lift (tableau20_at index) ;;
           label <- lift (descriptor self index) ;;
           _ <- emit (plt_bar start_step y_arr 1 (Some (bar_width self)) (RGB c)
                              label) ;;
           lift (py_add start_step (bar_width self)))
        (PArr (map PFloat qs))
      = (inr (PArr (map PFloat qs')), bar_calls w labels s qs ys).
Proof.
  intros Hw Hl Hk. rewrite Hw. induction ys as [| y ys IH]; intros s qs Hs;
    cbn [List.length seq combine for_each bar_calls].
  - exists qs. reflexivity.
  - cbn [List.length] in Hs.
    rewrite (bind_lift_ok _ (tableau20_at_lt (i := s) ltac:(lia))).
    rewrite (bind_lift_ok _ (descriptor_labels (i := s) Hl ltac:(lia))).
    rewrite array_add_float.
    destruct (IH (S s) (map (fun q => q + w)%Q qs) ltac:(lia)) as (qs' & E).
    exists qs'. rewrite bind_emit_lift_ok, E. reflexivity.
Qed.

Lemma MultipleBarChart_plot_spec (self : chart) (xs : list Z) (w : Q)
      (ys labels : list pyval) :
  converted_x_data self = PArr (map PInt xs) ->
  bar_width self = PFloat w ->
  py_iter (y_data self) = ok ys ->
  (List.length ys <= 20)%nat ->
  labels_for self (List.length ys) labels ->
  MultipleBarChart.plot self
  = (inr self,
     bar_calls w labels 0
       (first_positions xs w (Z.of_nat (List.length ys))) ys).
Proof.
  intros Hx Hw Hy Hk Hl. unfold MultipleBarChart.plot.
  rewrite (bind_lift_ok _ (half_span_spec self Hw Hy)).
  rewrite Hx. cbn [np_array]. rewrite (bind_lift_ok _ (array_sub_float xs _)).
  rewrite Hw.
  rewrite (bind_lift_ok (r := py_mul (PFloat 0.5) (PFloat w)) _ eq_refl).
  rewrite (bind_lift_ok _ (array_add_float _ _)).
  rewrite (bind_lift_ok _ Hy).
  replace (map (fun q => q + 0.5 * w)%Q
             (map (fun x => inject_Z x
                            - w * inject_Z (Z.of_nat (List.length ys)) / inject_Z 2)%Q
                  xs))
    with (first_positions xs w (Z.of_nat (List.length ys)))
    by (unfold first_positions; rewrite map_map; reflexivity).
  destruct (MultipleBarChart_plot_loop Hw Hl Hk ys 0
              (first_positions xs w (Z.of_nat (List.length ys))) ltac:(lia))
    as (qs' & E).
  unfold enumerate. rewrite Hw in E. rewrite E.
  cbn [bind ret]. rewrite app_nil_r. reflexivity.
Qed.

Lemma bar_calls_length (w : Q) (labels : list pyval) (ys : list pyval) :
  forall (s : nat) (qs : list Q),
    List.length (bar_calls w labels s qs ys) = List.length ys.
Proof. induction ys as [| y ys IH]; intros s qs; simpl; [| rewrite IH]; reflexivity. Qed.

Lemma bar_calls_series (w : Q) (labels : list pyval) (ys : list pyval) :
  forall (s : nat) (qs : list Q),
    Forall (fun ev => is_series ev = true) (bar_calls w labels s qs ys).
Proof.
  induction ys as [| y ys IH]; intros s qs; simpl; constructor;
    [reflexivity | apply IH].
Qed.

(** Series [i] is drawn after [i] shifts of the first positions. *)
Lemma bar_calls_nth (w : Q) (labels : list pyval) (ys : list pyval) :
  forall (i s : nat) (qs : list Q) (y : pyval),
    nth_error ys i = Some y ->
    nth_error (bar_calls w labels s qs ys) i
    = Some (plt_bar
              (PArr (map PFloat (Nat.iter i (map (fun q => q + w)%Q) qs)))
              y 1 (Some (PFloat w)) (palette (s + i))
              (nth (s + i) labels PNone)).
Proof.
  induction ys as [| y0 ys IH]; intros [| i] s qs y H; simpl in H;
    try discriminate.
  - inversion H; subst. simpl. rewrite Nat.add_0_r. reflexivity.
  - cbn [bar_calls nth_error]. rewrite (IH i (S s) _ y H).
    rewrite Nat.iter_swap, <- Nat.iter_succ.
    replace (S s + i)%nat with (s + S i)%nat by lia. reflexivity.
Qed.

Lemma Forall2_map_shift (R R' : Q -> Z -> Prop) (f : Q -> Q) (qs : list Q)
      (xs : list Z) :
  (forall q x, R q x -> R' (f q) x) ->
  Forall2 R qs xs -> Forall2 R' (map f qs) xs.
Proof. intros Hf. induction 1; simpl; constructor; auto. Qed.

Lemma shifted_positions (g : Z -> Q) (w : Q) (qs : list Q) (xs : list Z) (i : nat) :
  Forall2 (fun q x => q == g x)%Q qs xs ->
  Forall2 (fun q x => q == g x + inject_Z (Z.of_nat i) * w)%Q
          (Nat.iter i (map (fun q => q + w)%Q) qs) xs.
Proof.
  intros H. induction i as [| i IH].
  - simpl. eapply Forall2_impl; [| exact H].
    intros q x E. simpl in E. rewrite E. simpl. ring.
  - rewrite Nat.iter_succ.
    eapply Forall2_map_shift; [| exact IH].
    intros q x E. simpl in E. rewrite E.
    rewrite Nat2Z.inj_succ. unfold Z.succ. rewrite inject_Z_plus. ring.
Qed.

Lemma first_positions_offset (xs : list Z) (w : Q) (n : Z) :
  Forall2 (fun q x => q == inject_Z x + (- (w * inject_Z n / 2) + w / 2))%Q
          (first_positions xs w n) xs.
Proof.
  unfold first_positions. induction xs as [| x xs IH]; simpl; constructor.
  - field.
  - exact IH.
Qed.

(** C8, as the code has it.  For a multiple-bar chart of [n <= 20] series of
    bar width [w], with the legend labels either not supplied or at least [n]
    of them, [plot] makes exactly [n] backend calls, one bar series each, of
    width [w]; series [i] is drawn at the integer positions shifted by
    [-w*n/2 + w/2 + i*w] (so the first at [-w*n/2 + w/2] and every next one
    [w] to the right of the one before), with palette entry [i] and the
    [i]-th legend label, [None] when no labels were supplied.  In a render
    that returns these are the only series drawn. *)
Theorem MultipleBarChart_draws_side_by_side
        (self : chart) (xs : list Z) (w : Q) (ys labels : list pyval) :
  converted_x_data self = PArr (map PInt xs) ->
  bar_width self = PFloat w ->
  py_iter (y_data self) = ok ys ->
  (List.length ys <= 20)%nat ->
  labels_for self (List.length ys) labels ->
  let n := Z.of_nat (List.length ys) in
  let evs := bar_calls w labels 0 (first_positions xs w n) ys in
  MultipleBarChart.plot self = (inr self, evs) /\
  List.length evs = List.length ys /\
  (forall i y,
     nth_error ys i = Some y ->
     exists qs,
       nth_error evs i
       = Some (plt_bar (PArr (map PFloat qs)) y 1 (Some (PFloat w)) (palette i)
                       (nth i labels PNone)) /\
       Forall2 (fun q x =>
                  q == inject_Z x + (- (w * inject_Z n / 2) + w / 2)
                       + inject_Z (Z.of_nat i) * w)%Q
               qs xs) /\
  (forall self' w',
     render MultipleBar self = (inr self', w') ->
     filter is_series w' = evs).
Proof.
  intros Hx Hw Hy Hk Hl n evs. split; [| split; [| split]].
  - apply MultipleBarChart_plot_spec; assumption.
  - apply bar_calls_length.
  - intros i y Hi. eexists. split.
    + unfold evs. rewrite (bar_calls_nth w labels ys i 0 _ Hi). reflexivity.
    + apply shifted_positions. apply first_positions_offset.
  - intros self' w' Hr.
    pose proof (@render_keeps_inputs MultipleBar _ _ _ Hr) as Hin.
    destruct (inputs_plot_data Hin) as (_ & Hyd & Hd & Hc & Hb).
    assert (Hp : MultipleBarChart.plot self' = (inr self', evs)).
    { apply MultipleBarChart_plot_spec.
      - rewrite Hc. exact Hx.
      - rewrite Hb. exact Hw.
      - rewrite Hyd. exact Hy.
      - exact Hk.
      - apply (labels_for_inputs (c := self)); assumption. }
    apply (render_series MultipleBar self Hr Hp).
    apply bar_calls_series.
Qed.

Lemma MultipleBarChart_draws_side_by_side_witness :
  exists self,
    MultipleBarChart.init (strs ["A"; "B"; "C"; "D"; "E"]%string)
      (PList [ints [10; 30; 70; 100; 150]; ints [20; 40; 80; 120; 30];
              ints [10; 30; 70; 100; 150]])
      (PInt 1) (PInt 10) (PStr "Sample x-axis") PNone
      (strs ["Line 1"; "Line 2"; "Line 3"]%string) (PStr "Sample plot")
    = ok self /\
    MultipleBarChart.plot self
    = (inr self,
       bar_calls 0.25 [PStr "Line 1"; PStr "Line 2"; PStr "Line 3"] 0
         (first_positions [0; 1; 2; 3; 4] 0.25 3)
         [ints [10; 30; 70; 100; 150]; ints [20; 40; 80; 120; 30];
          ints [10; 30; 70; 100; 150]]).
Proof.
  eexists. split; [reflexivity |].
  match goal with
  | |- MultipleBarChart.plot ?c = _ =>
      destruct (MultipleBarChart_draws_side_by_side
                  (self := c) [0; 1; 2; 3; 4] (w := 0.25)
                  (ys := [ints [10; 30; 70; 100; 150]; ints [20; 40; 80; 120; 30];
                          ints [10; 30; 70; 100; 150]])
                  (labels := [PStr "Line 1"; PStr "Line 2"; PStr "Line 3"]))
        as (H & _)
  end.
  - reflexivity.
  - reflexivity.
  - reflexivity.
  - simpl. lia.
  - right. exists [PStr "Line 1"; PStr "Line 2"; PStr "Line 3"].
    repeat split; [discriminate | simpl; lia].
  - exact H.
Defined.

(** C8 as stated fails for more than 20 series: with 21 series, [plot]
    raises [IndexError] at the 21st (the palette has no entry 20), so that
    series is not drawn at all; with two series and one legend label, it
    raises at the second. *)
Lemma MultipleBarChart_21_series_raise :
  (exists self,
     MultipleBarChart.init (strs ["A"; "B"]%string)
       (PList (repeat (ints [1; 2]) 21))
       (PInt 1) (PInt 10) PNone PNone PNone PNone = ok self /\
     py_len (y_data self) = ok 21 /\
     outcome (MultipleBarChart.plot self) = inl IndexError /\
     List.length (events (MultipleBarChart.plot self)) = 20%nat /\
     outcome (render MultipleBar self) = inl IndexError) /\
  (exists self,
     MultipleBarChart.init (strs ["A"; "B"]%string)
       (PList [ints [1; 2]; ints [3; 4]])
       (PInt 1) (PInt 10) PNone PNone (strs ["only one"]%string) PNone = ok self /\
     outcome (MultipleBarChart.plot self) = inl IndexError /\
     List.length (events (MultipleBarChart.plot self)) = 1%nat).
Proof.
  split; eexists; (split; [reflexivity |]); repeat split; vm_compute; reflexivity.
Qed.

(** ** The grid range of the bar charts *)

Lemma range_list_step1 (a b : Z) :
  range_list a b 1
  = map (fun i => a + Z.of_nat i * 1) (seq 0 (Z.to_nat (b - a))).
Proof.
  unfold range_list. change (0 <? 1) with true. cbv iota. f_equal. f_equal.
  destruct (a <? b) eqn:E.
  - rewrite Z.div_1_r. f_equal. lia.
  - apply Z.ltb_ge in E. lia.
Qed.

Lemma range_list_In (a b z : Z) :
  In z (range_list a b 1) <-> a <= z < b.
Proof.
  rewrite range_list_step1, in_map_iff. split.
  - intros (i & <- & Hi). apply in_seq in Hi. lia.
  - intros H. exists (Z.to_nat (z - a)). split; [lia |].
    apply in_seq. lia.
Qed.

Lemma range_list_sorted (a b : Z) : StronglySorted Z.lt (range_list a b 1).
Proof.
  rewrite range_list_step1. generalize (Z.to_nat (b - a)) as m.
  generalize 0%nat as s. intros s m. revert s.
  induction m as [| m IH]; intros s; simpl; constructor.
  - apply IH.
  - apply Forall_forall. intros z Hz. apply in_map_iff in Hz.
    destruct Hz as (i & <- & Hi). apply in_seq in Hi. lia.
Qed.

Lemma py_lt_ints (x y : Z) : py_lt (PInt x) (PInt y) = ok (x <? y).
Proof. reflexivity. Qed.

Lemma min_loop_ints (c : Z) (l : list Z) :
  Forall (fun z => c <= z) l ->
  min_loop (fun x => ok x) (PInt c) (map PInt l) = ok (PInt c).
Proof.
  induction 1 as [| z l Hz _ IH]; simpl; [reflexivity |].
  replace (z <? c) with false by (symmetry; apply Z.ltb_ge; exact Hz).
  exact IH.
Qed.

Lemma max_loop_range (a : Z) (m : nat) :
  forall s : nat,
    max_loop (fun x => ok x) (PInt (a + Z.of_nat s * 1))
      (map PInt (map (fun i => a + Z.of_nat i * 1) (seq (S s) m)))
    = ok (PInt (a + Z.of_nat (s + m) * 1)).
Proof.
  induction m as [| m IH]; intros s.
  - simpl. rewrite Nat.add_0_r. reflexivity.
  - cbn [seq map max_loop]. unfold rbind at 1. unfold ok at 1. cbv iota beta.
    rewrite py_lt_ints.
    replace (a + Z.of_nat s * 1 <? a + Z.of_nat (S s) * 1) with true
      by (symmetry; apply Z.ltb_lt; lia).
    unfold rbind, ok at 1. cbv iota beta.
    rewrite IH. do 3 f_equal. lia.
Qed.

(** The positions [0 .. n-1] of the bars have minimum 0 and maximum [n-1];
    there is no minimum of no positions. *)
Lemma positions_min_max (n : Z) :
  (n <= 0 ->
   py_min (PArr (map PInt (range_list 0 n 1))) = throw ValueError) /\
  (1 <= n ->
   py_min (PArr (map PInt (range_list 0 n 1))) = ok (PInt 0) /\
   py_max (PArr (map PInt (range_list 0 n 1))) = ok (PInt (n - 1))).
Proof.
  rewrite range_list_step1. rewrite Z.sub_0_r. split.
  - intros H. replace (Z.to_nat n) with 0%nat by lia. reflexivity.
  - intros H. destruct (Z.to_nat n) as [| m] eqn:E; [lia |].
    cbn [seq map py_min py_max py_iter rbind ok min_gen max_gen]. split.
    + apply (min_loop_ints (c := 0 + Z.of_nat 0 * 1)).
      apply Forall_forall. intros z Hz. apply in_map_iff in Hz.
      destruct Hz as (i & <- & _). lia.
    + rewrite max_loop_range. do 2 f_equal. lia.
Qed.

Lemma Qlt_bool_true (a b : Q) : (a < b)%Q -> Qlt_bool a b = true.
Proof.
  intros H. unfold Qlt_bool. destruct (Qle_bool b a) eqn:E; [| reflexivity].
  apply Qle_bool_iff in E. exfalso. exact (Qlt_not_le _ _ H E).
Qed.

Lemma Qlt_bool_false (a b : Q) : (b <= a)%Q -> Qlt_bool a b = false.
Proof.
  intros H. unfold Qlt_bool. apply Qle_bool_iff in H. rewrite H. reflexivity.
Qed.

Lemma sorted_insert_front (x : pyval) (l : list pyval) :
  match l with [] => True | y :: _ => py_lt y x = ok false end ->
  sorted_insert x l = ok (x :: l).
Proof. destruct l as [| y l]; simpl; [reflexivity |]. intros ->. reflexivity. Qed.

(** Sorting the integer positions followed by the two boundary values puts
    the first boundary value in front and leaves the rest in place. *)
Lemma py_sorted_padded (zs : list Z) (lo hi : Q) :
  StronglySorted Z.lt zs ->
  Forall (fun z => lo < inject_Z z /\ inject_Z z <= hi)%Q zs ->
  (lo <= hi)%Q ->
  py_sorted (map PInt zs ++ [PFloat lo] ++ [PFloat hi])
  = ok (PFloat lo :: map PInt zs ++ [PFloat hi]).
Proof.
  intros Hs Hb Hlh. induction zs as [| z zs IH].
  - simpl. rewrite (Qlt_bool_false Hlh). reflexivity.
  - inversion Hs as [| ? ? Hs' Hz]; subst.
    inversion Hb as [| ? ? [Hlo Hhi] Hb']; subst.
    cbn [map app py_sorted]. cbn [app] in IH. rewrite (IH Hs' Hb').
    cbn [rbind ok sorted_insert].
    change (py_lt (PFloat lo) (PInt z)) with (ok (Qlt_bool lo (inject_Z z))).
    rewrite (Qlt_bool_true Hlo). cbn [rbind ok].
    rewrite sorted_insert_front; [reflexivity |].
    destruct zs as [| z' zs']; cbn [map app].
    + change (py_lt (PFloat hi) (PInt z)) with (ok (Qlt_bool hi (inject_Z z))).
      rewrite (Qlt_bool_false Hhi). reflexivity.
    + rewrite py_lt_ints. inversion Hz; subst.
      replace (z' <? z) with false by (symmetry; apply Z.ltb_ge; lia).
      reflexivity.
Qed.

Lemma padded_sorted (zs : list Z) (lo hi : Q) :
  StronglySorted Z.lt zs ->
  Forall (fun z => lo < inject_Z z /\ inject_Z z < hi)%Q zs ->
  (lo < hi)%Q ->
  Sorted py_less (PFloat lo :: map PInt zs ++ [PFloat hi]).
Proof.
  intros Hs Hb Hlh.
  assert (T : Sorted py_less (map PInt zs ++ [PFloat hi])).
  { clear Hlh. induction zs as [| z zs IH]; simpl.
    - repeat constructor.
    - inversion Hs as [| ? ? Hs' Hz]; subst.
      inversion Hb as [| ? ? [Hlo Hhi] Hb']; subst.
      constructor; [apply IH; assumption |].
      destruct zs as [| z' zs']; simpl; constructor; unfold py_less.
      + change (py_lt (PInt z) (PFloat hi)) with (ok (Qlt_bool (inject_Z z) hi)).
        rewrite (Qlt_bool_true Hhi). reflexivity.
      + rewrite py_lt_ints. inversion Hz; subst.
        replace (z <? z') with true by (symmetry; apply Z.ltb_lt; lia).
        reflexivity. }
  constructor; [exact T |].
  destruct zs as [| z zs]; simpl; constructor; unfold py_less.
  - change (py_lt (PFloat lo) (PFloat hi)) with (ok (Qlt_bool lo hi)).
    rewrite (Qlt_bool_true Hlh). reflexivity.
  - inversion Hb as [| ? ? [Hlo _] _]; subst.
    change (py_lt (PFloat lo) (PInt z)) with (ok (Qlt_bool lo (inject_Z z))).
    rewrite (Qlt_bool_true Hlo). reflexivity.
Qed.

Lemma padded_bounds (a b : Z) (pad : Q) :
  (0 < pad)%Q ->
  Forall (fun z => inject_Z a - pad < inject_Z z /\
                   inject_Z z < inject_Z b + pad)%Q
         (range_list a (b + 1) 1).
Proof.
  intros Hp. apply Forall_forall. intros z Hz. apply range_list_In in Hz.
  assert (Ha : (inject_Z a <= inject_Z z)%Q) by (rewrite <- Zle_Qle; lia).
  assert (Hb : (inject_Z z <= inject_Z b)%Q) by (rewrite <- Zle_Qle; lia).
  split.
  - apply Qlt_le_trans with (inject_Z a); [| exact Ha].
    rewrite <- (Qplus_0_r (inject_Z a)) at 2.
    unfold Qminus. apply Qplus_lt_r.
    apply Qopp_lt_compat in Hp. exact Hp.
  - apply Qle_lt_trans with (inject_Z b); [exact Hb |].
    rewrite <- (Qplus_0_r (inject_Z b)) at 1.
    apply Qplus_lt_r. exact Hp.
Qed.

Lemma padded_grid_sorted (a b : Z) (pad : Q) :
  a <= b -> (0 < pad)%Q ->
  py_sorted (map PInt (range_list a (b + 1) 1)
             ++ [PFloat (inject_Z a - pad)] ++ [PFloat (inject_Z b + pad)])
  = ok (padded_grid a b pad).
Proof.
  intros Hab Hp. unfold padded_grid. apply py_sorted_padded.
  - apply range_list_sorted.
  - eapply Forall_impl; [| apply (padded_bounds a b Hp)].
    intros z [H1 H2]. split; [exact H1 | apply Qlt_le_weak; exact H2].
  - pose proof (padded_bounds a b Hp) as F.
    rewrite Forall_forall in F.
    destruct (F a) as [H1 H2]; [apply range_list_In; lia |].
    apply Qlt_le_weak. eapply Qlt_trans; eassumption.
Qed.

Lemma SingleBarChart_get_grid_range_spec (c : chart) (a b : Z) :
  min_x c = PInt a -> max_x c = PInt b -> a <= b ->
  SingleBarChart.get_grid_range c
  = (inr (set_grid_range (PList (padded_grid a b (0.5 * 0.8))) c), []).
Proof.
  intros Ha Hb Hab. unfold SingleBarChart.get_grid_range. rewrite Ha, Hb.
  change (lift
            (s <~ py_sorted (map PInt (range_list a (b + 1) 1)
                             ++ [PFloat (inject_Z a - 0.5 * 0.8)]
                             ++ [PFloat (inject_Z b + 0.5 * 0.8)]) ;;
             ok (set_grid_range (PList s) c))
          = (inr (set_grid_range (PList (padded_grid a b (0.5 * 0.8))) c), [])).
  rewrite padded_grid_sorted; [reflexivity | exact Hab | reflexivity].
Qed.

Lemma MultipleBarChart_get_grid_range_spec (c : chart) (a b : Z) (w : Q)
      (ys : list pyval) :
  min_x c = PInt a -> max_x c = PInt b -> a <= b ->
  bar_width c = PFloat w -> py_iter (y_data c) = ok ys ->
  (0 < w * inject_Z (Z.of_nat (List.length ys)) / inject_Z 2)%Q ->
  MultipleBarChart.get_grid_range c
  = (inr (set_grid_range
            (PList (padded_grid a b
                      (w * inject_Z (Z.of_nat (List.length ys)) / inject_Z 2)))
            c), []).
Proof.
  intros Ha Hb Hab Hw Hy Hp. unfold MultipleBarChart.get_grid_range.
  rewrite Ha, Hb, (half_span_spec c Hw Hy).
  change (lift
            (s <~ py_sorted
                    (map PInt (range_list a (b + 1) 1)
                     ++ [PFloat (inject_Z a
                                 - w * inject_Z (Z.of_nat (List.length ys))
                                   / inject_Z 2)]
                     ++ [PFloat (inject_Z b
                                 + w * inject_Z (Z.of_nat (List.length ys))
                                   / inject_Z 2)]) ;;
             ok (set_grid_range (PList s) c))
          = (inr (set_grid_range
                    (PList (padded_grid a b
                              (w * inject_Z (Z.of_nat (List.length ys))
                               / inject_Z 2))) c), [])).
  rewrite padded_grid_sorted; [reflexivity | exact Hab | exact Hp].
Qed.

Lemma get_min_max_inv (s c1 : chart) (w : list event) :
  BasePlot.get_min_max s = (inr c1, w) ->
  py_min (converted_x_data s) = ok (min_x c1) /\
  py_max (converted_x_data s) = ok (max_x c1) /\
  exists t, py_truthy (y_data s) = ok t /\ (t = false -> max_y c1 = max_y s).
Proof.
  unfold BasePlot.get_min_max. intros H. apply lift_inv in H. destruct H as [H _].
  apply rbind_inv in H. destruct H as (mn & Hmn & H).
  apply rbind_inv in H. destruct H as (mx & Hmx & H).
  apply rbind_inv in H. destruct H as (t & Ht & H).
  destruct t; cbn [negb] in H.
  - assert (E : min_x c1 = mn /\ max_x c1 = mx).
    { inv_plt; subst; split; reflexivity. }
    destruct E as [E1 E2]. rewrite E1, E2.
    split; [exact Hmn |]. split; [exact Hmx |].
    exists true. split; [exact Ht | discriminate].
  - inversion H; subst. cbn.
    split; [exact Hmn |]. split; [exact Hmx |].
    exists false. split; [exact Ht | reflexivity].
Qed.

Lemma py_add_None (b : pyval) : py_add PNone b = throw TypeError.
Proof. destruct b; reflexivity. Qed.

Lemma get_ticks_needs_max_y (c c' : chart) (w : list event) :
  BasePlot.get_ticks c = (inr c', w) -> max_y c <> PNone.
Proof.
  unfold BasePlot.get_ticks. intros H E. rewrite E, py_add_None in H.
  discriminate H.
Qed.

Lemma truthy_len (v : pyval) (k : Z) :
  py_truthy v = ok true -> py_len v = ok k -> 1 <= k.
Proof.
  destruct v as [| z | q | s | l | l]; simpl; intros Ht Hk; try discriminate;
    inversion Hk; subst.
  - destruct s; simpl in *; [discriminate | lia].
  - destruct l; simpl in *; [discriminate | lia].
  - destruct l; simpl in *; [discriminate | lia].
Qed.

Lemma padded_by_intro (a b : Z) (pad : Q) :
  a <= b -> (0 < pad)%Q -> padded_by a b pad (PList (padded_grid a b pad)).
Proof.
  intros Hab Hp. unfold padded_by.
  pose proof (padded_bounds a b Hp) as F.
  assert (Fa := proj1 (Forall_forall _ _) F a ltac:(apply range_list_In; lia)).
  assert (Fb := proj1 (Forall_forall _ _) F b ltac:(apply range_list_In; lia)).
  cbv beta in Fa, Fb.
  split; [reflexivity |]. split; [| split; [| split]].
  - intros z. rewrite range_list_In. lia.
  - exact (proj1 Fa).
  - exact (proj2 Fb).
  - unfold padded_grid. apply padded_sorted.
    + apply range_list_sorted.
    + exact F.
    + eapply Qlt_trans; [exact (proj1 Fa) | exact (proj2 Fa)].
Qed.

Lemma py_len_iter (v : pyval) (k : Z) :
  py_len v = ok k ->
  exists ys, py_iter v = ok ys /\ k = Z.of_nat (List.length ys).
Proof.
  destruct v as [| z | q | s | l | l]; simpl; intros H; try discriminate;
    inversion H; subst; eexists; split; try reflexivity.
  rewrite chars_length. reflexivity.
Qed.

Lemma half_span_positive (k : Z) (b : bool) :
  1 <= k ->
  (0 < (if b then 0.25 else 0.1) * inject_Z k / inject_Z 2)%Q.
Proof.
  intros Hk. unfold Qdiv. apply Qmult_lt_0_compat; [| reflexivity].
  apply Qmult_lt_0_compat.
  - destruct b; reflexivity.
  - change 0%Q with (inject_Z 0). rewrite <- Zlt_Qlt. lia.
Qed.

(** The set-up of a bar chart leaves the positions [0 .. n-1] as the range
    of x. *)
Lemma half_width_positive (bw : Q) (n : nat) :
  (0 < bw)%Q -> 1 <= Z.of_nat n ->
  (0 < bw * inject_Z (Z.of_nat n) / inject_Z 2)%Q.
Proof.
  intros Hw Hn.
  assert (H1 : (0 < inject_Z (Z.of_nat n))%Q).
  { change (inject_Z 0 < inject_Z (Z.of_nat n))%Q. rewrite <- Zlt_Qlt. lia. }
  apply Qlt_shift_div_l; [reflexivity |].
  rewrite Qmult_0_l. apply Qmult_lt_0_compat; assumption.
Qed.

Lemma bar_chart_x_range (s c1 : chart) (w : list event) (n : Z) :
  converted_x_data s = PArr (map PInt (range_list 0 n 1)) ->
  BasePlot.get_min_max s = (inr c1, w) ->
  1 <= n /\ min_x c1 = PInt 0 /\ max_x c1 = PInt (n - 1).
Proof.
  intros Hc H. destruct (get_min_max_inv H) as (Hmn & Hmx & _).
  rewrite Hc in Hmn, Hmx.
  destruct (positions_min_max n) as [Hneg Hpos].
  destruct (Z_le_gt_dec n 0) as [Hn | Hn].
  - rewrite (Hneg Hn) in Hmn. discriminate.
  - destruct (Hpos ltac:(lia)) as [E1 E2]. rewrite E1 in Hmn. rewrite E2 in Hmx.
    inversion Hmn. inversion Hmx. repeat split; auto. lia.
Qed.

(** C7.  [get_grid_range] of a single-bar and of a multiple-bar chart
    returns on every object whose [min_x <= max_x] are integers (for the
    multiple-bar chart: with a positive bar width and at least one series),
    and sets the grid range to the integer positions from [min_x] to [max_x]
    plus two boundary values, one below [min_x] and one above [max_x], each
    by exactly half the default bar width (single bar) or by
    [bar_width * series_count / 2] (multiple bars); both boundary values lie
    strictly outside [min_x .. max_x] and the whole sequence is in ascending
    order.  In the set-up of a constructed chart [min_x = 0] and
    [max_x = n - 1], [n] the number of x values, and the grid range the
    set-up returns with is this one. *)
Theorem bar_chart_grid_range (x y dx dy xl yl yd t : pyval) :
  (forall self self' w,
     SingleBarChart.init x y dx dy xl yl yd t = ok self ->
     BasePlot.set_up_chart SingleBarChart.methods self = (inr self', w) ->
     exists n,
       py_len x = ok n /\ 1 <= n /\
       min_x self' = PInt 0 /\ max_x self' = PInt (n - 1) /\
       DEFAULT_BAR_WIDTH = PFloat 0.8 /\
       padded_by 0 (n - 1) (0.5 * 0.8) (grid_range self')) /\
  (forall self self' w,
     MultipleBarChart.init x y dx dy xl yl yd t = ok self ->
     BasePlot.set_up_chart MultipleBarChart.methods self = (inr self', w) ->
     exists n k bw,
       py_len x = ok n /\ 1 <= n /\ py_len y = ok k /\ 1 <= k /\
       min_x self' = PInt 0 /\ max_x self' = PInt (n - 1) /\
       bar_width self' = PFloat bw /\
       padded_by 0 (n - 1) (bw * inject_Z k / inject_Z 2) (grid_range self')) /\
  (forall c a b,
     min_x c = PInt a -> max_x c = PInt b -> a <= b ->
     exists c',
       SingleBarChart.get_grid_range c = (inr c', []) /\
       inputs c' = inputs c /\ min_x c' = PInt a /\ max_x c' = PInt b /\
       padded_by a b (0.5 * 0.8) (grid_range c')) /\
  (forall c a b bw k,
     min_x c = PInt a -> max_x c = PInt b -> a <= b ->
     bar_width c = PFloat bw -> (0 < bw)%Q ->
     py_len (y_data c) = ok k -> 1 <= k ->
     exists c',
       MultipleBarChart.get_grid_range c = (inr c', []) /\
       inputs c' = inputs c /\ min_x c' = PInt a /\ max_x c' = PInt b /\
       padded_by a b (bw * inject_Z k / inject_Z 2) (grid_range c')).
Proof.
  split; [| split; [| split]].
  - intros self self' w Hinit Hset.
    unfold SingleBarChart.init in Hinit. cbn [x_data BasePlot.init] in Hinit.
    apply rbind_inv in Hinit. destruct Hinit as (n & Hn & Hinit).
    cbn in Hinit. inversion Hinit; subst self. clear Hinit.
    destruct (set_up_chart_inv SingleBar _ Hset)
      as (c1 & w1 & w2 & w3 & w4 & _ & H1 & _ & H3 & _).
    destruct ((fun E => @bar_chart_x_range _ _ _ n E H1) eq_refl)
      as (Hn1 & Hmin & Hmax).
    change (v_get_grid_range (methods_of SingleBar) c1)
      with (SingleBarChart.get_grid_range c1) in H3.
    rewrite (SingleBarChart_get_grid_range_spec c1 Hmin Hmax ltac:(lia)) in H3.
    inversion H3; subst self'. clear H3.
    exists n. split; [exact Hn |]. split; [exact Hn1 |].
    split; [exact Hmin |]. split; [exact Hmax |]. split; [reflexivity |].
    cbn [grid_range set_grid_range].
    apply padded_by_intro; [lia | reflexivity].
  - intros self self' w Hinit Hset.
    unfold MultipleBarChart.init in Hinit. cbn [x_data BasePlot.init] in Hinit.
    apply rbind_inv in Hinit. destruct Hinit as (n & Hn & Hinit).
    cbn [np_arange Z.eqb rbind ok] in Hinit.
    apply rbind_inv in Hinit. destruct Hinit as (k & Hk & Hinit).
    inversion Hinit; subst self. clear Hinit.
    destruct (set_up_chart_inv MultipleBar _ Hset)
      as (c1 & w1 & w2 & w3 & w4 & _ & H1 & H2 & H3 & _).
    destruct ((fun E => @bar_chart_x_range _ _ _ n E H1) eq_refl)
      as (Hn1 & Hmin & Hmax).
    destruct (@get_min_max_inv _ c1 w1 H1) as (_ & _ & tr & Htr & Hmy).
    pose proof (@get_ticks_needs_max_y c1 c1 w2 H2) as Hne.
    assert (tr = true) as ->.
    { destruct tr; [reflexivity |]. exfalso. apply Hne. rewrite Hmy; reflexivity. }
    cbn in Htr.
    pose proof (truthy_len _ Htr Hk) as Hk1.
    destruct (py_len_iter _ Hk) as (ys & Hys & Ek). subst k.
    set (k := Z.of_nat (List.length ys)) in *.
    pose proof (@get_min_max_keeps_inputs MultipleBar _ _ _ H1) as Hin.
    destruct (inputs_plot_data Hin) as (_ & Hyd & _ & _ & Hbw).
    cbn in Hyd, Hbw.
    change (v_get_grid_range (methods_of MultipleBar) c1)
      with (MultipleBarChart.get_grid_range c1) in H3.
    assert (Hp : (0 < (if k <? 5 then 0.25 else 0.1) * inject_Z k / inject_Z 2)%Q).
    { apply half_span_positive. exact Hk1. }
    rewrite (MultipleBarChart_get_grid_range_spec c1 Hmin Hmax ltac:(lia) Hbw
               ltac:(rewrite Hyd; exact Hys) Hp) in H3.
    inversion H3; subst self'. clear H3.
    exists n, k, (if k <? 5 then 0.25 else 0.1)%Q.
    split; [exact Hn |]. split; [exact Hn1 |]. split; [exact Hk |].
    split; [exact Hk1 |]. split; [exact Hmin |]. split; [exact Hmax |].
    split; [exact Hbw |].
    cbn [grid_range set_grid_range].
    apply padded_by_intro; [lia | exact Hp].
  - intros c a b Ha Hb Hab. eexists.
    split; [exact (SingleBarChart_get_grid_range_spec c Ha Hb Hab) |].
    split; [reflexivity |]. split; [exact Ha |]. split; [exact Hb |].
    cbn [grid_range set_grid_range].
    apply padded_by_intro; [exact Hab | reflexivity].
  - intros c a b bw k Ha Hb Hab Hbw Hpos Hk Hk1.
    destruct (py_len_iter _ Hk) as (ys & Hys & ->).
    assert (Hp : (0 < bw * inject_Z (Z.of_nat (List.length ys)) / inject_Z 2)%Q).
    { apply half_width_positive; assumption. }
    eexists.
    split; [exact (MultipleBarChart_get_grid_range_spec c Ha Hb Hab Hbw Hys Hp) |].
    split; [reflexivity |]. split; [exact Ha |]. split; [exact Hb |].
    cbn [grid_range set_grid_range].
    apply padded_by_intro; [exact Hab | exact Hp].
Qed.

Lemma bar_chart_grid_range_witness :
  (exists self self' w,
     SingleBarChart.init (strs ["A"; "B"; "C"; "D"; "E"]%string)
       (ints [10; 30; 70; 100; 150]) (PInt 1) (PInt 10)
       (PStr "Sample x-axis") (PStr "Sample y-axis") PNone (PStr "Sample plot")
     = ok self /\
     BasePlot.set_up_chart SingleBarChart.methods self = (inr self', w) /\
     padded_by 0 4 (0.5 * 0.8) (grid_range self')) /\
  (exists self self' w,
     MultipleBarChart.init (strs ["A"; "B"; "C"; "D"; "E"]%string)
       (PList [ints [10; 30; 70; 100; 150]; ints [20; 40; 80; 120; 30];
               ints [10; 30; 70; 100; 150]])
       (PInt 1) (PInt 10) (PStr "Sample x-axis") PNone
       (strs ["Line 1"; "Line 2"; "Line 3"]%string) (PStr "Sample plot")
     = ok self /\
     BasePlot.set_up_chart MultipleBarChart.methods self = (inr self', w) /\
     padded_by 0 4 (0.25 * inject_Z 3 / inject_Z 2) (grid_range self')) /\
  (exists c',
     SingleBarChart.get_grid_range
       (set_max_x (PInt 4) (set_min_x (PInt 0)
          (BasePlot.init (strs ["A"; "B"; "C"; "D"; "E"]%string)
             (ints [10; 30; 70; 100; 150]) (PInt 1) (PInt 10)
             PNone PNone PNone PNone)))
     = (inr c', []) /\
     padded_by 0 4 (0.5 * 0.8) (grid_range c')) /\
  (exists c',
     MultipleBarChart.get_grid_range
       (set_bar_width (PFloat 0.25) (set_max_x (PInt 4) (set_min_x (PInt 0)
          (BasePlot.init (strs ["A"; "B"; "C"; "D"; "E"]%string)
             (PList [ints [10; 30; 70; 100; 150]; ints [20; 40; 80; 120; 30]])
             (PInt 1) (PInt 10) PNone PNone PNone PNone))))
     = (inr c', []) /\
     padded_by 0 4 (0.25 * inject_Z 2 / inject_Z 2) (grid_range c')).
Proof.
  split; [| split; [| split]].
  - let r := eval vm_compute in
        (SingleBarChart.init (strs ["A"; "B"; "C"; "D"; "E"]%string)
           (ints [10; 30; 70; 100; 150]) (PInt 1) (PInt 10)
           (PStr "Sample x-axis") (PStr "Sample y-axis") PNone
           (PStr "Sample plot")) in
    lazymatch r with
    | inr ?s =>
        let r' := eval vm_compute in
            (BasePlot.set_up_chart SingleBarChart.methods s) in
        lazymatch r' with
        | (inr ?c, ?w) =>
            destruct (proj1 (bar_chart_grid_range
                               (strs ["A"; "B"; "C"; "D"; "E"]%string)
                               (ints [10; 30; 70; 100; 150]) (PInt 1) (PInt 10)
                               (PStr "Sample x-axis") (PStr "Sample y-axis")
                               PNone (PStr "Sample plot"))
                        s c w ltac:(vm_compute; reflexivity)
                        ltac:(vm_compute; reflexivity))
              as (n & Hn & _ & _ & _ & _ & Hp);
            exists s, c, w;
            split; [vm_compute; reflexivity |];
            split; [vm_compute; reflexivity |];
            inversion Hn; subst n; exact Hp
        end
    end.
  - let r := eval vm_compute in
        (MultipleBarChart.init (strs ["A"; "B"; "C"; "D"; "E"]%string)
           (PList [ints [10; 30; 70; 100; 150]; ints [20; 40; 80; 120; 30];
                   ints [10; 30; 70; 100; 150]])
           (PInt 1) (PInt 10) (PStr "Sample x-axis") PNone
           (strs ["Line 1"; "Line 2"; "Line 3"]%string) (PStr "Sample plot")) in
    lazymatch r with
    | inr ?s =>
        let r' := eval vm_compute in
            (BasePlot.set_up_chart MultipleBarChart.methods s) in
        lazymatch r' with
        | (inr ?c, ?w) =>
            destruct (proj1 (proj2 (bar_chart_grid_range
                               (strs ["A"; "B"; "C"; "D"; "E"]%string)
                               (PList [ints [10; 30; 70; 100; 150];
                                       ints [20; 40; 80; 120; 30];
                                       ints [10; 30; 70; 100; 150]])
                               (PInt 1) (PInt 10) (PStr "Sample x-axis") PNone
                               (strs ["Line 1"; "Line 2"; "Line 3"]%string)
                               (PStr "Sample plot")))
                        s c w ltac:(vm_compute; reflexivity)
                        ltac:(vm_compute; reflexivity))
              as (n & k & bw & Hn & _ & Hk & _ & _ & _ & Hbw & Hp);
            exists s, c, w;
            split; [vm_compute; reflexivity |];
            split; [vm_compute; reflexivity |];
            inversion Hn; subst n; inversion Hk; subst k;
            vm_compute in Hbw; inversion Hbw; subst bw; exact Hp
        end
    end.
  - destruct (proj1 (proj2 (proj2 (bar_chart_grid_range
                PNone PNone PNone PNone PNone PNone PNone PNone)))
                (set_max_x (PInt 4) (set_min_x (PInt 0)
                   (BasePlot.init (strs ["A"; "B"; "C"; "D"; "E"]%string)
                      (ints [10; 30; 70; 100; 150]) (PInt 1) (PInt 10)
                      PNone PNone PNone PNone)))
                0 4 eq_refl eq_refl ltac:(lia))
      as (c' & E & _ & _ & _ & Hp).
    exists c'. split; [exact E | exact Hp].
  - destruct (proj2 (proj2 (proj2 (bar_chart_grid_range
                PNone PNone PNone PNone PNone PNone PNone PNone)))
                (set_bar_width (PFloat 0.25) (set_max_x (PInt 4)
                   (set_min_x (PInt 0)
                      (BasePlot.init (strs ["A"; "B"; "C"; "D"; "E"]%string)
                         (PList [ints [10; 30; 70; 100; 150];
                                 ints [20; 40; 80; 120; 30]])
                         (PInt 1) (PInt 10) PNone PNone PNone PNone))))
                0 4 0.25%Q 2 eq_refl eq_refl ltac:(lia) eq_refl
                ltac:(reflexivity) eq_refl ltac:(lia))
      as (c' & E & _ & _ & _ & Hp).
    exists c'. split; [exact E | exact Hp].
Defined.

(** ** The y range of a histogram *)

Lemma max_loop_ints (l : list Z) :
  forall c : Z,
    max_loop (fun x => ok x) (PInt c) (map PInt l)
    = ok (PInt (fold_left Z.max l c)).
Proof.
  induction l as [| z l IH]; intros c; [reflexivity |].
  cbn [map max_loop fold_left]. unfold rbind at 1. unfold ok at 1. cbv iota beta.
  rewrite py_lt_ints. unfold rbind, ok at 1. cbv iota beta.
  destruct (c <? z) eqn:E; rewrite IH; do 3 f_equal.
  - apply Z.ltb_lt in E. lia.
  - apply Z.ltb_ge in E. lia.
Qed.

Lemma fold_max_ge (l : list Z) :
  forall c, c <= fold_left Z.max l c /\
            forall z, In z l -> z <= fold_left Z.max l c.
Proof.
  induction l as [| y l IH]; intros c; simpl.
  - split; [lia | tauto].
  - destruct (IH (Z.max c y)) as [H1 H2]. split; [lia |].
    intros z [-> | Hz]; [lia | auto].
Qed.

Lemma fold_max_in (l : list Z) :
  forall c, fold_left Z.max l c = c \/ In (fold_left Z.max l c) l.
Proof.
  induction l as [| y l IH]; intros c; simpl; [auto |].
  destruct (IH (Z.max c y)) as [H | H]; [| auto].
  rewrite H. destruct (Z.max_spec c y) as [[_ E] | [_ E]]; rewrite E; auto.
Qed.

(** The largest of a non-empty list of counts. *)
Lemma py_max_counts (cs : list Z) :
  cs <> [] ->
  exists m, py_max (PList (map PInt cs)) = ok (PInt m) /\
            In m cs /\ forall c, In c cs -> c <= m.
Proof.
  destruct cs as [| c cs]; [congruence |]. intros _.
  exists (fold_left Z.max cs c). split; [| split].
  - cbn [py_max py_iter map rbind ok max_gen]. apply max_loop_ints.
  - destruct (fold_max_in cs c) as [E | H]; [rewrite E; left; reflexivity |].
    right. exact H.
  - destruct (fold_max_ge cs c) as [H1 H2].
    intros z [<- | Hz]; [exact H1 | exact (H2 z Hz)].
Qed.

Lemma rbind_ok_eq {A B} (m : pyresult A) (a : A) (f : A -> pyresult B) :
  m = ok a -> rbind m f = f a.
Proof. intros ->. reflexivity. Qed.

Section HistogramInit.

Variable np_hist : pyval -> pyval -> pyresult (pyval * pyval).

(** The loop of the constructor: the edges and the counts of every sequence
    are appended, in order. *)
Lemma Histogram_init_loop (n : Z) (xs : list pyval)
      (rs : list (list Z * list pyval)) :
  Forall2 (binned np_hist n) xs rs ->
  forall (c : chart) (bl vals : list pyval),
    num_bins c = PInt n -> bins c = PList bl ->
    rfold xs
      (fun x_array (st : chart * pyval) =>
         let (self, hist_bin_values) := st in
         hb <~ np_hist x_array (num_bins self) ;;
         let (current_hist_bin_values, bins') := hb in
         bl <~ py_iter bins' ;;
         b <~ py_add (bins self) (PList bl) ;;
         let self := set_bins b self in
         cl <~ py_iter current_hist_bin_values ;;
         hist_bin_values <~ py_add hist_bin_values (PList cl) ;;
         ok (self, hist_bin_values))
      (c, PList vals)
    = ok (set_bins (PList (bl ++ List.concat (map snd rs))) c,
          PList (vals ++ map PInt (List.concat (map fst rs)))).
Proof.
  induction 1 as [| x r xs rs [Hx _] _ IH]; intros c bl vals Hn Hb.
  - simpl. rewrite !app_nil_r. rewrite <- Hb. destruct c; reflexivity.
  - cbn [rfold]. rewrite Hn, Hx, Hb.
    cbn [rbind ok py_iter py_add].
    etransitivity;
      [exact (IH (set_bins (PList (bl ++ snd r)) c) (bl ++ snd r)
                 (vals ++ map PInt (fst r)) Hn eq_refl) |].
    cbn [map List.concat]. rewrite map_app, !app_assoc. reflexivity.
Qed.

Lemma Histogram_init_spec (x dx dy xl yl yd t : pyval) (n : Z)
      (xs : list pyval) (rs : list (list Z * list pyval)) :
  py_iter x = ok xs -> xs <> [] -> 1 <= n ->
  Forall2 (binned np_hist n) xs rs ->
  exists self m,
    Histogram.init np_hist x (PInt n) dx dy xl yl yd t = ok self /\
    min_y self = PInt 0 /\ max_y self = PInt m /\
    In m (List.concat (map fst rs)) /\
    (forall c, In c (List.concat (map fst rs)) -> c <= m) /\
    bins self = PList (List.concat (map snd rs)).
Proof.
  intros Hx Hne Hn HF.
  assert (Hcs : List.concat (map fst rs) <> []).
  { destruct HF as [| x0 r xs' rs' [_ Hlen] _]; [congruence |].
    simpl. destruct (fst r); [simpl in Hlen; lia | discriminate]. }
  destruct (py_max_counts Hcs) as (m & Hm & Hin & Hub).
  exists (set_max_y (PInt m)
            (set_min_y (PInt 0)
               (set_bins (PList (List.concat (map snd rs)))
                  (set_num_bins (PInt n)
                     (BasePlot.init x PNone dx dy xl yl yd t))))), m.
  split; [| repeat split; assumption].
  unfold Histogram.init. rewrite Hx. cbn [rbind ok].
  etransitivity;
    [apply rbind_ok_eq;
     exact (Histogram_init_loop HF
              (set_bins (PList [])
                 (set_num_bins (PInt n) (BasePlot.init x PNone dx dy xl yl yd t)))
              (bl := []) [] eq_refl eq_refl) |].
  cbn [rbind ok app]. rewrite Hm. reflexivity.
Qed.

End HistogramInit.

Lemma Histogram_render_keeps_y_range : keeps y_range (render Hist).
Proof.
  intros self self' w H.
  destruct (render_inv Hist self H) as (ws & _ & _ & Hs & _).
  destruct (set_up_chart_inv Hist self Hs)
    as (c1 & w1 & w2 & w3 & w4 & _ & H1 & _ & H3 & _).
  change (Histogram.get_min_max (set_ax (Some (Axes 111)) self) = (inr c1, w1))
    in H1.
  change (Histogram.get_grid_range c1 = (inr self', w3)) in H3.
  unfold Histogram.get_min_max in H1. inversion H1; subst c1.
  unfold Histogram.get_grid_range in H3. inv_plt. subst. reflexivity.
Qed.

(** C5.  For a histogram built from one or more sequences with
    [num_bins >= 1], each sequence binned on its own by [np.histogram] into
    [num_bins] counts, the constructor returns an object whose [min_y] is 0
    and whose [max_y] is the largest count over all bins of all sequences;
    [get_min_max] is overridden to do nothing, so these are the values the
    y ticks and the grid are computed from, and a render leaves them as they
    are. *)
Theorem Histogram_y_range
        (np_hist : pyval -> pyval -> pyresult (pyval * pyval))
        (x dx dy xl yl yd t : pyval) (n : Z)
        (xs : list pyval) (rs : list (list Z * list pyval)) :
  py_iter x = ok xs -> xs <> [] -> 1 <= n ->
  Forall2 (binned np_hist n) xs rs ->
  exists self m,
    Histogram.init np_hist x (PInt n) dx dy xl yl yd t = ok self /\
    min_y self = PInt 0 /\ max_y self = PInt m /\
    In m (List.concat (map fst rs)) /\
    (forall c, In c (List.concat (map fst rs)) -> c <= m) /\
    (forall c, Histogram.get_min_max c = (inr c, [])) /\
    (forall self' w,
       render Hist self = (inr self', w) ->
       min_y self' = PInt 0 /\ max_y self' = PInt m).
Proof.
  intros Hx Hne Hn HF.
  destruct (@Histogram_init_spec np_hist x dx dy xl yl yd t n xs rs Hx Hne Hn HF)
    as (self & m & Hi & Hmin & Hmax & Hin & Hub & _).
  exists self, m.
  split; [exact Hi |]. split; [exact Hmin |]. split; [exact Hmax |].
  split; [exact Hin |]. split; [exact Hub |]. split; [reflexivity |].
  intros self' w Hr.
  pose proof (Histogram_render_keeps_y_range _ Hr) as E.
  unfold y_range in E. inversion E. split; congruence.
Qed.

(** The reference binning returns as many counts as bins, for every
    sequence of numbers. *)
Lemma np_histogram_binned (n : Z) (l : list pyval) (qs : list Q) :
  1 <= n -> mapM as_number l = ok qs ->
  binned np_histogram n (PList l)
         (histogram_counts qs n, map PFloat (histogram_edges qs n)).
Proof.
  intros Hn Hq. unfold binned, np_histogram. cbn [as_index rbind ok fst snd].
  replace (n <? 1) with false by (symmetry; apply Z.ltb_ge; exact Hn).
  cbn [py_iter rbind ok]. rewrite Hq. split; [reflexivity |].
  unfold histogram_counts. destruct (histogram_range qs).
  rewrite length_map, length_seq. reflexivity.
Qed.

Lemma Histogram_y_range_witness :
  exists self,
    Histogram.init np_histogram
      (PList [ints [1; 2; 2; 3; 3; 3; 10]; ints [5; 5; 6]])
      (PInt 3) (PInt 1) (PInt 1) PNone PNone PNone PNone = ok self /\
    min_y self = PInt 0 /\ max_y self = PInt 6.
Proof.
  destruct (@Histogram_y_range np_histogram
              (PList [ints [1; 2; 2; 3; 3; 3; 10]; ints [5; 5; 6]])
              (PInt 1) (PInt 1) PNone PNone PNone PNone 3
              [ints [1; 2; 2; 3; 3; 3; 10]; ints [5; 5; 6]]
              [ (histogram_counts
                   (map inject_Z [1; 2; 2; 3; 3; 3; 10]) 3,
                 map PFloat (histogram_edges
                               (map inject_Z [1; 2; 2; 3; 3; 3; 10]) 3));
                (histogram_counts (map inject_Z [5; 5; 6]) 3,
                 map PFloat (histogram_edges (map inject_Z [5; 5; 6]) 3)) ]
              eq_refl ltac:(discriminate) ltac:(lia)
              ltac:(repeat constructor;
                    apply np_histogram_binned; (lia || reflexivity)))
    as (self & m & Hi & Hmin & Hmax & Hin & Hub & _).
  exists self. split; [exact Hi |]. split; [exact Hmin |].
  rewrite Hmax. f_equal.
  assert (H6 : 6 <= m) by (apply Hub; vm_compute; auto).
  vm_compute in Hin.
  destruct Hin as [E | [E | [E | [E | [E | [E | []]]]]]]; lia.
Defined.

(** ** The x and y ranges that [get_min_max] finds *)

Lemma min_loop_ints_fold (l : list Z) :
  forall c : Z,
    min_loop (fun x => ok x) (PInt c) (map PInt l)
    = ok (PInt (fold_left Z.min l c)).
Proof.
  induction l as [| z l IH]; intros c; [reflexivity |].
  cbn [map min_loop fold_left]. unfold rbind at 1. unfold ok at 1. cbv iota beta.
  rewrite py_lt_ints. unfold rbind, ok at 1. cbv iota beta.
  destruct (z <? c) eqn:E; rewrite IH; do 3 f_equal.
  - apply Z.ltb_lt in E. lia.
  - apply Z.ltb_ge in E. lia.
Qed.

Lemma fold_min_le (l : list Z) :
  forall c, fold_left Z.min l c <= c /\
            forall z, In z l -> fold_left Z.min l c <= z.
Proof.
  induction l as [| y l IH]; intros c; simpl.
  - split; [lia | tauto].
  - destruct (IH (Z.min c y)) as [H1 H2]. split; [lia |].
    intros z [-> | Hz]; [lia | auto].
Qed.

Lemma fold_min_in (l : list Z) :
  forall c, fold_left Z.min l c = c \/ In (fold_left Z.min l c) l.
Proof.
  induction l as [| y l IH]; intros c; simpl; [auto |].
  destruct (IH (Z.min c y)) as [H | H]; [| auto].
  rewrite H. destruct (Z.min_spec c y) as [[_ E] | [_ E]]; rewrite E; auto.
Qed.

(** The smallest of a non-empty list of integers. *)
Lemma py_min_ints (cs : list Z) :
  cs <> [] ->
  exists m, py_min (ints cs) = ok (PInt m) /\
            In m cs /\ forall c, In c cs -> m <= c.
Proof.
  destruct cs as [| c cs]; [congruence |]. intros _.
  exists (fold_left Z.min cs c). split; [| split].
  - unfold ints. cbn [py_min py_iter map rbind ok min_gen]. apply min_loop_ints_fold.
  - destruct (fold_min_in cs c) as [E | H]; [rewrite E; left; reflexivity |].
    right. exact H.
  - destruct (fold_min_le cs c) as [H1 H2].
    intros z [<- | Hz]; [exact H1 | exact (H2 z Hz)].
Qed.

Lemma min_loop_nested (yss : list (list Z)) :
  Forall (fun l => l <> []) yss ->
  forall c,
  exists m, min_loop py_min (PInt c) (map ints yss) = ok (PInt m) /\
            m <= c /\ (forall z, In z (List.concat yss) -> m <= z) /\
            (m = c \/ In m (List.concat yss)).
Proof.
  induction 1 as [| l yss Hl _ IH]; intros c.
  - exists c. simpl. repeat split; auto; try lia; try tauto.
  - destruct (py_min_ints Hl) as (ml & Eml & Hin & Hlb).
    cbn [map min_loop]. rewrite Eml. cbn [rbind ok]. rewrite py_lt_ints. cbn [rbind ok].
    destruct (IH (if ml <? c then ml else c)) as (m & Em & Hle & Hall & Hor).
    exists m. split.
    + destruct (ml <? c); exact Em.
    + assert (Hc : (if ml <? c then ml else c) <= c /\ (if ml <? c then ml else c) <= ml).
      { destruct (ml <? c) eqn:E; [apply Z.ltb_lt in E | apply Z.ltb_ge in E]; lia. }
      split; [lia |]. split.
      * intros z Hz. simpl in Hz. apply in_app_or in Hz. destruct Hz as [Hz | Hz].
        -- specialize (Hlb z Hz). lia.
        -- auto.
      * simpl. destruct Hor as [-> | Hor].
        -- destruct (ml <? c); [right; apply in_or_app; auto | left; reflexivity].
        -- right. apply in_or_app. auto.
Qed.

Lemma max_loop_nested (yss : list (list Z)) :
  Forall (fun l => l <> []) yss ->
  forall c,
  exists m, max_loop py_max (PInt c) (map ints yss) = ok (PInt m) /\
            c <= m /\ (forall z, In z (List.concat yss) -> z <= m) /\
            (m = c \/ In m (List.concat yss)).
Proof.
  induction 1 as [| l yss Hl _ IH]; intros c.
  - exists c. simpl. repeat split; auto; try lia; try tauto.
  - destruct (py_max_counts Hl) as (ml & Eml & Hin & Hub).
    cbn [map max_loop]. unfold ints at 1. rewrite Eml. cbn [rbind ok].
    rewrite py_lt_ints. cbn [rbind ok].
    destruct (IH (if c <? ml then ml else c)) as (m & Em & Hle & Hall & Hor).
    exists m. split.
    + destruct (c <? ml); exact Em.
    + assert (Hc : c <= (if c <? ml then ml else c) /\ ml <= (if c <? ml then ml else c)).
      { destruct (c <? ml) eqn:E; [apply Z.ltb_lt in E | apply Z.ltb_ge in E]; lia. }
      split; [lia |]. split.
      * intros z Hz. simpl in Hz. apply in_app_or in Hz. destruct Hz as [Hz | Hz].
        -- specialize (Hub z Hz). lia.
        -- auto.
      * simpl. destruct Hor as [-> | Hor].
        -- destruct (c <? ml); [right; apply in_or_app; auto | left; reflexivity].
        -- right. apply in_or_app. auto.
Qed.

(** [get_min_max] on a list of series. *)
Lemma get_min_max_nested (self : chart) (a b : pyval) (yss : list (list Z)) :
  py_min (converted_x_data self) = ok a ->
  py_max (converted_x_data self) = ok b ->
  y_data self = PList (map ints yss) ->
  yss <> [] -> Forall (fun l => l <> []) yss ->
  exists mn mx,
    BasePlot.get_min_max self
    = (inr (set_max_y (PInt mx) (set_min_y (PInt mn) (set_max_x b (set_min_x a self)))), []) /\
    In mn (List.concat yss) /\ In mx (List.concat yss) /\
    forall z, In z (List.concat yss) -> mn <= z <= mx.
Proof.
  intros Ha Hb Hy Hne HF.
  destruct yss as [| l yss]; [congruence |].
  inversion HF as [| ? ? Hl HF']; subst.
  destruct (py_min_ints Hl) as (ml & Eml & Hinl & Hlbl).
  destruct (py_max_counts Hl) as (xl & Exl & Hinx & Hubx).
  destruct (min_loop_nested HF' ml) as (mn & Emn & Hle & Hall & Hor).
  destruct (max_loop_nested HF' xl) as (mx & Emx & Hge & Hallx & Horx).
  exists mn, mx. split; [| split; [| split]].
  - unfold BasePlot.get_min_max. rewrite Ha. cbn [rbind ok].
    change (converted_x_data (set_min_x a self)) with (converted_x_data self).
    rewrite Hb. cbn [rbind ok].
    change (y_data (set_max_x b (set_min_x a self))) with (y_data self).
    rewrite Hy. cbn [py_truthy map rbind ok negb py_iter min_gen max_gen].
    rewrite Eml. unfold ints at 2. rewrite Exl. cbn [rbind ok].
    rewrite Emn. cbn [rbind ok]. rewrite Emx. reflexivity.
  - simpl. destruct Hor as [-> | Hor]; apply in_or_app; auto.
  - simpl. destruct Horx as [-> | Horx]; apply in_or_app; auto.
  - intros z Hz. simpl in Hz. apply in_app_or in Hz. destruct Hz as [Hz | Hz].
    + specialize (Hlbl z Hz). specialize (Hubx z Hz). lia.
    + specialize (Hall z Hz). specialize (Hallx z Hz). lia.
Qed.

(** [get_min_max] on one series: [min] of an integer raises [TypeError],
    and the handler takes the extremes of [y_data] itself. *)
Lemma get_min_max_flat (self : chart) (a b : pyval) (ys : list Z) :
  py_min (converted_x_data self) = ok a ->
  py_max (converted_x_data self) = ok b ->
  y_data self = ints ys -> ys <> [] ->
  exists mn mx,
    BasePlot.get_min_max self
    = (inr (set_max_y (PInt mx) (set_min_y (PInt mn) (set_max_x b (set_min_x a self)))), []) /\
    In mn ys /\ In mx ys /\ forall z, In z ys -> mn <= z <= mx.
Proof.
  intros Ha Hb Hy Hne.
  destruct (py_min_ints Hne) as (mn & Emn & Hin & Hlb).
  destruct (py_max_counts Hne) as (mx & Emx & Hinx & Hub).
  exists mn, mx. split; [| split; [| split]]; auto.
  unfold BasePlot.get_min_max. rewrite Ha. cbn [rbind ok].
  change (converted_x_data (set_min_x a self)) with (converted_x_data self).
  rewrite Hb. cbn [rbind ok].
  change (y_data (set_max_x b (set_min_x a self))) with (y_data self).
  rewrite Hy. destruct ys as [| z ys]; [congruence |].
    unfold ints in *. cbn [py_truthy map rbind ok negb py_iter min_gen].
    change (py_min (PInt z)) with (@throw pyval TypeError).
    cbn [rbind throw try_except_TypeError].
    cbn [map] in Emn, Emx. rewrite Emn. cbn [rbind ok]. rewrite Emx. reflexivity.
Qed.

Lemma get_min_max_no_y (self : chart) (a b : pyval) :
  py_min (converted_x_data self) = ok a ->
  py_max (converted_x_data self) = ok b ->
  py_truthy (y_data self) = ok false ->
  BasePlot.get_min_max self = (inr (set_max_x b (set_min_x a self)), []).
Proof.
  intros Ha Hb Hy. unfold BasePlot.get_min_max. rewrite Ha. cbn [rbind ok].
  change (converted_x_data (set_min_x a self)) with (converted_x_data self).
  rewrite Hb. cbn [rbind ok].
  change (y_data (set_max_x b (set_min_x a self))) with (y_data self).
  rewrite Hy. reflexivity.
Qed.

Lemma get_min_max_empty_x (self : chart) :
  py_iter (converted_x_data self) = ok [] ->
  BasePlot.get_min_max self = (inl ValueError, []).
Proof.
  intros Hx. unfold BasePlot.get_min_max, py_min. rewrite Hx. reflexivity.
Qed.

Lemma get_min_max_array_y (self : chart) (a b u v : pyval) (l : list pyval) :
  py_min (converted_x_data self) = ok a ->
  py_max (converted_x_data self) = ok b ->
  y_data self = PArr (u :: v :: l) ->
  BasePlot.get_min_max self = (inl ValueError, []).
Proof.
  intros Ha Hb Hy. unfold BasePlot.get_min_max. rewrite Ha. cbn [rbind ok].
  change (converted_x_data (set_min_x a self)) with (converted_x_data self).
  rewrite Hb. cbn [rbind ok].
  change (y_data (set_max_x b (set_min_x a self))) with (y_data self).
  rewrite Hy. reflexivity.
Qed.

Lemma py_min_of_iter (v : pyval) (l : list pyval) :
  py_iter v = ok l -> py_min v = py_min (PList l).
Proof. intros H. unfold py_min. rewrite H. reflexivity. Qed.

Lemma py_max_of_iter (v : pyval) (l : list pyval) :
  py_iter v = ok l -> py_max v = py_max (PList l).
Proof. intros H. unfold py_max. rewrite H. reflexivity. Qed.

(** X1.  [get_min_max] finds the extremes of the data.  When the x positions
    are a non-empty sequence of integers and [y_data] holds integers, as one
    non-empty series or as a list of non-empty series, [get_min_max] returns
    without a backend call and sets [min_x], [max_x], [min_y] and [max_y] to
    the smallest and the largest x position and to the smallest and the
    largest value over all series. *)
Theorem get_min_max_finds_the_extremes (self : chart) (xs zs : list Z) :
  py_iter (converted_x_data self) = ok (map PInt xs) -> xs <> [] ->
  all_values (y_data self) zs -> zs <> [] ->
  exists a b mn mx,
    BasePlot.get_min_max self
    = (inr (set_max_y (PInt mx) (set_min_y (PInt mn)
              (set_max_x (PInt b) (set_min_x (PInt a) self)))), []) /\
    In a xs /\ In b xs /\ (forall x, In x xs -> a <= x <= b) /\
    In mn zs /\ In mx zs /\ (forall z, In z zs -> mn <= z <= mx).
Proof.
  intros Hx Hxs Hy Hzs.
  destruct (py_min_ints Hxs) as (a & Ea & Ha & Hlb).
  destruct (py_max_counts Hxs) as (b & Eb & Hb & Hub).
  unfold ints in Ea.
  rewrite <- (py_min_of_iter _ Hx) in Ea. rewrite <- (py_max_of_iter _ Hx) in Eb.
  exists a, b.
  destruct Hy as [Hy | (yss & Hy & HF & ->)].
  - destruct (get_min_max_flat self Ea Eb Hy Hzs) as (mn & mx & E & H1 & H2 & H3).
    exists mn, mx. repeat split; auto; try (apply Hlb; assumption);
      try (apply Hub; assumption); apply H3; assumption.
  - assert (Hne : yss <> []) by (intros ->; apply Hzs; reflexivity).
    destruct (get_min_max_nested self Ea Eb Hy Hne HF)
      as (mn & mx & E & H1 & H2 & H3).
    exists mn, mx. repeat split; auto; try (apply Hlb; assumption);
      try (apply Hub; assumption); apply H3; assumption.
Qed.

Lemma get_min_max_finds_the_extremes_witness :
  BasePlot.get_min_max
    (LineChart.init (ints [0; 1; 2; 3; 4])
       (PList [ints [10; 30; 70; 100; 150]; ints [20; 40; 80; 120; 5]])
       (PInt 1) (PInt 10) PNone PNone PNone PNone)
  = (inr (set_max_y (PInt 150) (set_min_y (PInt 5) (set_max_x (PInt 4)
            (set_min_x (PInt 0)
               (LineChart.init (ints [0; 1; 2; 3; 4])
                  (PList [ints [10; 30; 70; 100; 150]; ints [20; 40; 80; 120; 5]])
                  (PInt 1) (PInt 10) PNone PNone PNone PNone))))), []).
Proof.
  destruct (@get_min_max_finds_the_extremes
              (LineChart.init (ints [0; 1; 2; 3; 4])
                 (PList [ints [10; 30; 70; 100; 150]; ints [20; 40; 80; 120; 5]])
                 (PInt 1) (PInt 10) PNone PNone PNone PNone)
              [0; 1; 2; 3; 4] [10; 30; 70; 100; 150; 20; 40; 80; 120; 5]
              eq_refl ltac:(discriminate)
              ltac:(right;
                    exists [[10; 30; 70; 100; 150]; [20; 40; 80; 120; 5]];
                    split; [reflexivity |];
                    split; [repeat constructor; discriminate | reflexivity])
              ltac:(discriminate))
    as (a & b & mn & mx & E & Ha & Hb & Hx & Hmn & Hmx & Hz).
  rewrite E.
  assert (a = 0) by (specialize (Hx 0); simpl in Ha, Hx; lia).
  assert (b = 4) by (specialize (Hx 4); simpl in Hb, Hx; lia).
  assert (mn = 5) by (specialize (Hz 5); simpl in Hmn, Hz; lia).
  assert (mx = 150) by (specialize (Hz 150); simpl in Hmx, Hz; lia).
  subst. reflexivity.
Defined.

(** ** The ticks *)

Lemma range_list_pos_In (a b s z : Z) :
  0 < s ->
  (In z (range_list a b s) <-> a <= z < b /\ (z - a) mod s = 0).
Proof.
  intros Hs. unfold range_list.
  replace (0 <? s) with true by (symmetry; apply Z.ltb_lt; exact Hs).
  rewrite in_map_iff. split.
  - intros (i & <- & Hi). apply in_seq in Hi.
    destruct (a <? b) eqn:E; [apply Z.ltb_lt in E | simpl in Hi; lia].
    assert (Hq : Z.of_nat i + 1 <= (b - a + s - 1) / s) by lia.
    assert (Hm : s * ((b - a + s - 1) / s) <= b - a + s - 1)
      by (apply Z.mul_div_le; exact Hs).
    split; [nia |].
    replace (a + Z.of_nat i * s - a) with (Z.of_nat i * s) by lia.
    apply Z.mod_mul. lia.
  - intros [[Ha Hb] Hm].
    apply Z.mod_divide in Hm; [| lia]. destruct Hm as [k Hk].
    assert (Hk0 : 0 <= k) by nia.
    exists (Z.to_nat k). split; [rewrite Z2Nat.id by exact Hk0; lia |].
    apply in_seq. split; [lia |].
    replace (a <? b) with true by (symmetry; apply Z.ltb_lt; lia).
    assert (k + 1 <= (b - a + s - 1) / s).
    { apply Z.div_le_lower_bound; [exact Hs | nia]. }
    lia.
Qed.

Lemma py_add_int_inv (u v : pyval) (s : Z) :
  py_add u v = ok (PInt s) ->
  exists b d, u = PInt b /\ v = PInt d /\ s = b + d.
Proof.
  destruct u, v; simpl; intros H; try discriminate;
    try (inversion H; subst; eauto; fail);
    match type of H with
    | rbind ?m _ = _ => destruct m; simpl in H; discriminate
    end.
Qed.

Lemma as_index_inv (v : pyval) (z : Z) : as_index v = ok z -> v = PInt z.
Proof. destruct v; simpl; intros H; inversion H; reflexivity. Qed.

Lemma py_range_inv (a b s : pyval) (l : list Z) :
  py_range a b s = ok l ->
  exists a' b' s', a = PInt a' /\ b = PInt b' /\ s = PInt s' /\ s' <> 0 /\
                   l = range_list a' b' s'.
Proof.
  unfold py_range. intros H.
  apply rbind_inv in H. destruct H as (a' & Ha & H).
  apply rbind_inv in H. destruct H as (b' & Hb & H).
  apply rbind_inv in H. destruct H as (s' & Hs & H).
  apply as_index_inv in Ha, Hb, Hs. subst.
  destruct (s' =? 0) eqn:E; [discriminate |].
  apply Z.eqb_neq in E. inversion H. exists a', b', s'. auto.
Qed.

Lemma py_range_ints (a b s : Z) :
  s <> 0 -> py_range (PInt a) (PInt b) (PInt s) = ok (range_list a b s).
Proof.
  intros Hs. unfold py_range. cbn [as_index rbind ok].
  replace (s =? 0) with false by (symmetry; apply Z.eqb_neq; exact Hs).
  reflexivity.
Qed.

(** The two calls of [get_ticks]. *)
Lemma get_ticks_spec (self : chart) (a b d a' b' d' : Z) (x0 : pyval) :
  int_ranges self a b d a' b' d' ->
  py_getitem (x_data self) 0 = ok x0 ->
  BasePlot.get_ticks self
  = (inr self,
     [ plt_yticks (ints (range_list a (b + d) d))
         (PList (map (fun x => PStr (py_str x)) (range_list a (b + d) d)));
       plt_xticks (ints (range_list a' (b' + d') d'))
         (if isinstance_str x0 then x_data self
          else ints (range_list a' (b' + d') d')) ]).
Proof.
  intros (Hmy & HMy & Hdy & Hmx & HMx & Hdx & Hd & Hd') Hx.
  unfold BasePlot.get_ticks. rewrite Hmy, HMy, Hdy, Hmx, HMx, Hdx, Hx.
  cbn [py_add num_add]. rewrite !bind_lift_ok with (a := PInt (b + d)) by reflexivity.
  rewrite (bind_lift_ok _ (py_range_ints a (b + d) Hd)).
  rewrite !bind_lift_ok with (a := PInt (b' + d')) by reflexivity.
  rewrite (bind_lift_ok _ (py_range_ints a' (b' + d') Hd')).
  rewrite bind_emit. rewrite (bind_lift_ok (a := x0)) by reflexivity.
  destruct (isinstance_str x0); reflexivity.
Qed.

(** What [get_ticks] needs to return. *)
Lemma get_ticks_inv (self c : chart) (w : list event) :
  BasePlot.get_ticks self = (inr c, w) ->
  exists a b d a' b' d' x0,
    int_ranges self a b d a' b' d' /\ py_getitem (x_data self) 0 = ok x0.
Proof.
  intros H. unfold BasePlot.get_ticks in H.
  apply bind_inv in H. destruct H as (sy & ? & ? & H1 & H & _).
  apply lift_inv in H1. destruct H1 as [H1 _].
  apply bind_inv in H. destruct H as (yt & ? & ? & H2 & H & _).
  apply lift_inv in H2. destruct H2 as [H2 _].
  apply bind_inv in H. destruct H as (sx & ? & ? & H3 & H & _).
  apply lift_inv in H3. destruct H3 as [H3 _].
  apply bind_inv in H. destruct H as (xt & ? & ? & H4 & H & _).
  apply lift_inv in H4. destruct H4 as [H4 _].
  apply bind_inv in H. destruct H as (? & ? & ? & _ & H & _).
  apply bind_inv in H. destruct H as (x00 & ? & ? & H5 & H & _).
  apply lift_inv in H5. destruct H5 as [H5 _].
  apply py_range_inv in H2. destruct H2 as (a & s & d & Ha & Hs & Hd & Hd0 & _).
  apply py_range_inv in H4.
  destruct H4 as (a' & s' & d' & Ha' & Hs' & Hd' & Hd0' & _).
  subst sy sx.
  apply py_add_int_inv in H1. destruct H1 as (b & d1 & Hb & Hd1 & _).
  apply py_add_int_inv in H3. destruct H3 as (b' & d1' & Hb' & Hd1' & _).
  exists a, b, d, a', b', d', x00. unfold int_ranges. repeat split; auto.
Qed.

(** X2.  With the backend calls taken to return and integers unbounded,
    [get_ticks] of the base class returns exactly when the ranges and
    the tick steps of both axes are integers, the steps are not 0 and
    [x_data] has a first element.  It then leaves the object as it is and
    makes two calls: [plt.yticks] with the positions
    [range(min_y, max_y + diff_y_ticks, diff_y_ticks)] labelled by their
    decimal strings, then [plt.xticks] with the positions
    [range(min_x, max_x + diff_x_ticks, diff_x_ticks)], labelled by [x_data]
    when its first element is a string and by the positions otherwise.
    (The backend itself refuses labels whose number differs from the number
    of positions; what it does with the calls is outside this statement.) *)
Theorem get_ticks_returns_exactly_when (self c : chart) (w : list event) :
  BasePlot.get_ticks self = (inr c, w) <->
  exists a b d a' b' d' x0,
    int_ranges self a b d a' b' d' /\
    py_getitem (x_data self) 0 = ok x0 /\
    c = self /\
    w = [ plt_yticks (ints (range_list a (b + d) d))
            (PList (map (fun x => PStr (py_str x)) (range_list a (b + d) d)));
          plt_xticks (ints (range_list a' (b' + d') d'))
            (if isinstance_str x0 then x_data self
             else ints (range_list a' (b' + d') d')) ].
Proof.
  split.
  - intros H.
    destruct (get_ticks_inv _ H) as (a & b & d & a' & b' & d' & x0 & Hr & Hx).
    rewrite (get_ticks_spec Hr Hx) in H. inversion H; subst.
    exists a, b, d, a', b', d', x0. repeat split; auto; apply Hr.
  - intros (a & b & d & a' & b' & d' & x0 & Hr & Hx & -> & ->).
    apply get_ticks_spec; assumption.
Qed.

Lemma get_ticks_returns_exactly_when_witness :
  BasePlot.get_ticks
    (set_max_y (PInt 150) (set_min_y (PInt 10) (set_max_x (PInt 4)
       (set_min_x (PInt 0)
          (BasePlot.init (strs ["A"; "B"; "C"; "D"; "E"]%string)
             (ints [10; 30; 70; 100; 150]) (PInt 1) (PInt 50)
             PNone PNone PNone PNone)))))
  = (inr (set_max_y (PInt 150) (set_min_y (PInt 10) (set_max_x (PInt 4)
            (set_min_x (PInt 0)
               (BasePlot.init (strs ["A"; "B"; "C"; "D"; "E"]%string)
                  (ints [10; 30; 70; 100; 150]) (PInt 1) (PInt 50)
                  PNone PNone PNone PNone))))),
     [ plt_yticks (ints [10; 60; 110; 160])
         (strs ["10"; "60"; "110"; "160"]%string);
       plt_xticks (ints [0; 1; 2; 3; 4]) (strs ["A"; "B"; "C"; "D"; "E"]%string) ]).
Proof.
  apply (proj2 (get_ticks_returns_exactly_when _ _ _)).
  exists 10, 150, 50, 0, 4, 1, (PStr "A").
  split; [unfold int_ranges; cbn; repeat split; (reflexivity || lia) |].
  split; [reflexivity |]. split; [reflexivity |]. vm_compute. reflexivity.
Defined.

(** The last element of [range(a, b + d, d)] is at or above [b]. *)
Lemma top_tick (a b d : Z) :
  0 < d -> a <= b ->
  exists hi, In hi (range_list a (b + d) d) /\ b <= hi < b + d.
Proof.
  intros Hd Hab. set (q := (b - a + d - 1) / d).
  assert (Hq1 : d * q <= b - a + d - 1) by (apply Z.mul_div_le; exact Hd).
  assert (Hq2 : b - a + d - 1 < d * Z.succ q) by (apply Z.mul_succ_div_gt; exact Hd).
  assert (Hq0 : 0 <= q) by (apply Z.div_pos; lia).
  exists (a + q * d). split; [| nia].
  apply range_list_pos_In; [exact Hd |]. split; [nia |].
  replace (a + q * d - a) with (q * d) by lia. apply Z.mod_mul. lia.
Qed.

(** X3.  The y ticks cover the data.  For integer series, a positive
    [diff_y_ticks] and an integer x range, [get_min_max] followed by
    [get_ticks] puts the lowest tick [lo] on the smallest value and the
    highest tick [hi] at or above the largest value, less than one step above
    it; every tick is a whole number of steps above [lo] and not above
    [hi]. *)
Theorem y_ticks_cover_the_data
        (self : chart) (a' b' dx dy : Z) (x0 : pyval) (yss : list (list Z)) :
  py_min (converted_x_data self) = ok (PInt a') ->
  py_max (converted_x_data self) = ok (PInt b') ->
  y_data self = PList (map ints yss) ->
  yss <> [] -> Forall (fun l => l <> []) yss ->
  diff_y_ticks self = PInt dy -> 0 < dy ->
  diff_x_ticks self = PInt dx -> dx <> 0 ->
  py_getitem (x_data self) 0 = ok x0 ->
  exists c yt yl xt xl lo hi,
    BasePlot.get_min_max self = (inr c, []) /\
    BasePlot.get_ticks c = (inr c, [plt_yticks (ints yt) yl; plt_xticks xt xl]) /\
    In lo yt /\ In hi yt /\
    In lo (List.concat yss) /\
    (forall z, In z (List.concat yss) -> lo <= z <= hi) /\
    (exists z, In z (List.concat yss) /\ hi < z + dy) /\
    (forall t, In t yt -> lo <= t <= hi /\ (t - lo) mod dy = 0).
Proof.
  intros Ha Hb Hy Hne HF Hdy Hpos Hdx Hdx0 Hx.
  destruct (get_min_max_nested self Ha Hb Hy Hne HF)
    as (mn & mx & E & Hmn & Hmx & Hall).
  assert (Hle : mn <= mx) by (specialize (Hall mn Hmn); lia).
  destruct (top_tick Hpos Hle) as (hi & Hhi & Hb1 & Hb2).
  eexists _, (range_list mn (mx + dy) dy), _, _, _, mn, hi.
  split; [exact E |]. split.
  - apply get_ticks_spec with (a' := a') (b' := b') (d' := dx) (x0 := x0);
      [| exact Hx].
    unfold int_ranges. cbn. repeat split; try assumption. lia.
  - split; [apply range_list_pos_In; [exact Hpos |];
            rewrite Z.sub_diag; split; [lia | reflexivity] |].
    split; [exact Hhi |]. split; [exact Hmn |].
    split; [intros z Hz; specialize (Hall z Hz); lia |].
    split; [exists mx; split; [exact Hmx | lia] |].
    intros t Ht. apply range_list_pos_In in Ht; [| exact Hpos].
    destruct Ht as [[Ht1 Ht2] Ht3]. split; [| exact Ht3].
    split; [exact Ht1 |].
    apply range_list_pos_In in Hhi; [| exact Hpos].
    destruct Hhi as [_ Hm].
    apply Z.mod_divide in Hm; [| lia]. apply Z.mod_divide in Ht3; [| lia].
    destruct Hm as [k1 Hk1]. destruct Ht3 as [k2 Hk2].
    assert (Hk : (k2 - k1) * dy < 1 * dy) by lia.
    apply Z.mul_lt_mono_pos_r in Hk; [| exact Hpos].
    assert (Hk' : k2 * dy <= k1 * dy) by (apply Z.mul_le_mono_nonneg_r; lia).
    lia.
Qed.

Lemma y_ticks_cover_the_data_witness :
  exists c yt yl xt xl lo hi,
    BasePlot.get_min_max
      (LineChart.init (ints [0; 1; 2; 3; 4])
         (PList [ints [10; 30; 70; 100; 150]; ints [20; 40; 80; 120; 30]])
         (PInt 1) (PInt 20) PNone PNone PNone PNone) = (inr c, []) /\
    BasePlot.get_ticks c = (inr c, [plt_yticks (ints yt) yl; plt_xticks xt xl]) /\
    In lo yt /\ In hi yt /\ lo <= 10 /\ 150 <= hi.
Proof.
  destruct (@y_ticks_cover_the_data
              (LineChart.init (ints [0; 1; 2; 3; 4])
                 (PList [ints [10; 30; 70; 100; 150]; ints [20; 40; 80; 120; 30]])
                 (PInt 1) (PInt 20) PNone PNone PNone PNone)
              0 4 1 20 (PInt 0)
              [[10; 30; 70; 100; 150]; [20; 40; 80; 120; 30]]
              eq_refl eq_refl eq_refl ltac:(discriminate)
              ltac:(repeat constructor; discriminate)
              eq_refl ltac:(lia) eq_refl ltac:(lia) eq_refl)
    as (c & yt & yl & xt & xl & lo & hi & E1 & E2 & Hlo & Hhi & _ & Hall & _).
  exists c, yt, yl, xt, xl, lo, hi.
  split; [exact E1 |]. split; [exact E2 |]. split; [exact Hlo |].
  split; [exact Hhi |].
  split; [apply (Hall 10) | apply (Hall 150)]; simpl; auto 12.
Defined.

(** X4.  A bar chart with [diff_x_ticks = 1] has one x tick per label: when
    the converted x data are the positions [0 .. n - 1] of the [n] elements of
    [x_data], the x ticks are at exactly these positions, the labels passed
    to [plt.xticks] are [n], and they are [x_data] itself when its first
    element is a string. *)
Theorem bar_chart_one_tick_per_label
        (s c1 c2 : chart) (n : Z) (w1 w2 : list event) :
  converted_x_data s = PArr (map PInt (range_list 0 n 1)) ->
  py_len (x_data s) = ok n ->
  diff_x_ticks s = PInt 1 ->
  BasePlot.get_min_max s = (inr c1, w1) ->
  BasePlot.get_ticks c1 = (inr c2, w2) ->
  exists yt yl xl,
    w2 = [plt_yticks yt yl; plt_xticks (ints (range_list 0 n 1)) xl] /\
    py_len xl = ok n /\
    (forall z, In z (range_list 0 n 1) <-> 0 <= z <= n - 1) /\
    (forall x0, py_getitem (x_data s) 0 = ok x0 -> isinstance_str x0 = true ->
                xl = x_data s).
Proof.
  intros Hx Hn Hd H1 H2.
  destruct (@bar_chart_x_range s c1 w1 n Hx H1) as (Hn1 & Hmin & Hmax).
  pose proof (@get_min_max_keeps_inputs Line _ _ _ H1) as Hk.
  unfold inputs in Hk. injection Hk as Ex _ _ Edx _ _ _ _ _ _ _ _.
  destruct (get_ticks_inv _ H2) as (a & b & d & a' & b' & d' & x0 & Hr & Hx0).
  rewrite (get_ticks_spec Hr Hx0) in H2. inversion H2; subst c2 w2. clear H2.
  destruct Hr as (_ & _ & _ & Ha' & Hb' & Hd' & _ & _).
  rewrite Hmin in Ha'. rewrite Hmax in Hb'. rewrite Edx, Hd in Hd'.
  inversion Ha'; inversion Hb'; inversion Hd'; subst a' b' d'.
  replace (n - 1 + 1) with n by lia.
  do 3 eexists. split; [reflexivity |]. split; [| split].
  - destruct (isinstance_str x0).
    + rewrite Ex. exact Hn.
    + cbn [ints py_len]. rewrite length_map, range_list_step1, length_map, length_seq.
      f_equal. lia.
  - intros z. rewrite range_list_In. lia.
  - intros x1 Hx1 Hs. rewrite Ex, Hx1 in Hx0. inversion Hx0; subst x0.
    rewrite Hs. exact Ex.
Qed.

Lemma bar_chart_one_tick_per_label_witness :
  exists self c1 yt yl,
    SingleBarChart.init (strs ["A"; "B"; "C"; "D"; "E"]%string)
      (ints [10; 30; 70; 100; 150]) (PInt 1) (PInt 10) PNone PNone PNone PNone
    = ok self /\
    BasePlot.get_min_max self = (inr c1, []) /\
    BasePlot.get_ticks c1
    = (inr c1, [plt_yticks yt yl;
                plt_xticks (ints [0; 1; 2; 3; 4])
                           (strs ["A"; "B"; "C"; "D"; "E"]%string)]).
Proof.
  let r := eval vm_compute in
      (SingleBarChart.init (strs ["A"; "B"; "C"; "D"; "E"]%string)
         (ints [10; 30; 70; 100; 150]) (PInt 1) (PInt 10)
         PNone PNone PNone PNone) in
  lazymatch r with
  | inr ?s =>
      let r1 := eval vm_compute in (BasePlot.get_min_max s) in
      lazymatch r1 with
      | (inr ?c, _) =>
          let r2 := eval vm_compute in (BasePlot.get_ticks c) in
          lazymatch r2 with
          | (_, ?w) =>
              destruct (@bar_chart_one_tick_per_label s c c 5 [] w
                          ltac:(reflexivity) ltac:(reflexivity) ltac:(reflexivity)
                          ltac:(vm_compute; reflexivity)
                          ltac:(vm_compute; reflexivity))
                as (yt & yl & xl & E & _);
              exists s, c, yt, yl;
              split; [vm_compute; reflexivity |];
              split; [vm_compute; reflexivity |];
              inversion E; subst; vm_compute; reflexivity
          end
      end
  end.
Defined.

(** ** Data a render stops at *)

(** A render whose set-up fails after the styling calls. *)
Lemma render_fails_in_set_up (v : variant) (self : chart) (e : exn) (w : list event) :
  v_check_inputs (methods_of v) self = (inr self, []) ->
  ranges_and_grid (methods_of v) (set_ax (Some (Axes 111)) self) = (inl e, w) ->
  render v self = (inl e, style_calls ++ w).
Proof.
  intros Hc Hr. unfold render, BasePlot.call.
  rewrite (set_up_chart_checked _ _ Hc), Hr. reflexivity.
Qed.

Lemma ranges_fail_in_get_min_max (v : variant) (self : chart) (e : exn) :
  uses_base_ranges v = true ->
  BasePlot.get_min_max self = (inl e, []) ->
  ranges_and_grid (methods_of v) self = (inl e, []).
Proof.
  intros Hv H. unfold ranges_and_grid.
  destruct v; try discriminate; unfold_methods; rewrite H; reflexivity.
Qed.

Lemma check_passes (v : variant) (self : chart) :
  passes_check v self -> v_check_inputs (methods_of v) self = (inr self, []).
Proof.
  destruct v; unfold_methods; try reflexivity.
  intros (l & Hl & Hf). rewrite SingleBarChart_check_inputs_spec, Hl.
  cbn [ok]. rewrite Hf. reflexivity.
Qed.

Lemma render_fails_in_get_min_max (v : variant) (self : chart) (e : exn) :
  uses_base_ranges v = true -> passes_check v self ->
  BasePlot.get_min_max (set_ax (Some (Axes 111)) self) = (inl e, []) ->
  render v self = (inl e, style_calls).
Proof.
  intros Hv Hc H.
  rewrite (render_fails_in_set_up v (check_passes v self Hc)
             (ranges_fail_in_get_min_max v Hv H)).
  rewrite app_nil_r. reflexivity.
Qed.

Lemma ranges_fail_in_get_ticks (v : variant) (self c : chart) (e : exn) :
  uses_base_ranges v = true ->
  BasePlot.get_min_max self = (inr c, []) ->
  BasePlot.get_ticks c = (inl e, []) ->
  ranges_and_grid (methods_of v) self = (inl e, []).
Proof.
  intros Hv H1 H2. unfold ranges_and_grid.
  destruct v; try discriminate; unfold_methods; rewrite H1; cbn [bind];
    rewrite H2; reflexivity.
Qed.

Lemma render_fails_in_get_ticks (v : variant) (self c : chart) (e : exn) :
  uses_base_ranges v = true -> passes_check v self ->
  BasePlot.get_min_max (set_ax (Some (Axes 111)) self) = (inr c, []) ->
  BasePlot.get_ticks c = (inl e, []) ->
  render v self = (inl e, style_calls).
Proof.
  intros Hv Hc H1 H2.
  rewrite (render_fails_in_set_up v (check_passes v self Hc)
             (ranges_fail_in_get_ticks v Hv H1 H2)).
  rewrite app_nil_r. reflexivity.
Qed.

(** X5.  Empty x data.  For every class but the histogram, when the inputs
    pass [check_inputs] and there are no x positions, [get_min_max] raises
    [ValueError] ([min] of an empty sequence), and a render raises it after
    the styling calls and before any tick, grid line or series. *)
Theorem empty_x_data_raises_ValueError (v : variant) (self : chart) :
  uses_base_ranges v = true -> passes_check v self ->
  py_iter (converted_x_data self) = ok [] ->
  BasePlot.get_min_max self = (inl ValueError, []) /\
  render v self = (inl ValueError, style_calls).
Proof.
  intros Hv Hc Hx. split.
  - apply get_min_max_empty_x. exact Hx.
  - apply render_fails_in_get_min_max; auto.
    apply get_min_max_empty_x. exact Hx.
Qed.

Lemma empty_x_data_raises_ValueError_witness :
  exists self,
    SingleBarChart.init (PList []) (PList []) (PInt 1) (PInt 10)
      PNone PNone PNone PNone = ok self /\
    render SingleBar self = (inl ValueError, style_calls).
Proof.
  eexists. split; [reflexivity |].
  apply (empty_x_data_raises_ValueError SingleBar).
  - reflexivity.
  - exists []. split; reflexivity.
  - reflexivity.
Defined.

(** X6.  y data given as one array.  When [y_data] is an array of two or more
    elements, [if not self.y_data] has no truth value: [get_min_max] raises
    [ValueError], and so does a render of every class but the histogram,
    after the styling calls only. *)
Theorem array_y_data_raises_ValueError
        (v : variant) (self : chart) (a b u u' : pyval) (l : list pyval) :
  uses_base_ranges v = true -> passes_check v self ->
  py_min (converted_x_data self) = ok a ->
  py_max (converted_x_data self) = ok b ->
  y_data self = PArr (u :: u' :: l) ->
  BasePlot.get_min_max self = (inl ValueError, []) /\
  render v self = (inl ValueError, style_calls).
Proof.
  intros Hv Hc Ha Hb Hy. split.
  - eapply get_min_max_array_y; eauto.
  - apply render_fails_in_get_min_max; auto.
    eapply get_min_max_array_y; eauto.
Qed.

Lemma array_y_data_raises_ValueError_witness :
  exists self,
    SingleBarChart.init (strs ["A"; "B"; "C"]%string)
      (PArr [PInt 10; PInt 30; PInt 20]) (PInt 1) (PInt 10)
      PNone PNone PNone PNone = ok self /\
    render SingleBar self = (inl ValueError, style_calls).
Proof.
  eexists. split; [reflexivity |].
  apply (@array_y_data_raises_ValueError SingleBar _ (PInt 0) (PInt 2)
           (PInt 10) (PInt 30) [PInt 20]).
  - reflexivity.
  - exists [PInt 10; PInt 30; PInt 20]. split; reflexivity.
  - reflexivity.
  - reflexivity.
  - reflexivity.
Defined.

(** X7.  No y data.  When [y_data] is false as a condition ([None], an
    empty list, ...), [get_min_max] sets the x range only.  On an object
    whose [max_y] is still [None], [get_ticks] then raises [TypeError], and a
    render of a class other than the histogram whose inputs pass
    [check_inputs] stops there, after the styling calls only.  The inputs of
    a single-bar chart whose [y_data] is [None] do not pass: its
    [check_inputs] raises [TypeError] on iterating [None], and the render
    stops before any backend call. *)
Theorem no_y_data_raises_TypeError (v : variant) (self : chart) (a b : pyval) :
  uses_base_ranges v = true ->
  py_min (converted_x_data self) = ok a ->
  py_max (converted_x_data self) = ok b ->
  py_truthy (y_data self) = ok false ->
  max_y self = PNone ->
  BasePlot.get_min_max self = (inr (set_max_x b (set_min_x a self)), []) /\
  (passes_check v self -> render v self = (inl TypeError, style_calls)) /\
  (v <> SingleBar -> render v self = (inl TypeError, style_calls)) /\
  (y_data self = PList [] -> render v self = (inl TypeError, style_calls)) /\
  (y_data self = PNone -> render SingleBar self = (inl TypeError, [])).
Proof.
  intros Hv Ha Hb Hy Hm.
  assert (R : passes_check v self -> render v self = (inl TypeError, style_calls)).
  { intros Hc. eapply render_fails_in_get_ticks; auto.
    - apply (@get_min_max_no_y (set_ax (Some (Axes 111)) self) a b); assumption.
    - unfold BasePlot.get_ticks.
      change (max_y (set_max_x b (set_min_x a (set_ax (Some (Axes 111)) self))))
        with (max_y self).
      rewrite Hm, py_add_None. reflexivity. }
  split; [apply get_min_max_no_y; assumption |].
  split; [exact R |]. split; [| split].
  - intros Hn. apply R. destruct v; try exact I. congruence.
  - intros E. apply R. destruct v; try exact I.
    exists []. rewrite E. split; reflexivity.
  - intros E. unfold render, BasePlot.call, BasePlot.set_up_chart.
    change (v_check_inputs (methods_of SingleBar) self)
      with (SingleBarChart.check_inputs self).
    rewrite SingleBarChart_check_inputs_spec, E. reflexivity.
Qed.

Lemma no_y_data_raises_TypeError_witness :
  render Line (LineChart.init (ints [0; 1; 2]) (PList []) (PInt 1) (PInt 10)
                 PNone PNone PNone PNone)
  = (inl TypeError, style_calls) /\
  render SingleBar
    (BasePlot.init (strs ["A"; "B"; "C"]%string) (PList []) (PInt 1) (PInt 10)
       PNone PNone PNone PNone)
  = (inl TypeError, style_calls) /\
  render SingleBar
    (BasePlot.init (ints [0; 1; 2]) PNone (PInt 1) (PInt 10)
       PNone PNone PNone PNone)
  = (inl TypeError, []).
Proof.
  split; [| split].
  - apply (proj1 (proj2 (@no_y_data_raises_TypeError Line
             (LineChart.init (ints [0; 1; 2]) (PList []) (PInt 1) (PInt 10)
                PNone PNone PNone PNone)
             (PInt 0) (PInt 2) eq_refl eq_refl eq_refl eq_refl eq_refl))).
    exact I.
  - apply (proj1 (proj2 (proj2 (proj2 (@no_y_data_raises_TypeError SingleBar
             (BasePlot.init (strs ["A"; "B"; "C"]%string) (PList []) (PInt 1)
                (PInt 10) PNone PNone PNone PNone)
             (PStr "A") (PStr "C") eq_refl eq_refl eq_refl eq_refl eq_refl))))).
    reflexivity.
  - apply (proj2 (proj2 (proj2 (proj2 (@no_y_data_raises_TypeError SingleBar
             (BasePlot.init (ints [0; 1; 2]) PNone (PInt 1) (PInt 10)
                PNone PNone PNone PNone)
             (PInt 0) (PInt 2) eq_refl eq_refl eq_refl eq_refl eq_refl))))).
    reflexivity.
Defined.

Lemma min_loop_floats (l : list Q) :
  forall c, exists q,
    min_loop (fun x => ok x) (PFloat c) (map PFloat l) = ok (PFloat q).
Proof.
  induction l as [| x l IH]; intros c; simpl; [eauto |].
  destruct (Qlt_bool x c); apply IH.
Qed.

Lemma max_loop_floats (l : list Q) :
  forall c, exists q,
    max_loop (fun x => ok x) (PFloat c) (map PFloat l) = ok (PFloat q).
Proof.
  induction l as [| x l IH]; intros c; simpl; [eauto |].
  destruct (Qlt_bool c x); apply IH.
Qed.

Lemma py_min_floats (l : list Q) :
  l <> [] -> exists q, py_min (floats l) = ok (PFloat q).
Proof.
  destruct l as [| x l]; [congruence |]. intros _.
  exact (min_loop_floats l x).
Qed.

Lemma py_max_floats (l : list Q) :
  l <> [] -> exists q, py_max (floats l) = ok (PFloat q).
Proof.
  destruct l as [| x l]; [congruence |]. intros _.
  exact (max_loop_floats l x).
Qed.

Lemma min_loop_nested_floats (yss : list (list Q)) :
  Forall (fun l => l <> []) yss ->
  forall c, exists q,
    min_loop py_min (PFloat c) (map floats yss) = ok (PFloat q).
Proof.
  induction 1 as [| l yss Hl _ IH]; intros c; simpl; [eauto |].
  destruct (py_min_floats Hl) as (q & ->). simpl.
  destruct (Qlt_bool q c); apply IH.
Qed.

Lemma max_loop_nested_floats (yss : list (list Q)) :
  Forall (fun l => l <> []) yss ->
  forall c, exists q,
    max_loop py_max (PFloat c) (map floats yss) = ok (PFloat q).
Proof.
  induction 1 as [| l yss Hl _ IH]; intros c; simpl; [eauto |].
  destruct (py_max_floats Hl) as (q & ->). simpl.
  destruct (Qlt_bool c q); apply IH.
Qed.

Lemma get_min_max_floats (self : chart) (a b : pyval) :
  py_min (converted_x_data self) = ok a ->
  py_max (converted_x_data self) = ok b ->
  float_data (y_data self) ->
  exists mn mx,
    BasePlot.get_min_max self
    = (inr (set_max_y (PFloat mx) (set_min_y (PFloat mn)
              (set_max_x b (set_min_x a self)))), []).
Proof.
  intros Ha Hb Hy. unfold BasePlot.get_min_max. rewrite Ha. cbn [rbind ok].
  change (converted_x_data (set_min_x a self)) with (converted_x_data self).
  rewrite Hb. cbn [rbind ok].
  change (y_data (set_max_x b (set_min_x a self))) with (y_data self).
  destruct Hy as [(ys & Hne & Hy) | (yss & Hne & HF & Hy)]; rewrite Hy.
  - destruct (py_min_floats Hne) as (mn & Emn).
    destruct (py_max_floats Hne) as (mx & Emx).
    exists mn, mx.
    destruct ys as [| z ys]; [congruence |].
    unfold floats in *. cbn [py_truthy map rbind ok negb py_iter min_gen].
    change (py_min (PFloat z)) with (@throw pyval TypeError).
    cbn [rbind throw try_except_TypeError].
    cbn [map] in Emn, Emx. rewrite Emn. cbn [rbind ok]. rewrite Emx. reflexivity.
  - destruct yss as [| l yss]; [congruence |].
    inversion HF as [| ? ? Hl HF']; subst.
    destruct (py_min_floats Hl) as (ml & Eml).
    destruct (py_max_floats Hl) as (xl & Exl).
    destruct (min_loop_nested_floats HF' ml) as (mn & Emn).
    destruct (max_loop_nested_floats HF' xl) as (mx & Emx).
    exists mn, mx.
    cbn [py_truthy map rbind ok negb py_iter min_gen max_gen].
    rewrite Eml, Exl. cbn [rbind ok]. rewrite Emn. cbn [rbind ok].
    rewrite Emx. reflexivity.
Qed.

Lemma mapM_num_add_error (f : pyval -> pyresult pyval) (l : list pyval) (e : exn) :
  (forall x e, f x = inl e -> e = TypeError) ->
  mapM f l = inl e -> e = TypeError.
Proof.
  intros Hf. induction l as [| x l IH]; simpl; [discriminate |].
  destruct (f x) eqn:E; simpl.
  - intros H. inversion H; subst. eapply Hf; eauto.
  - destruct (mapM f l); simpl; [| discriminate].
    intros H. inversion H; subst. apply IH. reflexivity.
Qed.

Lemma num_add_error (a b : pyval) (e : exn) :
  num_add a b = inl e -> e = TypeError.
Proof. destruct a, b; simpl; intros H; inversion H; reflexivity. Qed.

Lemma py_add_error (a b : pyval) (e : exn) :
  py_add a b = inl e -> e = TypeError.
Proof.
  destruct a, b; cbn [py_add]; intros H;
    try (eapply num_add_error; exact H); try discriminate;
    match type of H with
    | rbind (mapM ?f ?l) _ = _ =>
        destruct (mapM f l) eqn:E; cbn [rbind] in H; [| discriminate];
        inversion H; subst;
        apply (@mapM_num_add_error f l); [| exact E];
        intros x e'; apply num_add_error
    end.
Qed.

Lemma get_ticks_float_min (self : chart) (q : Q) :
  min_y self = PFloat q -> BasePlot.get_ticks self = (inl TypeError, []).
Proof.
  intros Hm. unfold BasePlot.get_ticks.
  destruct (py_add (max_y self) (diff_y_ticks self)) as [e | s] eqn:E.
  - apply py_add_error in E. subst. reflexivity.
  - cbn [lift bind]. unfold py_range. rewrite Hm. reflexivity.
Qed.

(** X8.  Float y data.  When the y values are floats, [get_min_max] returns
    a float [min_y], [range] refuses it, and [get_ticks] raises [TypeError]
    without a backend call: a render of every class but the histogram stops
    after the styling calls. *)
Theorem float_y_data_raises_TypeError (v : variant) (self : chart) (a b : pyval) :
  uses_base_ranges v = true -> passes_check v self ->
  py_min (converted_x_data self) = ok a ->
  py_max (converted_x_data self) = ok b ->
  float_data (y_data self) ->
  (exists c q, BasePlot.get_min_max self = (inr c, []) /\ min_y c = PFloat q /\
               BasePlot.get_ticks c = (inl TypeError, [])) /\
  render v self = (inl TypeError, style_calls).
Proof.
  intros Hv Hc Ha Hb Hy. split.
  - destruct (get_min_max_floats self Ha Hb Hy) as (mn & mx & E).
    eexists _, mn. split; [exact E |]. split; [reflexivity |].
    apply get_ticks_float_min with (q := mn). reflexivity.
  - destruct (@get_min_max_floats (set_ax (Some (Axes 111)) self) a b Ha Hb Hy)
      as (mn & mx & E).
    eapply render_fails_in_get_ticks; eauto.
    apply get_ticks_float_min with (q := mn). reflexivity.
Qed.

Lemma float_y_data_raises_TypeError_witness :
  render Line (LineChart.init (ints [0; 1; 2])
                 (PList [floats [0.5; 1.5; 1]%Q; floats [2; 0.25; 3]%Q])
                 (PInt 1) (PInt 10) PNone PNone PNone PNone)
  = (inl TypeError, style_calls).
Proof.
  apply (@float_y_data_raises_TypeError Line _ (PInt 0) (PInt 2)).
  - reflexivity.
  - exact I.
  - reflexivity.
  - reflexivity.
  - right. exists [[0.5; 1.5; 1]%Q; [2; 0.25; 3]%Q].
    split; [discriminate |]. split; [| reflexivity].
    repeat constructor; discriminate.
Defined.

Lemma get_ticks_non_int_min_x (self : chart) (a b d : Z) :
  min_y self = PInt a -> max_y self = PInt b -> diff_y_ticks self = PInt d ->
  d <> 0 -> (forall z, min_x self <> PInt z) ->
  BasePlot.get_ticks self = (inl TypeError, []).
Proof.
  intros Ha Hb Hd Hd0 Hx. unfold BasePlot.get_ticks. rewrite Ha, Hb, Hd.
  rewrite bind_lift_ok with (a := PInt (b + d)) by reflexivity.
  rewrite (bind_lift_ok _ (py_range_ints a (b + d) Hd0)).
  destruct (py_add (max_x self) (diff_x_ticks self)) as [e | s] eqn:E.
  - apply py_add_error in E. subst. reflexivity.
  - cbn [lift bind]. unfold py_range.
    destruct (min_x self) as [| z | | | |] eqn:Em; try reflexivity.
    exfalso. apply (Hx z). reflexivity.
Qed.

(** X9.  x positions that are not integers.  When the smallest x position is
    not an integer (a string or a float, say), the y data are integers and
    [diff_y_ticks] is a non-zero integer, the x tick range cannot be built:
    a render of every class but the histogram raises [TypeError] after the
    styling calls only.  A line chart takes its positions from [x_data], so
    it cannot be drawn over string labels. *)
Theorem non_integer_x_raises_TypeError
        (v : variant) (self : chart) (a b : pyval) (zs : list Z) (dy : Z) :
  uses_base_ranges v = true -> passes_check v self ->
  py_min (converted_x_data self) = ok a ->
  py_max (converted_x_data self) = ok b ->
  (forall z, a <> PInt z) ->
  all_values (y_data self) zs -> zs <> [] ->
  diff_y_ticks self = PInt dy -> dy <> 0 ->
  render v self = (inl TypeError, style_calls).
Proof.
  intros Hv Hc Ha Hb Hna Hy Hzs Hdy Hdy0.
  assert (exists mn mx,
             BasePlot.get_min_max (set_ax (Some (Axes 111)) self)
             = (inr (set_max_y (PInt mx) (set_min_y (PInt mn)
                       (set_max_x b (set_min_x a
                          (set_ax (Some (Axes 111)) self))))), []))
    as (mn & mx & E).
  { destruct Hy as [Hy | (yss & Hy & HF & ->)].
    - destruct (@get_min_max_flat (set_ax (Some (Axes 111)) self) a b zs
                  Ha Hb Hy Hzs) as (mn & mx & E & _).
      exists mn, mx. exact E.
    - assert (Hne : yss <> []) by (intros ->; apply Hzs; reflexivity).
      destruct (@get_min_max_nested (set_ax (Some (Axes 111)) self) a b yss
                  Ha Hb Hy Hne HF) as (mn & mx & E & _).
      exists mn, mx. exact E. }
  eapply render_fails_in_get_ticks; [exact Hv | exact Hc | exact E |].
  apply get_ticks_non_int_min_x with (a := mn) (b := mx) (d := dy);
    try reflexivity; assumption.
Qed.

Lemma non_integer_x_raises_TypeError_witness :
  render Line
    (LineChart.init (strs ["Mon"; "Tue"; "Wed"]%string) (PList [ints [10; 30; 20]])
       (PInt 1) (PInt 10) PNone PNone PNone PNone)
  = (inl TypeError, style_calls).
Proof.
  apply (@non_integer_x_raises_TypeError Line _ (PStr "Mon") (PStr "Wed")
           [10; 30; 20] 10).
  - reflexivity.
  - exact I.
  - reflexivity.
  - reflexivity.
  - intros z. discriminate.
  - right. exists [[10; 30; 20]]. split; [reflexivity |].
    split; [repeat constructor; discriminate | reflexivity].
  - discriminate.
  - reflexivity.
  - lia.
Defined.

(** ** The grid *)

Lemma get_grid_range_keeps_y_ticks (v : variant) :
  keeps y_ticks (v_get_grid_range (methods_of v)).
Proof.
  destruct v; unfold_methods; intros self self' w H;
    unfold BasePlot.get_grid_range, LineChart.get_grid_range,
      SingleBarChart.get_grid_range, MultipleBarChart.get_grid_range,
      Histogram.get_grid_range in H;
    inv_plt; subst; reflexivity.
Qed.

Lemma get_grid_range_silent (v : variant) (self : chart) :
  events (v_get_grid_range (methods_of v) self) = [].
Proof. destruct v; reflexivity. Qed.

Lemma get_min_max_silent (v : variant) (self : chart) :
  events (v_get_min_max (methods_of v) self) = [].
Proof. destruct v; reflexivity. Qed.

Lemma get_grid_loop (self : chart) (n : Z) (l : list Z) :
  py_len (grid_range self) = ok n ->
  for_each l
    (fun y self =>
       n <- lift (py_len (grid_range self)) ;;
       _ <- emit (plt_plot (grid_range self)
                           (PList (repeat (PInt y) (Z.to_nat n)))
                           (Some "--"%string) 0.5%Q (Named "black") (Some 0.3%Q)
                           PNone) ;;
       ret self)
    self
  = (inr self, map (grid_line (grid_range self) (Z.to_nat n)) l).
Proof.
  intros Hn. induction l as [| y l IH]; [reflexivity |].
  cbn [for_each map]. rewrite (bind_lift_ok _ Hn).
  unfold bind at 2. cbn [emit ret app]. cbn [bind]. rewrite IH. reflexivity.
Qed.

Lemma get_grid_spec (self : chart) (a b d n : Z) :
  min_y self = PInt a -> max_y self = PInt b -> diff_y_ticks self = PInt d ->
  d <> 0 -> py_len (grid_range self) = ok n ->
  BasePlot.get_grid self
  = (inr self, map (grid_line (grid_range self) (Z.to_nat n))
                   (range_list a (b + d) d)).
Proof.
  intros Ha Hb Hd Hd0 Hn. unfold BasePlot.get_grid. rewrite Ha, Hb, Hd.
  rewrite bind_lift_ok with (a := PInt (b + d)) by reflexivity.
  rewrite (bind_lift_ok _ (py_range_ints a (b + d) Hd0)).
  apply get_grid_loop. exact Hn.
Qed.

Lemma py_len_nat (v : pyval) (n : Z) :
  py_len v = ok n -> n = Z.of_nat (Z.to_nat n).
Proof.
  destruct v; simpl; intros H; inversion H; rewrite Nat2Z.id; reflexivity.
Qed.

(** What [get_grid] needs to return, and what it then draws. *)
Lemma get_grid_inv (self c : chart) (w : list event) :
  BasePlot.get_grid self = (inr c, w) ->
  exists a b d n,
    min_y self = PInt a /\ max_y self = PInt b /\ diff_y_ticks self = PInt d /\
    d <> 0 /\
    (range_list a (b + d) d <> [] ->
     py_len (grid_range self) = ok (Z.of_nat n)) /\
    w = map (grid_line (grid_range self) n) (range_list a (b + d) d).
Proof.
  intros H. pose proof H as H0. unfold BasePlot.get_grid in H.
  apply bind_inv in H. destruct H as (s & ? & ? & H1 & H & ->).
  apply lift_inv in H1. destruct H1 as [H1 ->].
  apply bind_inv in H. destruct H as (yt & ? & ? & H2 & H & ->).
  apply lift_inv in H2. destruct H2 as [H2 ->]. cbn [app] in *.
  apply py_range_inv in H2. destruct H2 as (a & s' & d & Ha & Hs & Hd & Hd0 & Hyt).
  subst s. apply py_add_int_inv in H1. destruct H1 as (b & d1 & Hb & Hd1 & Hs').
  rewrite Hd in Hd1. inversion Hd1; subst d1. subst s'.
  destruct (py_len (grid_range self)) as [e | n] eqn:En.
  - exists a, b, d, 0%nat. repeat split; auto.
    + intros Hne. exfalso. subst yt.
      destruct (range_list a (b + d) d) as [| y l]; [congruence |].
      cbn [for_each] in H. rewrite En in H. discriminate.
    + subst yt. destruct (range_list a (b + d) d) as [| y l].
      * inversion H. reflexivity.
      * cbn [for_each] in H. rewrite En in H. discriminate.
  - exists a, b, d, (Z.to_nat n). repeat split; auto.
    + intros _. rewrite <- (py_len_nat _ En). reflexivity.
    + rewrite (get_grid_spec self Ha Hb Hd Hd0 En) in H0. inversion H0.
      reflexivity.
Qed.

Lemma get_grid_returns (self : chart) (a b d : Z) (n : nat) :
  min_y self = PInt a -> max_y self = PInt b -> diff_y_ticks self = PInt d ->
  d <> 0 ->
  (range_list a (b + d) d <> [] -> py_len (grid_range self) = ok (Z.of_nat n)) ->
  BasePlot.get_grid self
  = (inr self, map (grid_line (grid_range self) n) (range_list a (b + d) d)).
Proof.
  intros Ha Hb Hd Hd0 Hn.
  destruct (range_list a (b + d) d) as [| y l] eqn:E.
  - unfold BasePlot.get_grid. rewrite Ha, Hb, Hd.
    rewrite bind_lift_ok with (a := PInt (b + d)) by reflexivity.
    rewrite (bind_lift_ok _ (py_range_ints a (b + d) Hd0)). rewrite E.
    reflexivity.
  - rewrite (get_grid_spec self Ha Hb Hd Hd0 (Hn ltac:(discriminate))).
    rewrite E, Nat2Z.id. reflexivity.
Qed.

(** X10.  [get_grid] returns exactly when the y range and [diff_y_ticks] are
    integers, the step is not 0 and, if there is a tick at all, the grid
    range has a length [n].  It then leaves the object as it is and draws one
    dashed black line (width 0.5, alpha 0.3) per element of
    [range(min_y, max_y + diff_y_ticks, diff_y_ticks)], in order, each over
    the whole grid range at that constant height. *)
Theorem get_grid_draws_a_line_per_y_tick (self c : chart) (w : list event) :
  BasePlot.get_grid self = (inr c, w) <->
  exists a b d n,
    min_y self = PInt a /\ max_y self = PInt b /\ diff_y_ticks self = PInt d /\
    d <> 0 /\
    (range_list a (b + d) d <> [] ->
     py_len (grid_range self) = ok (Z.of_nat n)) /\
    c = self /\
    w = map (grid_line (grid_range self) n) (range_list a (b + d) d).
Proof.
  split.
  - intros H.
    destruct (get_grid_inv _ H) as (a & b & d & n & Ha & Hb & Hd & Hd0 & Hn & Hw).
    exists a, b, d, n. repeat split; auto.
    eapply get_grid_returns_self. exact H.
  - intros (a & b & d & n & Ha & Hb & Hd & Hd0 & Hn & -> & ->).
    apply get_grid_returns; assumption.
Qed.

Lemma get_grid_draws_a_line_per_y_tick_witness :
  BasePlot.get_grid
    (set_grid_range (PArr (map PInt [0; 1; 2]))
       (set_max_y (PInt 25) (set_min_y (PInt 5)
          (BasePlot.init (ints [0; 1; 2]) (PList [ints [5; 25; 10]])
             (PInt 1) (PInt 10) PNone PNone PNone PNone))))
  = (inr (set_grid_range (PArr (map PInt [0; 1; 2]))
            (set_max_y (PInt 25) (set_min_y (PInt 5)
               (BasePlot.init (ints [0; 1; 2]) (PList [ints [5; 25; 10]])
                  (PInt 1) (PInt 10) PNone PNone PNone PNone)))),
     [ grid_line (PArr (map PInt [0; 1; 2])) 3 5;
       grid_line (PArr (map PInt [0; 1; 2])) 3 15;
       grid_line (PArr (map PInt [0; 1; 2])) 3 25 ]).
Proof.
  apply (proj2 (get_grid_draws_a_line_per_y_tick _ _ _)).
  exists 5, 25, 10, 3%nat.
  split; [reflexivity |]. split; [reflexivity |]. split; [reflexivity |].
  split; [lia |]. split; [intros _; reflexivity |].
  split; reflexivity.
Defined.

Lemma get_grid_array (self : chart) (a b d : Z) (g : list pyval) :
  min_y self = PInt a -> max_y self = PInt b -> diff_y_ticks self = PInt d ->
  d <> 0 -> py_iter (grid_range self) = ok g ->
  BasePlot.get_grid self
  = (inr self, map (grid_line (grid_range self) (List.length g))
                   (range_list a (b + d) d)).
Proof.
  intros Ha Hb Hd Hd0 Hg.
  rewrite (get_grid_spec self Ha Hb Hd Hd0 (py_iter_len _ Hg)).
  rewrite Nat2Z.id. reflexivity.
Qed.

(** ** The text *)

Lemma include_text_spec (self : chart) (t1 t2 t3 t4 : bool) :
  py_truthy (title self) = ok t1 ->
  py_truthy (x_axis_label self) = ok t2 ->
  py_truthy (y_axis_label self) = ok t3 ->
  py_truthy (y_descriptors self) = ok t4 ->
  BasePlot.include_text self = (inr self, text_calls self t1 t2 t3 t4).
Proof.
  intros H1 H2 H3 H4. unfold BasePlot.include_text.
  rewrite H1, H2, H3, H4. destruct t1, t2, t3, t4; reflexivity.
Qed.

(** X11.  [include_text] returns exactly when the title, the two axis labels
    and the descriptors have a truth value.  It then leaves the object as it
    is and calls, in this order, [plt.title], [plt.xlabel], [plt.ylabel] and
    [plt.legend], each only if its value is set (not [None], not empty), and
    then [plt.show]. *)
Theorem include_text_draws_what_is_set (self self' : chart) (w : list event) :
  BasePlot.include_text self = (inr self', w) <->
  exists t1 t2 t3 t4,
    py_truthy (title self) = ok t1 /\
    py_truthy (x_axis_label self) = ok t2 /\
    py_truthy (y_axis_label self) = ok t3 /\
    py_truthy (y_descriptors self) = ok t4 /\
    self' = self /\ w = text_calls self t1 t2 t3 t4.
Proof.
  split.
  - intros H. pose proof H as H0. unfold BasePlot.include_text in H.
    apply bind_inv in H. destruct H as (t1 & ? & ? & H1 & H & _).
    apply lift_inv in H1. destruct H1 as [H1 _].
    apply bind_inv in H. destruct H as (? & ? & ? & _ & H & _).
    apply bind_inv in H. destruct H as (t2 & ? & ? & H2 & H & _).
    apply lift_inv in H2. destruct H2 as [H2 _].
    apply bind_inv in H. destruct H as (? & ? & ? & _ & H & _).
    apply bind_inv in H. destruct H as (t3 & ? & ? & H3 & H & _).
    apply lift_inv in H3. destruct H3 as [H3 _].
    apply bind_inv in H. destruct H as (? & ? & ? & _ & H & _).
    apply bind_inv in H. destruct H as (t4 & ? & ? & H4 & H & _).
    apply lift_inv in H4. destruct H4 as [H4 _].
    exists t1, t2, t3, t4.
    rewrite (include_text_spec self H1 H2 H3 H4) in H0. inversion H0; subst.
    repeat split; auto.
  - intros (t1 & t2 & t3 & t4 & H1 & H2 & H3 & H4 & -> & ->).
    apply include_text_spec; assumption.
Qed.

Lemma include_text_draws_what_is_set_witness :
  BasePlot.include_text
    (LineChart.init (ints [0; 1; 2]) (PList [ints [10; 30; 20]])
       (PInt 1) (PInt 10) (PStr "Sample x-axis") PNone PNone (PStr "Sample plot"))
  = (inr (LineChart.init (ints [0; 1; 2]) (PList [ints [10; 30; 20]])
            (PInt 1) (PInt 10) (PStr "Sample x-axis") PNone PNone
            (PStr "Sample plot")),
     [plt_title (PStr "Sample plot"); plt_xlabel (PStr "Sample x-axis"); plt_show]).
Proof.
  apply (proj2 (include_text_draws_what_is_set _ _ _)).
  exists true, true, false, false. repeat split; reflexivity.
Defined.

(** ** The order of the backend calls *)

Lemma y_ticks_inv (v : variant) (c c' : chart) (w : list event) :
  v_get_ticks (methods_of v) c = (inr c', w) ->
  exists a b d yl xt xl,
    min_y c = PInt a /\ max_y c = PInt b /\ diff_y_ticks c = PInt d /\ d <> 0 /\
    w = [plt_yticks (ints (range_list a (b + d) d)) yl; plt_xticks xt xl].
Proof.
  intros H.
  assert (exists s yt yl xt xl,
             py_add (max_y c) (diff_y_ticks c) = ok s /\
             py_range (min_y c) s (diff_y_ticks c) = ok yt /\
             w = [plt_yticks (ints yt) yl; plt_xticks xt xl])
    as (s & yt & yl & xt & xl & H1 & H2 & Hw).
  { revert H. destruct v; unfold_methods; intros H;
      unfold BasePlot.get_ticks, Histogram.get_ticks in H;
      inv_plt; subst; cbn [app]; do 5 eexists; repeat split; eauto. }
  apply py_range_inv in H2. destruct H2 as (a & s' & d & Ha & Hs & Hd & Hd0 & Hyt).
  subst s. apply py_add_int_inv in H1. destruct H1 as (b & d1 & Hb & Hd1 & Hs').
  rewrite Hd in Hd1. inversion Hd1; subst d1. subst s' yt.
  exists a, b, d, yl, xt, xl. repeat split; auto.
Qed.

Lemma plot_all_series (v : variant) (self : chart) :
  Forall (fun ev => is_series ev = true) (events (v_plot (methods_of v) self)).
Proof.
  destruct v; unfold_methods;
    unfold BasePlot.plot, LineChart.plot, SingleBarChart.plot,
      MultipleBarChart.plot, Histogram.plot; events_all.
Qed.

Lemma include_text_all_text (self self' : chart) (w : list event) :
  BasePlot.include_text self = (inr self', w) ->
  exists wt, w = wt ++ [plt_show] /\ Forall (fun ev => is_text ev = true) wt.
Proof.
  unfold BasePlot.include_text. intros H.
  apply bind_inv in H. destruct H as (t1 & ? & ? & H1 & H & ->).
  apply lift_inv in H1. destruct H1 as [_ ->].
  apply bind_inv in H. destruct H as (? & w1 & ? & E1 & H & ->).
  apply optional_call_inv in E1.
  apply bind_inv in H. destruct H as (t2 & ? & ? & H2 & H & ->).
  apply lift_inv in H2. destruct H2 as [_ ->].
  apply bind_inv in H. destruct H as (? & w2 & ? & E2 & H & ->).
  apply optional_call_inv in E2.
  apply bind_inv in H. destruct H as (t3 & ? & ? & H3 & H & ->).
  apply lift_inv in H3. destruct H3 as [_ ->].
  apply bind_inv in H. destruct H as (? & w3 & ? & E3 & H & ->).
  apply optional_call_inv in E3.
  apply bind_inv in H. destruct H as (t4 & ? & ? & H4 & H & ->).
  apply lift_inv in H4. destruct H4 as [_ ->].
  apply bind_inv in H. destruct H as (? & w4 & ? & E4 & H & ->).
  apply optional_call_inv in E4.
  apply bind_inv in H. destruct H as (? & w5 & ? & E5 & H & ->).
  inversion E5; subst. inversion H; subst.
  exists ((if t1 then [plt_title (title self')] else [])
          ++ (if t2 then [plt_xlabel (x_axis_label self')] else [])
          ++ (if t3 then [plt_ylabel (y_axis_label self')] else [])
          ++ (if t4 then [plt_legend 7 false (1.112, 0.5)%Q 8] else [])).
  split.
  - destruct t1, t2, t3, t4; reflexivity.
  - destruct t1, t2, t3, t4; repeat constructor.
Qed.

(** X12.  The backend calls of a render that returns, for every class: the
    seven styling calls; one [plt.yticks] and one [plt.xticks]; one dashed
    grid line per y tick, over the grid range the object ends with; the
    calls that draw the series; the calls that set the text; two
    [plt.show]. *)
Theorem render_call_order (v : variant) (self self' : chart) (w : list event) :
  render v self = (inr self', w) ->
  exists yt yl xt xl n series text,
    w = style_calls
          ++ [plt_yticks (ints yt) yl; plt_xticks xt xl]
          ++ map (grid_line (grid_range self') n) yt
          ++ series ++ text ++ [plt_show; plt_show] /\
    (yt <> [] -> py_len (grid_range self') = ok (Z.of_nat n)) /\
    Forall (fun ev => is_series ev = true) series /\
    Forall (fun ev => is_text ev = true) text.
Proof.
  intros H.
  destruct (render_inv v self H) as (ws & wp & wt & Hs & Hp & Ht & ->).
  destruct (set_up_chart_inv v self Hs)
    as (c1 & w1 & w2 & w3 & w4 & _ & H1 & H2 & H3 & H4 & ->).
  pose proof (get_min_max_silent v (set_ax (Some (Axes 111)) self)) as E1.
  rewrite H1 in E1. cbn in E1. subst w1.
  pose proof (get_grid_range_silent v c1) as E3.
  rewrite H3 in E3. cbn in E3. subst w3.
  destruct (y_ticks_inv v c1 H2) as (a & b & d & yl & xt & xl & Ha & Hb & Hd & Hd0 & ->).
  pose proof (@get_grid_range_keeps_y_ticks v _ _ _ H3) as Hk.
  unfold y_ticks in Hk. rewrite Ha, Hb, Hd in Hk.
  destruct (get_grid_inv _ H4) as (a' & b' & d' & n & Ha' & Hb' & Hd' & _ & Hn & ->).
  rewrite Ha', Hb', Hd' in Hk. inversion Hk; subst a' b' d'.
  destruct (include_text_all_text _ Ht) as (text & -> & Htext).
  pose proof (plot_all_series v self') as Hser. rewrite Hp in Hser. cbn in Hser.
  exists (range_list a (b + d) d), yl, xt, xl, n, wp, text.
  split; [| split; [exact Hn | split; assumption]].
  cbn [app]. rewrite <- !app_assoc. reflexivity.
Qed.

Lemma render_call_order_witness :
  exists yt yl xt xl n series text,
    events (render Line
              (LineChart.init (ints [0; 1; 2; 3; 4])
                 (PList [ints [10; 30; 70; 100; 150]; ints [20; 40; 80; 120; 30]])
                 (PInt 1) (PInt 10) (PStr "Sample x-axis") PNone
                 (strs ["Line 1"; "Line 2"]%string) (PStr "Sample plot")))
    = style_calls
        ++ [plt_yticks (ints yt) yl; plt_xticks xt xl]
        ++ map (grid_line (PArr (map PInt [0; 1; 2; 3; 4])) n) yt
        ++ series ++ text ++ [plt_show; plt_show].
Proof.
  let r := eval vm_compute in
      (render Line
         (LineChart.init (ints [0; 1; 2; 3; 4])
            (PList [ints [10; 30; 70; 100; 150]; ints [20; 40; 80; 120; 30]])
            (PInt 1) (PInt 10) (PStr "Sample x-axis") PNone
            (strs ["Line 1"; "Line 2"]%string) (PStr "Sample plot"))) in
  lazymatch r with
  | (inr ?c, ?w) =>
      destruct (@render_call_order Line
                  (LineChart.init (ints [0; 1; 2; 3; 4])
                     (PList [ints [10; 30; 70; 100; 150];
                             ints [20; 40; 80; 120; 30]])
                     (PInt 1) (PInt 10) (PStr "Sample x-axis") PNone
                     (strs ["Line 1"; "Line 2"]%string) (PStr "Sample plot"))
                  c w ltac:(vm_compute; reflexivity))
        as (yt & yl & xt & xl & n & series & text & E & _);
      exists yt, yl, xt, xl, n, series, text;
      etransitivity; [vm_compute; reflexivity | exact E]
  end.
Defined.

(** ** Renders that return *)

(** A render all of whose stages return. *)
Lemma render_returns (v : variant) (self c1 c2 : chart)
      (w2 w4 wp wt : list event) :
  v_check_inputs (methods_of v) self = (inr self, []) ->
  v_get_min_max (methods_of v) (set_ax (Some (Axes 111)) self) = (inr c1, []) ->
  v_get_ticks (methods_of v) c1 = (inr c1, w2) ->
  v_get_grid_range (methods_of v) c1 = (inr c2, []) ->
  BasePlot.get_grid c2 = (inr c2, w4) ->
  v_plot (methods_of v) c2 = (inr c2, wp) ->
  BasePlot.include_text c2 = (inr c2, wt) ->
  render v self
  = (inr c2, style_calls ++ w2 ++ w4 ++ wp ++ wt ++ [plt_show]).
Proof.
  intros Hc H1 H2 H3 H4 Hp Ht.
  assert (Hr : ranges_and_grid (methods_of v) (set_ax (Some (Axes 111)) self)
               = (inr c2, w2 ++ w4)).
  { unfold ranges_and_grid. rewrite H1. cbn [bind]. rewrite H2. cbn [bind].
    rewrite H3. cbn [bind]. rewrite H4. cbn [app]. reflexivity. }
  unfold render, BasePlot.call.
  rewrite (set_up_chart_checked _ _ Hc), Hr. cbn [outcome events fst snd bind].
  rewrite Hp. cbn [bind]. rewrite Ht. cbn [bind emit ret].
  rewrite !app_nil_r, <- !app_assoc. reflexivity.
Qed.

Lemma LineChart_get_grid_range_spec (self : chart) (a b d : Z) :
  min_x self = PInt a -> max_x self = PInt b -> diff_x_ticks self = PInt d ->
  LineChart.get_grid_range self
  = (inr (set_grid_range (PArr (map PInt (range_list a (b + d) 1))) self), []).
Proof.
  intros Ha Hb Hd. unfold LineChart.get_grid_range. rewrite Ha, Hb, Hd.
  reflexivity.
Qed.

(** X13.  The grid range of a line chart: for an integer x range and an
    integer [diff_x_ticks], [LineChart.get_grid_range] sets [grid_range] to
    the consecutive integers from [min_x] to [max_x + diff_x_ticks - 1], in
    ascending order, whatever the tick step is. *)
Theorem LineChart_grid_range_span (self : chart) (a b d : Z) :
  min_x self = PInt a -> max_x self = PInt b -> diff_x_ticks self = PInt d ->
  exists zs,
    LineChart.get_grid_range self
    = (inr (set_grid_range (PArr (map PInt zs)) self), []) /\
    (forall z, In z zs <-> a <= z <= b + d - 1) /\
    StronglySorted Z.lt zs.
Proof.
  intros Ha Hb Hd. exists (range_list a (b + d) 1).
  split; [apply LineChart_get_grid_range_spec; assumption |].
  split; [| apply range_list_sorted].
  intros z. rewrite range_list_In. lia.
Qed.

Lemma LineChart_grid_range_span_witness :
  exists zs,
    LineChart.get_grid_range
      (set_max_x (PInt 4) (set_min_x (PInt 0)
         (LineChart.init (ints [0; 1; 2; 3; 4]) (PList [ints [10; 30; 70; 100; 150]])
            (PInt 3) (PInt 10) PNone PNone PNone PNone)))
    = (inr (set_grid_range (PArr (map PInt zs))
              (set_max_x (PInt 4) (set_min_x (PInt 0)
                 (LineChart.init (ints [0; 1; 2; 3; 4])
                    (PList [ints [10; 30; 70; 100; 150]])
                    (PInt 3) (PInt 10) PNone PNone PNone PNone)))), []) /\
    (In 6 zs /\ ~ In 7 zs).
Proof.
  destruct (@LineChart_grid_range_span
              (set_max_x (PInt 4) (set_min_x (PInt 0)
                 (LineChart.init (ints [0; 1; 2; 3; 4])
                    (PList [ints [10; 30; 70; 100; 150]])
                    (PInt 3) (PInt 10) PNone PNone PNone PNone)))
              0 4 3 eq_refl eq_refl eq_refl) as (zs & E & Hin & _).
  exists zs. split; [exact E |]. split.
  - apply Hin. lia.
  - intros H. apply Hin in H. lia.
Defined.

(** X14.  A line chart of integer data renders.  For a non-empty list of
    integer x positions, between 1 and 20 non-empty integer series, non-zero
    integer tick steps, text arguments that have a truth value and labels
    for every series, the render returns (every backend call being taken to
    return) and makes exactly these calls: the styling calls, the y ticks
    from the smallest to the largest value, the x ticks labelled by their
    positions, one grid line per y tick over the integers from the smallest
    x to the largest x plus [diff_x_ticks - 1], one line per series, the
    text, and the last [plt.show].  The inputs of the object are
    unchanged. *)
Theorem LineChart_render_returns
        (xs : list Z) (yss : list (list Z)) (dx dy : Z) (xl yl yd t : pyval)
        (labels : list pyval) (t1 t2 t3 t4 : bool) :
  xs <> [] -> yss <> [] -> Forall (fun l => l <> []) yss ->
  (List.length yss <= 20)%nat -> dx <> 0 -> dy <> 0 ->
  py_truthy t = ok t1 -> py_truthy xl = ok t2 -> py_truthy yl = ok t3 ->
  py_truthy yd = ok t4 ->
  labels_for (LineChart.init (ints xs) (PList (map ints yss)) (PInt dx) (PInt dy)
                xl yl yd t) (List.length yss) labels ->
  exists a b mn mx self',
    render Line (LineChart.init (ints xs) (PList (map ints yss)) (PInt dx) (PInt dy)
                   xl yl yd t)
    = (inr self',
       style_calls
       ++ [ plt_yticks (ints (range_list mn (mx + dy) dy))
              (PList (map (fun x => PStr (py_str x)) (range_list mn (mx + dy) dy)));
            plt_xticks (ints (range_list a (b + dx) dx))
              (ints (range_list a (b + dx) dx)) ]
       ++ map (grid_line (PArr (map PInt (range_list a (b + dx) 1)))
                 (List.length (range_list a (b + dx) 1)))
              (range_list mn (mx + dy) dy)
       ++ line_calls self' labels (map ints yss)
       ++ text_calls self' t1 t2 t3 t4
       ++ [plt_show]) /\
    In a xs /\ In b xs /\ (forall x, In x xs -> a <= x <= b) /\
    In mn (List.concat yss) /\ In mx (List.concat yss) /\
    (forall z, In z (List.concat yss) -> mn <= z <= mx) /\
    inputs self'
    = inputs (LineChart.init (ints xs) (PList (map ints yss)) (PInt dx) (PInt dy)
                xl yl yd t).
Proof.
  intros Hxs Hne HF Hk Hdx Hdy Ht1 Ht2 Ht3 Ht4 Hl.
  set (self := LineChart.init (ints xs) (PList (map ints yss)) (PInt dx) (PInt dy)
                 xl yl yd t) in *.
  destruct (py_min_ints Hxs) as (a & Ea & Ha & Hlb).
  destruct (py_max_counts Hxs) as (b & Eb & Hb & Hub).
  destruct (@get_min_max_nested (set_ax (Some (Axes 111)) self) (PInt a) (PInt b)
              yss Ea Eb eq_refl Hne HF)
    as (mn & mx & E1 & Hmn & Hmx & Hall).
  set (c1 := set_max_y (PInt mx) (set_min_y (PInt mn)
               (set_max_x (PInt b) (set_min_x (PInt a)
                  (set_ax (Some (Axes 111)) self))))) in *.
  destruct xs as [| x0 xs']; [congruence |].
  assert (E2 := @get_ticks_spec c1 mn mx dy a b dx (PInt x0)
                  ltac:(unfold int_ranges; cbn; repeat split; assumption)
                  eq_refl).
  cbn [isinstance_str] in E2.
  assert (E3 := @LineChart_get_grid_range_spec c1 a b dx eq_refl eq_refl eq_refl).
  set (c2 := set_grid_range (PArr (map PInt (range_list a (b + dx) 1))) c1) in *.
  assert (E4 := @get_grid_array c2 mn mx dy (map PInt (range_list a (b + dx) 1))
                  eq_refl eq_refl eq_refl Hdy eq_refl).
  rewrite length_map in E4.
  assert (Ep := @LineChart_plot_spec c2 (map ints yss) labels eq_refl
                  ltac:(rewrite length_map; exact Hk)
                  ltac:(rewrite length_map; exact Hl)).
  assert (Et := @include_text_spec c2 t1 t2 t3 t4 Ht1 Ht2 Ht3 Ht4).
  exists a, b, mn, mx, c2.
  split; [| repeat split; auto; try (apply Hlb; assumption);
            try (apply Hub; assumption); apply Hall; assumption].
  rewrite (@render_returns Line self c1 c2 _ _ _ _ eq_refl E1 E2 E3 E4 Ep Et).
  cbn [app]. rewrite <- ?app_assoc. reflexivity.
Qed.

Lemma LineChart_render_returns_witness :
  exists self' w,
    render Line
      (LineChart.init (ints [0; 1; 2; 3; 4])
         (PList (map ints [[10; 30; 70; 100; 150]; [20; 40; 80; 120; 30]]))
         (PInt 1) (PInt 10) (PStr "Sample x-axis") PNone
         (strs ["Line 1"; "Line 2"]%string) (PStr "Sample plot"))
    = (inr self', w).
Proof.
  destruct (@LineChart_render_returns [0; 1; 2; 3; 4]
              [[10; 30; 70; 100; 150]; [20; 40; 80; 120; 30]] 1 10
              (PStr "Sample x-axis") PNone (strs ["Line 1"; "Line 2"]%string)
              (PStr "Sample plot") [PStr "Line 1"; PStr "Line 2"]
              true true false true
              ltac:(discriminate) ltac:(discriminate)
              ltac:(repeat constructor; discriminate)
              ltac:(simpl; lia) ltac:(lia) ltac:(lia)
              eq_refl eq_refl eq_refl eq_refl
              ltac:(right; exists [PStr "Line 1"; PStr "Line 2"];
                    repeat split; (discriminate || (simpl; lia) || reflexivity)))
    as (a & b & mn & mx & self' & E & _).
  exists self'. eexists. exact E.
Defined.

Lemma ints_flat (ys : list Z) : flat (ints ys).
Proof.
  exists (map PInt ys). split; [reflexivity |].
  induction ys as [| y ys IH]; [reflexivity | exact IH].
Qed.

Lemma SingleBarChart_plot_spec (self : chart) (labels : list pyval) :
  labels_for self 1 labels ->
  SingleBarChart.plot self
  = (inr self,
     [plt_bar (converted_x_data self) (y_data self) 1 None (palette 0)
              (nth 0 labels PNone)]).
Proof.
  intros Hl. unfold SingleBarChart.plot.
  rewrite (bind_lift_ok _ (tableau20_at_lt (i := 0) ltac:(lia))).
  rewrite (bind_lift_ok _ (descriptor_labels (i := 0) Hl ltac:(lia))).
  reflexivity.
Qed.

(** X15.  A single-bar chart renders.  For [n >= 1] labels, a non-empty
    series of integers, non-zero integer tick steps, text arguments that have
    a truth value and a label for the series, the constructor returns and
    the render returns, with exactly these calls: the styling calls, the y
    ticks, the x ticks at the positions from 0 on (labelled by [x_data] when
    its first element is a string), one grid line per y tick over the padded
    grid range, one [plt.bar] at the positions [0 .. n - 1] in the first
    palette colour, the text, and the last [plt.show]. *)
Theorem SingleBarChart_render_returns
        (x x0 : pyval) (n : Z) (ys : list Z) (dx dy : Z) (xl yl yd t : pyval)
        (labels : list pyval) (t1 t2 t3 t4 : bool) :
  py_len x = ok n -> 1 <= n -> py_getitem x 0 = ok x0 ->
  ys <> [] -> dx <> 0 -> dy <> 0 ->
  py_truthy t = ok t1 -> py_truthy xl = ok t2 -> py_truthy yl = ok t3 ->
  py_truthy yd = ok t4 ->
  labels_for (BasePlot.init x (ints ys) (PInt dx) (PInt dy) xl yl yd t) 1 labels ->
  exists self mn mx self',
    SingleBarChart.init x (ints ys) (PInt dx) (PInt dy) xl yl yd t = ok self /\
    render SingleBar self
    = (inr self',
       style_calls
       ++ [ plt_yticks (ints (range_list mn (mx + dy) dy))
              (PList (map (fun z => PStr (py_str z)) (range_list mn (mx + dy) dy)));
            plt_xticks (ints (range_list 0 (n - 1 + dx) dx))
              (if isinstance_str x0 then x
               else ints (range_list 0 (n - 1 + dx) dx)) ]
       ++ map (grid_line (PList (padded_grid 0 (n - 1) (0.5 * 0.8)))
                 (List.length (padded_grid 0 (n - 1) (0.5 * 0.8))))
              (range_list mn (mx + dy) dy)
       ++ [ plt_bar (PArr (map PInt (range_list 0 n 1))) (ints ys) 1 None
                    (palette 0) (nth 0 labels PNone) ]
       ++ text_calls self' t1 t2 t3 t4
       ++ [plt_show]) /\
    In mn ys /\ In mx ys /\ (forall z, In z ys -> mn <= z <= mx) /\
    inputs self' = inputs self.
Proof.
  intros Hn Hn1 Hx0 Hne Hdx Hdy Ht1 Ht2 Ht3 Ht4 Hl.
  set (self := set_converted_x_data (PArr (map PInt (range_list 0 n 1)))
                 (BasePlot.init x (ints ys) (PInt dx) (PInt dy) xl yl yd t)).
  assert (Ei : SingleBarChart.init x (ints ys) (PInt dx) (PInt dy) xl yl yd t
               = ok self).
  { unfold SingleBarChart.init. cbn [x_data BasePlot.init]. rewrite Hn.
    reflexivity. }
  destruct (proj2 (positions_min_max n) Hn1) as [Ea Eb].
  destruct (@get_min_max_flat (set_ax (Some (Axes 111)) self) (PInt 0)
              (PInt (n - 1)) ys Ea Eb eq_refl Hne)
    as (mn & mx & E1 & Hmn & Hmx & Hall).
  set (c1 := set_max_y (PInt mx) (set_min_y (PInt mn)
               (set_max_x (PInt (n - 1)) (set_min_x (PInt 0)
                  (set_ax (Some (Axes 111)) self))))) in *.
  assert (E2 := @get_ticks_spec c1 mn mx dy 0 (n - 1) dx x0
                  ltac:(unfold int_ranges; cbn; repeat split; assumption)
                  Hx0).
  assert (E3 := @SingleBarChart_get_grid_range_spec c1 0 (n - 1) eq_refl eq_refl
                  ltac:(lia)).
  set (c2 := set_grid_range (PList (padded_grid 0 (n - 1) (0.5 * 0.8))) c1) in *.
  assert (E4 := @get_grid_array c2 mn mx dy (padded_grid 0 (n - 1) (0.5 * 0.8))
                  eq_refl eq_refl eq_refl Hdy eq_refl).
  assert (Ep := @SingleBarChart_plot_spec c2 labels Hl).
  assert (Et := @include_text_spec c2 t1 t2 t3 t4 Ht1 Ht2 Ht3 Ht4).
  exists self, mn, mx, c2.
  split; [exact Ei |].
  split; [| repeat split; auto; apply Hall; assumption].
  rewrite (@render_returns SingleBar self c1 c2 _ _ _ _
             (check_passes SingleBar self (ints_flat ys)) E1 E2 E3 E4 Ep Et).
  cbn [app]. rewrite <- ?app_assoc. reflexivity.
Qed.

Lemma SingleBarChart_render_returns_witness :
  exists self self' w,
    SingleBarChart.init (strs ["A"; "B"; "C"; "D"; "E"]%string)
      (ints [10; 30; 70; 100; 150]) (PInt 1) (PInt 10)
      (PStr "Sample x-axis") (PStr "Sample y-axis") PNone (PStr "Sample plot")
    = ok self /\
    render SingleBar self = (inr self', w).
Proof.
  destruct (@SingleBarChart_render_returns
              (strs ["A"; "B"; "C"; "D"; "E"]%string) (PStr "A") 5
              [10; 30; 70; 100; 150] 1 10
              (PStr "Sample x-axis") (PStr "Sample y-axis") PNone
              (PStr "Sample plot") [PNone] true true true false
              eq_refl ltac:(lia) eq_refl ltac:(discriminate) ltac:(lia) ltac:(lia)
              eq_refl eq_refl eq_refl eq_refl
              ltac:(left; split; reflexivity))
    as (self & mn & mx & self' & Ei & E & _).
  exists self, self'. eexists. split; [exact Ei | exact E].
Defined.

(** X16.  A multiple-bar chart renders.  For [n >= 1] labels, between 1 and
    20 non-empty integer series, non-zero integer tick steps, text arguments
    that have a truth value and labels for every series, the constructor
    returns with the bar width 0.25 (fewer than 5 series) or 0.1, and the
    render returns, with exactly these calls: the styling calls, the ticks,
    one grid line per y tick over the grid range padded by half the width of
    a group of bars, one [plt.bar] per series, side by side, the text, and
    the last [plt.show]. *)
Theorem MultipleBarChart_render_returns
        (x x0 : pyval) (n : Z) (yss : list (list Z)) (dx dy : Z)
        (xl yl yd t : pyval) (labels : list pyval) (t1 t2 t3 t4 : bool) :
  py_len x = ok n -> 1 <= n -> py_getitem x 0 = ok x0 ->
  yss <> [] -> Forall (fun l => l <> []) yss -> (List.length yss <= 20)%nat ->
  dx <> 0 -> dy <> 0 ->
  py_truthy t = ok t1 -> py_truthy xl = ok t2 -> py_truthy yl = ok t3 ->
  py_truthy yd = ok t4 ->
  labels_for (BasePlot.init x (PList (map ints yss)) (PInt dx) (PInt dy)
                xl yl yd t) (List.length yss) labels ->
  exists self w mn mx self',
    MultipleBarChart.init x (PList (map ints yss)) (PInt dx) (PInt dy) xl yl yd t
    = ok self /\
    bar_width self = PFloat w /\
    w = (if Z.of_nat (List.length yss) <? 5 then 0.25 else 0.1)%Q /\
    render MultipleBar self
    = (inr self',
       style_calls
       ++ [ plt_yticks (ints (range_list mn (mx + dy) dy))
              (PList (map (fun z => PStr (py_str z)) (range_list mn (mx + dy) dy)));
            plt_xticks (ints (range_list 0 (n - 1 + dx) dx))
              (if isinstance_str x0 then x
               else ints (range_list 0 (n - 1 + dx) dx)) ]
       ++ map (grid_line
                 (PList (padded_grid 0 (n - 1)
                           (w * inject_Z (Z.of_nat (List.length yss)) / inject_Z 2)))
                 (List.length
                    (padded_grid 0 (n - 1)
                       (w * inject_Z (Z.of_nat (List.length yss)) / inject_Z 2))))
              (range_list mn (mx + dy) dy)
       ++ bar_calls w labels 0
            (first_positions (range_list 0 n 1) w (Z.of_nat (List.length yss)))
            (map ints yss)
       ++ text_calls self' t1 t2 t3 t4
       ++ [plt_show]) /\
    In mn (List.concat yss) /\ In mx (List.concat yss) /\
    (forall z, In z (List.concat yss) -> mn <= z <= mx) /\
    inputs self' = inputs self.
Proof.
  intros Hn Hn1 Hx0 Hne HF Hk Hdx Hdy Ht1 Ht2 Ht3 Ht4 Hl.
  set (k := Z.of_nat (List.length yss)).
  set (w := (if k <? 5 then 0.25 else 0.1)%Q).
  set (self := set_bar_width (PFloat w)
                 (set_converted_x_data (PArr (map PInt (range_list 0 n 1)))
                    (BasePlot.init x (PList (map ints yss)) (PInt dx) (PInt dy)
                       xl yl yd t))).
  assert (Ei : MultipleBarChart.init x (PList (map ints yss)) (PInt dx) (PInt dy)
                 xl yl yd t = ok self).
  { unfold MultipleBarChart.init. cbn [x_data BasePlot.init]. rewrite Hn.
    cbn [rbind ok np_arange Z.eqb py_len]. rewrite length_map. reflexivity. }
  destruct (proj2 (positions_min_max n) Hn1) as [Ea Eb].
  destruct (@get_min_max_nested (set_ax (Some (Axes 111)) self) (PInt 0)
              (PInt (n - 1)) yss Ea Eb eq_refl Hne HF)
    as (mn & mx & E1 & Hmn & Hmx & Hall).
  set (c1 := set_max_y (PInt mx) (set_min_y (PInt mn)
               (set_max_x (PInt (n - 1)) (set_min_x (PInt 0)
                  (set_ax (Some (Axes 111)) self))))) in *.
  assert (E2 := @get_ticks_spec c1 mn mx dy 0 (n - 1) dx x0
                  ltac:(unfold int_ranges; cbn; repeat split; assumption)
                  Hx0).
  assert (Hk1 : 1 <= k).
  { unfold k. destruct yss; [congruence | cbn [List.length]; lia]. }
  assert (Hpad : (0 < w * inject_Z k / inject_Z 2)%Q)
    by (apply half_span_positive; exact Hk1).
  assert (E3 := @MultipleBarChart_get_grid_range_spec c1 0 (n - 1) w
                  (map ints yss) eq_refl eq_refl ltac:(lia) eq_refl eq_refl).
  rewrite length_map in E3. specialize (E3 Hpad).
  set (g := padded_grid 0 (n - 1) (w * inject_Z k / inject_Z 2)) in *.
  set (c2 := set_grid_range (PList g) c1) in *.
  assert (E4 := @get_grid_array c2 mn mx dy g eq_refl eq_refl eq_refl Hdy eq_refl).
  assert (Ep := @MultipleBarChart_plot_spec c2 (range_list 0 n 1) w (map ints yss)
                  labels eq_refl eq_refl eq_refl
                  ltac:(rewrite length_map; exact Hk)
                  ltac:(rewrite length_map; exact Hl)).
  rewrite length_map in Ep.
  assert (Et := @include_text_spec c2 t1 t2 t3 t4 Ht1 Ht2 Ht3 Ht4).
  exists self, w, mn, mx, c2.
  split; [exact Ei |]. split; [reflexivity |]. split; [reflexivity |].
  split; [| repeat split; auto; apply Hall; assumption].
  rewrite (@render_returns MultipleBar self c1 c2 _ _ _ _ eq_refl E1 E2 E3 E4 Ep Et).
  cbn [app]. rewrite <- ?app_assoc. reflexivity.
Qed.

Lemma MultipleBarChart_render_returns_witness :
  exists self self' w,
    MultipleBarChart.init (strs ["A"; "B"; "C"; "D"; "E"]%string)
      (PList (map ints [[10; 30; 70; 100; 150]; [20; 40; 80; 120; 30];
                        [10; 30; 70; 100; 150]]))
      (PInt 1) (PInt 10) (PStr "Sample x-axis") PNone
      (strs ["Line 1"; "Line 2"; "Line 3"]%string) (PStr "Sample plot")
    = ok self /\
    render MultipleBar self = (inr self', w).
Proof.
  destruct (@MultipleBarChart_render_returns
              (strs ["A"; "B"; "C"; "D"; "E"]%string) (PStr "A") 5
              [[10; 30; 70; 100; 150]; [20; 40; 80; 120; 30];
               [10; 30; 70; 100; 150]] 1 10
              (PStr "Sample x-axis") PNone
              (strs ["Line 1"; "Line 2"; "Line 3"]%string)
              (PStr "Sample plot") [PStr "Line 1"; PStr "Line 2"; PStr "Line 3"]
              true true false true
              eq_refl ltac:(lia) eq_refl ltac:(discriminate)
              ltac:(repeat constructor; discriminate)
              ltac:(simpl; lia) ltac:(lia) ltac:(lia)
              eq_refl eq_refl eq_refl eq_refl
              ltac:(right; exists [PStr "Line 1"; PStr "Line 2"; PStr "Line 3"];
                    repeat split; (discriminate || (simpl; lia) || reflexivity)))
    as (self & w & mn & mx & self' & Ei & _ & _ & E & _).
  exists self, self'. eexists. split; [exact Ei | exact E].
Defined.

(** ** More series than colours or labels *)

Lemma for_each_app {A S} (l1 l2 : list A) (body : A -> S -> plt S) (s : S) :
  for_each (l1 ++ l2) body s
  = bind (for_each l1 body s) (fun s' => for_each l2 body s').
Proof.
  revert s. induction l1 as [| x l1 IH]; intros s; cbn [app for_each].
  - rewrite bind_ret. reflexivity.
  - destruct (body x s) as [[e | s1] w1]; cbn [bind]; [reflexivity |].
    rewrite IH. destruct (for_each l1 body s1) as [[e | s2] w2]; cbn [bind].
    + reflexivity.
    + destruct (for_each l2 body s2) as [r w3]. rewrite app_assoc. reflexivity.
Qed.

Lemma combine_seq_app {A} (l1 l2 : list A) (s : nat) :
  combine (seq s (List.length (l1 ++ l2))) (l1 ++ l2)
  = combine (seq s (List.length l1)) l1
    ++ combine (seq (s + List.length l1) (List.length l2)) l2.
Proof.
  revert s. induction l1 as [| x l1 IH]; intros s; cbn [List.length app seq combine].
  - rewrite Nat.add_0_r. reflexivity.
  - rewrite IH. rewrite Nat.add_succ_r. reflexivity.
Qed.

(** The series after the last colour, or after the last descriptor: the
    lookup raises [IndexError] before the series is drawn. *)
Lemma labels_for_missing (self : chart) (j : nat) (labels : list pyval) :
  labels_for self j labels ->
  (j = 20%nat \/
   exists ds, y_descriptors self = PList ds /\ ds <> [] /\ List.length ds = j) ->
  forall (A : Type) (k : rgb -> pyval -> plt A),
    outcome (c <- lift (tableau20_at j) ;;
             label <- lift (descriptor self j) ;; k c label) = inl IndexError /\
    events (c <- lift (tableau20_at j) ;;
            label <- lift (descriptor self j) ;; k c label) = [].
Proof.
  intros Hl [-> | (ds & Hd & Hne & Hlen)] A k.
  - split; reflexivity.
  - destruct (tableau20_at j) as [e | c] eqn:Ec.
    + unfold tableau20_at in Ec.
      destruct (nth_error tableau20 j); [discriminate |].
      inversion Ec. split; reflexivity.
    + cbn [lift bind]. unfold descriptor. rewrite Hd.
      destruct ds as [| d0 ds']; [congruence |].
      cbn [py_truthy rbind ok py_getitem].
      replace (nth_error (d0 :: ds') j) with (@None pyval)
        by (symmetry; apply nth_error_None; lia).
      split; reflexivity.
Qed.

(** X17.  A line chart with more series than colours or than descriptors.
    When the chart has more than [j] series, where [j] is 20 (the size of
    the palette) or the number of descriptors supplied (at least 1 and at
    most 20), [LineChart.plot] draws the first [j] series and then raises
    [IndexError]. *)
Theorem LineChart_plot_stops_at_missing_entry
        (self : chart) (ys labels : list pyval) (j : nat) :
  py_iter (y_data self) = ok ys ->
  labels_for self j labels ->
  (j <= 20)%nat -> (j < List.length ys)%nat ->
  (j = 20%nat \/
   exists ds, y_descriptors self = PList ds /\ ds <> [] /\ List.length ds = j) ->
  LineChart.plot self = (inl IndexError, line_calls self labels (firstn j ys)).
Proof.
  intros Hy Hl Hj Hlt Hmiss. unfold LineChart.plot.
  rewrite (bind_lift_ok _ Hy). unfold enumerate.
  rewrite <- (firstn_skipn j ys) at 1 2.
  rewrite combine_seq_app, for_each_app.
  assert (Hlen : List.length (firstn j ys) = j) by (rewrite length_firstn; lia).
  rewrite (LineChart_plot_loop (self := self) Hl Hj (firstn j ys) 0)
    by (rewrite Hlen; lia).
  cbn [bind]. rewrite Hlen. cbn [Nat.add].
  destruct (skipn j ys) as [| y rest] eqn:Es.
  { exfalso. pose proof (length_skipn j ys) as E. rewrite Es in E.
    cbn [List.length] in E. lia. }
  cbn [List.length seq combine for_each].
  destruct (labels_for_missing Hl Hmiss
              (fun c label =>
                 _ <- emit (plt_plot (x_data self) y None 1 (RGB c) None label) ;;
                 ret self)) as [Ho He].
  match goal with
  | |- (let (r, w') := bind ?m ?f in _) = _ =>
      replace m with (@inl exn chart IndexError, @nil event)
  end.
  - cbn [bind]. rewrite app_nil_r. unfold line_calls, enumerate.
    rewrite Hlen. reflexivity.
  - match goal with
    | |- _ = ?m => destruct m as [r w]; cbn [outcome events fst snd] in Ho, He;
                   subst; reflexivity
    end.
Qed.

Lemma LineChart_plot_stops_at_missing_entry_witness :
  LineChart.plot
    (LineChart.init (ints [0; 1]) (PList [ints [1; 2]; ints [3; 4]; ints [5; 6]])
       (PInt 1) (PInt 10) PNone PNone (strs ["first"; "second"]%string) PNone)
  = (inl IndexError,
     [ plt_plot (ints [0; 1]) (ints [1; 2]) None 1 (palette 0) None (PStr "first");
       plt_plot (ints [0; 1]) (ints [3; 4]) None 1 (palette 1) None
                (PStr "second") ]).
Proof.
  apply (@LineChart_plot_stops_at_missing_entry
           (LineChart.init (ints [0; 1])
              (PList [ints [1; 2]; ints [3; 4]; ints [5; 6]])
              (PInt 1) (PInt 10) PNone PNone (strs ["first"; "second"]%string) PNone)
           [ints [1; 2]; ints [3; 4]; ints [5; 6]]
           [PStr "first"; PStr "second"] 2).
  - reflexivity.
  - right. exists [PStr "first"; PStr "second"].
    split; [reflexivity |]. split; [discriminate |]. split; [simpl; lia | reflexivity].
  - lia.
  - simpl. lia.
  - right. exists [PStr "first"; PStr "second"].
    split; [reflexivity |]. split; [discriminate | reflexivity].
Defined.

(** X18.  The same for a multiple-bar chart: with more than [j] series,
    where [j] is 20 or the number of descriptors supplied,
    [MultipleBarChart.plot] draws the first [j] series, side by side, and
    then raises [IndexError]. *)
Theorem MultipleBarChart_plot_stops_at_missing_entry
        (self : chart) (xs : list Z) (w : Q) (ys labels : list pyval) (j : nat) :
  converted_x_data self = PArr (map PInt xs) ->
  bar_width self = PFloat w ->
  py_iter (y_data self) = ok ys ->
  labels_for self j labels ->
  (j <= 20)%nat -> (j < List.length ys)%nat ->
  (j = 20%nat \/
   exists ds, y_descriptors self = PList ds /\ ds <> [] /\ List.length ds = j) ->
  MultipleBarChart.plot self
  = (inl IndexError,
     bar_calls w labels 0
       (first_positions xs w (Z.of_nat (List.length ys))) (firstn j ys)).
Proof.
  intros Hx Hw Hy Hl Hj Hlt Hmiss. unfold MultipleBarChart.plot.
  rewrite (bind_lift_ok _ (half_span_spec self Hw Hy)).
  rewrite Hx. cbn [np_array]. rewrite (bind_lift_ok _ (array_sub_float xs _)).
  rewrite Hw.
  rewrite (bind_lift_ok (r := py_mul (PFloat 0.5) (PFloat w)) _ eq_refl).
  rewrite (bind_lift_ok _ (array_add_float _ _)).
  rewrite (bind_lift_ok _ Hy).
  replace (map (fun q => q + 0.5 * w)%Q
             (map (fun x => inject_Z x
                            - w * inject_Z (Z.of_nat (List.length ys)) / inject_Z 2)%Q
                  xs))
    with (first_positions xs w (Z.of_nat (List.length ys)))
    by (unfold first_positions; rewrite map_map; reflexivity).
  unfold enumerate.
  assert (Hlen : List.length (firstn j ys) = j) by (rewrite length_firstn; lia).
  set (n := Z.of_nat (List.length ys)).
  rewrite <- (firstn_skipn j ys) at 1 2.
  rewrite combine_seq_app, for_each_app.
  destruct (MultipleBarChart_plot_loop Hw Hl Hj (firstn j ys) 0
              (first_positions xs w n) ltac:(rewrite Hlen; lia))
    as (qs' & E).
  rewrite Hw in E. rewrite E. cbn [bind]. rewrite Hlen. cbn [Nat.add].
  destruct (skipn j ys) as [| y rest] eqn:Es.
  { exfalso. pose proof (length_skipn j ys) as E'. rewrite Es in E'.
    cbn [List.length] in E'. lia. }
  cbn [List.length seq combine for_each].
  destruct (labels_for_missing Hl Hmiss
              (fun c label =>
                 _ <- emit (plt_bar (PArr (map PFloat qs')) y 1 (Some (PFloat w))
                                    (RGB c) label) ;;
                 lift (py_add (PArr (map PFloat qs')) (PFloat w)))) as [Ho He].
  match goal with
  | |- bind (let (r, w') := bind ?m ?f in _) _ = _ =>
      replace m with (@inl exn pyval IndexError, @nil event)
  end.
  - cbn [bind]. rewrite app_nil_r. reflexivity.
  - match goal with
    | |- _ = ?m => destruct m as [r w0]; cbn [outcome events fst snd] in Ho, He;
                   subst; reflexivity
    end.
Qed.

Lemma MultipleBarChart_plot_stops_at_missing_entry_witness :
  exists self,
    MultipleBarChart.init (strs ["A"; "B"]%string)
      (PList (repeat (ints [1; 2]) 21))
      (PInt 1) (PInt 10) PNone PNone PNone PNone = ok self /\
    MultipleBarChart.plot self
    = (inl IndexError,
       bar_calls 0.1 (repeat PNone 20) 0 (first_positions [0; 1] 0.1 21)
                 (repeat (ints [1; 2]) 20)).
Proof.
  eexists. split; [reflexivity |].
  apply (@MultipleBarChart_plot_stops_at_missing_entry _ [0; 1] 0.1%Q
           (repeat (ints [1; 2]) 21) (repeat PNone 20) 20).
  - reflexivity.
  - reflexivity.
  - reflexivity.
  - left. split; reflexivity.
  - lia.
  - simpl. lia.
  - left. reflexivity.
Defined.

(** ** The bars and the grid range *)

(** Series [i] of [k], drawn [i] widths to the right of the first. *)
Lemma bar_in_slot (w : Q) (k : nat) (i : nat) (q : Q) (x : Z) :
  (0 <= w)%Q -> (i < k)%nat ->
  (q == inject_Z x + (- (w * inject_Z (Z.of_nat k) / 2) + w / 2)
        + inject_Z (Z.of_nat i) * w)%Q ->
  in_slot w (w * inject_Z (Z.of_nat k) / inject_Z 2) q x /\
  (i = 0%nat ->
   q - w / 2 == inject_Z x - w * inject_Z (Z.of_nat k) / inject_Z 2)%Q /\
  (S i = k ->
   q + w / 2 == inject_Z x + w * inject_Z (Z.of_nat k) / inject_Z 2)%Q.
Proof.
  intros Hw Hi E. unfold in_slot.
  change (inject_Z 2) with 2%Q.
  assert (H0 : (0 <= inject_Z (Z.of_nat i))%Q).
  { change (inject_Z 0 <= inject_Z (Z.of_nat i))%Q. rewrite <- Zle_Qle. lia. }
  assert (H1 : (inject_Z (Z.of_nat i) + 1 <= inject_Z (Z.of_nat k))%Q).
  { change 1%Q with (inject_Z 1). rewrite <- inject_Z_plus, <- Zle_Qle. lia. }
  assert (H2 : S i = k -> (inject_Z (Z.of_nat i) + 1 == inject_Z (Z.of_nat k))%Q).
  { intros <-. rewrite Nat2Z.inj_succ. unfold Z.succ. rewrite inject_Z_plus.
    reflexivity. }
  assert (H3 : i = 0%nat -> (inject_Z (Z.of_nat i) == 0)%Q).
  { intros ->. reflexivity. }
  revert E H0 H1 H2 H3.
  generalize (inject_Z (Z.of_nat i)) as I, (inject_Z (Z.of_nat k)) as K,
    (inject_Z x) as X.
  intros I K X E H0 H1 H2 H3.
  assert (Ha : (0 <= I * w)%Q) by (apply Qmult_le_0_compat; assumption).
  assert (Hb : ((I + 1) * w <= K * w)%Q)
    by (apply Qmult_le_compat_r; assumption).
  unfold Qdiv in *. change (/ 2)%Q with (1 # 2)%Q in *.
  split; [split |]; [| | split].
  - rewrite E. clear - Ha. lra.
  - rewrite E. clear - Hb. lra.
  - intros Hi0. rewrite E. specialize (H3 Hi0).
    assert (Hc : (I * w == 0)%Q) by (rewrite H3; ring).
    clear - Hc. lra.
  - intros Hik. rewrite E. specialize (H2 Hik).
    assert (Hc : ((I + 1) * w == K * w)%Q) by (rewrite H2; reflexivity).
    clear - Hc. lra.
Qed.

(** X25.  The bars of a multiple-bar chart and its grid range.  Let [pad] be
    half the width of a group of bars, [bar_width * len(y_data) / 2].  The
    grid range runs from [min_x - pad] to [max_x + pad]; the bars drawn for
    series [i], taken to extend half a bar width on each side of their
    positions, lie within [pad] of the integer positions, the bars of the
    first series starting exactly [pad] before them and the bars of the
    last series ending exactly [pad] after them.  So the grid lines start
    with the first bar and end with the last. *)
Theorem MultipleBarChart_bars_fill_their_slots
        (self : chart) (xs : list Z) (w : Q) (ys labels : list pyval)
        (a b : Z) :
  converted_x_data self = PArr (map PInt xs) ->
  bar_width self = PFloat w -> (0 < w)%Q ->
  py_iter (y_data self) = ok ys ->
  ys <> [] -> (List.length ys <= 20)%nat ->
  labels_for self (List.length ys) labels ->
  min_x self = PInt a -> max_x self = PInt b -> a <= b ->
  exists pad,
    pad = (w * inject_Z (Z.of_nat (List.length ys)) / inject_Z 2)%Q /\
    MultipleBarChart.get_grid_range self
    = (inr (set_grid_range
              (PList (PFloat (inject_Z a - pad)
                      :: map PInt (range_list a (b + 1) 1)
                      ++ [PFloat (inject_Z b + pad)])) self), []) /\
    forall i y,
      nth_error ys i = Some y ->
      exists qs,
        nth_error (events (MultipleBarChart.plot self)) i
        = Some (plt_bar (PArr (map PFloat qs)) y 1 (Some (PFloat w)) (palette i)
                        (nth i labels PNone)) /\
        Forall2 (fun q x =>
                   in_slot w pad q x /\
                   (i = 0%nat -> q - w / 2 == inject_Z x - pad)%Q /\
                   (S i = List.length ys -> q + w / 2 == inject_Z x + pad)%Q)
                qs xs.
Proof.
  intros Hx Hw Hpos Hy Hne Hk Hl Ha Hb Hab.
  set (k := List.length ys) in *.
  exists (w * inject_Z (Z.of_nat k) / inject_Z 2)%Q. split; [reflexivity |].
  assert (Hk1 : (0 < k)%nat) by (subst k; destruct ys; [congruence | simpl; lia]).
  assert (Hpad : (0 < w * inject_Z (Z.of_nat k) / inject_Z 2)%Q).
  { assert (H1 : (1 <= inject_Z (Z.of_nat k))%Q).
    { change 1%Q with (inject_Z 1). rewrite <- Zle_Qle. lia. }
    revert H1. generalize (inject_Z (Z.of_nat k)) as K. intros K H1.
    assert (H2 : (w * 1 <= w * K)%Q).
    { rewrite !(Qmult_comm w). apply Qmult_le_compat_r; [exact H1 |].
      apply Qlt_le_weak. exact Hpos. }
    unfold Qdiv. change (/ inject_Z 2)%Q with (1 # 2)%Q. lra. }
  split.
  - exact (@MultipleBarChart_get_grid_range_spec self a b w ys Ha Hb Hab Hw Hy Hpad).
  - intros i y Hi.
    rewrite (@MultipleBarChart_plot_spec self xs w ys labels Hx Hw Hy Hk Hl).
    cbn [events snd].
    eexists. split.
    + rewrite (bar_calls_nth w labels ys i 0 _ Hi). reflexivity.
    + assert (Hik : (i < k)%nat).
      { subst k. apply nth_error_Some. congruence. }
      eapply Forall2_impl;
        [| apply (shifted_positions
                    (fun x => inject_Z x
                              + (- (w * inject_Z (Z.of_nat k) / 2) + w / 2))%Q
                    w i (first_positions_offset xs w (Z.of_nat k)))].
      intros q x E. cbn beta in E.
      apply bar_in_slot; [apply Qlt_le_weak; exact Hpos | exact Hik | exact E].
Qed.

Lemma MultipleBarChart_bars_fill_their_slots_witness :
  exists self pad,
    MultipleBarChart.init (strs ["A"; "B"]%string)
      (PList [ints [10; 30]; ints [20; 40]; ints [5; 15]])
      (PInt 1) (PInt 10) PNone PNone PNone PNone = ok self /\
    MultipleBarChart.get_grid_range
      (set_max_x (PInt 1) (set_min_x (PInt 0) self))
    = (inr (set_grid_range
              (PList (PFloat (inject_Z 0 - pad)
                      :: map PInt (range_list 0 (1 + 1) 1)
                      ++ [PFloat (inject_Z 1 + pad)]))
              (set_max_x (PInt 1) (set_min_x (PInt 0) self))), []).
Proof.
  let r := eval vm_compute in
      (MultipleBarChart.init (strs ["A"; "B"]%string)
         (PList [ints [10; 30]; ints [20; 40]; ints [5; 15]])
         (PInt 1) (PInt 10) PNone PNone PNone PNone) in
  lazymatch r with
  | inr ?s =>
      destruct (@MultipleBarChart_bars_fill_their_slots
                  (set_max_x (PInt 1) (set_min_x (PInt 0) s))
                  [0; 1] 0.25%Q [ints [10; 30]; ints [20; 40]; ints [5; 15]]
                  [PNone; PNone; PNone] 0 1
                  eq_refl eq_refl ltac:(reflexivity) eq_refl
                  ltac:(discriminate) ltac:(simpl; lia)
                  ltac:(left; split; reflexivity)
                  eq_refl eq_refl ltac:(lia))
        as (pad & _ & E & _);
      exists s, pad; split; [vm_compute; reflexivity | exact E]
  end.
Defined.

(** ** The histogram *)










Lemma mapM_ok {A B} (f : A -> pyresult B) (g : A -> B) (l : list A) :
  (forall x, In x l -> f x = ok (g x)) -> mapM f l = ok (map g l).
Proof.
  induction l as [| x l IH]; intros H; cbn [mapM map]; [reflexivity |].
  rewrite (H x (or_introl eq_refl)). cbn [rbind ok].
  rewrite IH by (intros y Hy; apply H; right; exact Hy). reflexivity.
Qed.

Lemma mapM_fails {A B} (f : A -> pyresult B) (g : A -> B) (l1 l2 : list A)
      (x : A) (e : exn) :
  (forall y, In y l1 -> f y = ok (g y)) -> f x = inl e ->
  mapM f (l1 ++ x :: l2) = inl e.
Proof.
  induction l1 as [| y l1 IH]; intros H Hx; cbn [app mapM].
  - rewrite Hx. reflexivity.
  - rewrite (H y (or_introl eq_refl)). cbn [rbind ok].
    rewrite IH by (auto; intros z Hz; apply H; right; exact Hz). reflexivity.
Qed.

Lemma palette_colours (m : nat) :
  (m <= 20)%nat ->
  mapM tableau20_at (seq 0 m)
  = ok (map (fun i => nth (i mod 20) tableau20 (0, 0, 0)%Q) (seq 0 m)).
Proof.
  intros Hm. apply mapM_ok. intros i Hi. apply in_seq in Hi.
  apply tableau20_at_lt. lia.
Qed.

Lemma palette_runs_out (m : nat) :
  (20 < m)%nat -> mapM tableau20_at (seq 0 m) = inl IndexError.
Proof.
  intros Hm.
  assert (E : seq 0 m = seq 0 20 ++ 20%nat :: seq 21 (m - 21)).
  { replace m with (20 + S (m - 21))%nat at 1 by lia.
    rewrite seq_app. reflexivity. }
  rewrite E.
  apply mapM_fails with (g := fun i => nth (i mod 20) tableau20 (0, 0, 0)%Q).
  - intros i Hi. apply in_seq in Hi. apply tableau20_at_lt. lia.
  - reflexivity.
Qed.

Lemma Histogram_plot_few (self : chart) (k : Z) :
  py_len (x_data self) = ok k -> k <= 20 ->
  Histogram.plot self
  = (inr self,
     [plt_hist (x_data self) (num_bins self)
               (map palette (seq 0 (Z.to_nat k))) "black" 0.5%Q]).
Proof.
  intros Hk H. unfold Histogram.plot. rewrite (bind_lift_ok _ Hk).
  rewrite (bind_lift_ok _ (palette_colours (m := Z.to_nat k) ltac:(lia))).
  rewrite map_map. reflexivity.
Qed.

(** X20.  The colours of a histogram.  [Histogram.plot] takes one palette
    colour per element of [x_data]: with at most 20 elements it makes one
    [plt.hist] call with the first [len(x_data)] colours, black edges and
    line width 0.5; with more than 20 it raises [IndexError] without a
    backend call. *)
Theorem Histogram_plot_colours (self : chart) (k : Z) :
  py_len (x_data self) = ok k ->
  (k <= 20 ->
   Histogram.plot self
   = (inr self,
      [plt_hist (x_data self) (num_bins self)
                (map palette (seq 0 (Z.to_nat k))) "black" 0.5%Q])) /\
  (20 < k -> Histogram.plot self = (inl IndexError, [])).
Proof.
  intros Hk. split; intros H.
  - apply Histogram_plot_few; assumption.
  - unfold Histogram.plot. rewrite (bind_lift_ok _ Hk).
    rewrite (palette_runs_out (m := Z.to_nat k)) by lia. reflexivity.
Qed.

Lemma Histogram_plot_colours_witness :
  Histogram.plot
    (BasePlot.init (ints [3; 1; 4; 1; 5; 9; 2; 6; 5; 3; 5; 8; 9; 7; 9; 3; 2; 3; 8; 4; 6])
       PNone (PInt 1) (PInt 1) PNone PNone PNone PNone)
  = (inl IndexError, []).
Proof.
  apply (proj2 (@Histogram_plot_colours
                  (BasePlot.init
                     (ints [3; 1; 4; 1; 5; 9; 2; 6; 5; 3; 5; 8; 9; 7; 9; 3; 2; 3; 8; 4; 6])
                     PNone (PInt 1) (PInt 1) PNone PNone PNone PNone)
                  21 eq_refl)).
  lia.
Defined.

Section HistogramNeeds.

Variable np_hist : pyval -> pyval -> pyresult (pyval * pyval).

(** The loop of the constructor returns only if [np.histogram] returned for
    every sequence; it leaves the inputs as they are. *)
Lemma Histogram_init_loop_inv (xs : list pyval) :
  forall (c0 c : chart) (v0 v : pyval),
    rfold xs
      (fun x_array (st : chart * pyval) =>
         let (self, hist_bin_values) := st in
         hb <~ np_hist x_array (num_bins self) ;;
         let (current_hist_bin_values, bins') := hb in
         bl <~ py_iter bins' ;;
         b <~ py_add (bins self) (PList bl) ;;
         let self := set_bins b self in
         cl <~ py_iter current_hist_bin_values ;;
         hist_bin_values <~ py_add hist_bin_values (PList cl) ;;
         ok (self, hist_bin_values))
      (c0, v0)
    = ok (c, v) ->
    Forall (fun x_array => exists r, np_hist x_array (num_bins c0) = ok r) xs /\
    (x_data c, y_data c, num_bins c, min_y c, diff_x_ticks c, diff_y_ticks c)
    = (x_data c0, y_data c0, num_bins c0, min_y c0, diff_x_ticks c0,
       diff_y_ticks c0) /\
    (xs = [] -> v = v0).
Proof.
  induction xs as [| x xs IH]; intros c0 c v0 v H; cbn [rfold] in H.
  - inversion H; subst. split; [constructor | split; auto].
  - apply rbind_inv in H. destruct H as ([c1 v1] & Hstep & H).
    apply rbind_inv in Hstep. destruct Hstep as ([cur bs] & Hnp & Hstep).
    apply rbind_inv in Hstep. destruct Hstep as (bl & _ & Hstep).
    apply rbind_inv in Hstep. destruct Hstep as (b & _ & Hstep).
    apply rbind_inv in Hstep. destruct Hstep as (cl & _ & Hstep).
    apply rbind_inv in Hstep. destruct Hstep as (v' & _ & Hstep).
    inversion Hstep; subst c1 v1. clear Hstep.
    destruct (IH _ _ _ _ H) as (HF & Hk & _).
    split; [| split; [exact Hk | discriminate]].
    constructor; [eauto | exact HF].
Qed.

(** X21.  What the constructor of a histogram needs.  If [Histogram.__init__]
    returns, then [x_data] can be iterated and is not empty (the largest
    count of no bins does not exist), and [np.histogram] returned for every
    element of it; the object stores [x_data] and [num_bins] as given, has no
    [y_data], and its [min_y] is 0. *)
Theorem Histogram_init_needs_data
        (x nb dx dy xl yl yd t : pyval) (c : chart) :
  Histogram.init np_hist x nb dx dy xl yl yd t = ok c ->
  exists xs,
    py_iter x = ok xs /\ xs <> [] /\
    Forall (fun x_array => exists r, np_hist x_array nb = ok r) xs /\
    x_data c = x /\ y_data c = PNone /\ num_bins c = nb /\ min_y c = PInt 0.
Proof.
  unfold Histogram.init. intros H.
  apply rbind_inv in H. destruct H as (xs & Hx & H).
  apply rbind_inv in H. destruct H as ([c1 v1] & Hloop & H).
  apply rbind_inv in H. destruct H as (mx & Hmax & H).
  inversion H; subst c. clear H.
  apply Histogram_init_loop_inv in Hloop. destruct Hloop as (HF & Hk & Hv).
  cbn in Hk. injection Hk as E1 E2 E3 E4 E5 E6.
  exists xs. split; [exact Hx |]. split.
  - intros ->. rewrite (Hv eq_refl) in Hmax. discriminate.
  - split; [exact HF |]. cbn. auto.
Qed.

End HistogramNeeds.

Lemma Histogram_init_needs_data_witness :
  exists xs,
    py_iter (PList [ints [1; 2; 2; 3; 3; 3; 10]]) = ok xs /\ xs <> [] /\
    Forall (fun x_array => exists r, np_histogram x_array (PInt 3) = ok r) xs.
Proof.
  let r := eval vm_compute in
      (Histogram.init np_histogram (PList [ints [1; 2; 2; 3; 3; 3; 10]])
         (PInt 3) (PInt 2) (PInt 1) PNone PNone PNone PNone) in
  lazymatch r with
  | inr ?s =>
      destruct (@Histogram_init_needs_data np_histogram
                  (PList [ints [1; 2; 2; 3; 3; 3; 10]])
                  (PInt 3) (PInt 2) (PInt 1) PNone PNone PNone PNone s
                  ltac:(vm_compute; reflexivity))
        as (xs & Hx & Hne & HF & _);
      exists xs; split; [exact Hx |]; split; [exact Hne | exact HF]
  end.
Defined.







(** ** The palette *)

Lemma unit_rangeb_sound (c : rgb) : unit_rangeb c = true -> unit_range c.
Proof.
  destruct c as [[r g] b]. unfold unit_rangeb, unit_range.
  rewrite !andb_true_iff, !Qle_bool_iff. tauto.
Qed.

(** X23.  The palette after the module-level scaling loop: 20 colours, each
    component between 0 and 1; [tableau20[i]] returns for [i < 20] and
    raises [IndexError] from 20 on. *)
Theorem tableau20_is_twenty_colours :
  List.length tableau20 = 20%nat /\
  (forall i, (i < 20)%nat ->
     exists c, tableau20_at i = ok c /\ unit_range c) /\
  (forall i, (20 <= i)%nat -> tableau20_at i = throw IndexError).
Proof.
  split; [reflexivity |]. split.
  - intros i Hi. unfold tableau20_at.
    destruct (nth_error tableau20 i) as [c |] eqn:E.
    + exists c. split; [reflexivity |]. apply unit_rangeb_sound.
      apply nth_error_In in E. revert c E. apply forallb_forall. reflexivity.
    + apply nth_error_None in E. rewrite tableau20_length in E. lia.
  - intros i Hi. unfold tableau20_at.
    replace (nth_error tableau20 i) with (@None rgb)
      by (symmetry; apply nth_error_None; rewrite tableau20_length; exact Hi).
    reflexivity.
Qed.

Lemma tableau20_is_twenty_colours_witness :
  exists c, tableau20_at 19 = ok c /\ unit_range c.
Proof.
  apply (proj1 (proj2 tableau20_is_twenty_colours) 19%nat). lia.
Defined.

(** ** Rendering again *)

(** [get_min_max] reads only the x positions and the data. *)
Lemma get_min_max_eq (s : chart) :
  BasePlot.get_min_max s
  = lift (r <~ ranges_of (converted_x_data s) (y_data s) ;;
          let '(a, b, oy) := r in ok (with_ranges a b oy s)).
Proof.
  unfold BasePlot.get_min_max, ranges_of, y_extremes. f_equal.
  destruct (py_min (converted_x_data s)) as [e | a]; [reflexivity |].
  cbn [rbind].
  change (converted_x_data (set_min_x a s)) with (converted_x_data s).
  destruct (py_max (converted_x_data s)) as [e | b]; [reflexivity |].
  cbn [rbind].
  change (y_data (set_max_x b (set_min_x a s))) with (y_data s).
  destruct (py_truthy (y_data s)) as [e | [|]]; try reflexivity.
  cbn [rbind negb].
  destruct (py_iter (y_data s)) as [e | ys]; cbn [rbind].
  - destruct e; cbn [try_except_TypeError rbind]; try reflexivity.
    destruct (py_min (y_data s)) as [e | mn]; [reflexivity |]. cbn [rbind].
    destruct (py_max (y_data s)) as [e | mx]; reflexivity.
  - destruct (min_gen py_min ys) as [e | mn]; cbn [rbind].
    + destruct e; cbn [try_except_TypeError rbind]; try reflexivity.
      destruct (py_min (y_data s)) as [e | mn]; [reflexivity |]. cbn [rbind].
      destruct (py_max (y_data s)) as [e | mx]; reflexivity.
    + destruct (max_gen py_max ys) as [e | mx]; cbn [rbind].
      * destruct e; cbn [try_except_TypeError rbind]; try reflexivity.
        destruct (py_min (y_data s)) as [e | mn']; [reflexivity |]. cbn [rbind].
        destruct (py_max (y_data s)) as [e | mx]; reflexivity.
      * reflexivity.
Qed.

Lemma check_inputs_replay (v : variant) (self self' : chart) :
  v_check_inputs (methods_of v) self = (inr self, []) ->
  y_data self' = y_data self ->
  v_check_inputs (methods_of v) self' = (inr self', []).
Proof.
  destruct v; unfold_methods; try reflexivity.
  rewrite !SingleBarChart_check_inputs_spec. intros H ->.
  destruct (py_iter (y_data self)) as [e | l]; [discriminate |].
  destruct (existsb is_sequence l); [discriminate | reflexivity].
Qed.

Lemma get_min_max_replay (v : variant) (self c1 : chart) (w1 : list event)
      (g : pyval) :
  v_get_min_max (methods_of v) (set_ax (Some (Axes 111)) self) = (inr c1, w1) ->
  v_get_min_max (methods_of v) (set_ax (Some (Axes 111)) (set_grid_range g c1))
  = (inr (set_grid_range g c1), w1).
Proof.
  assert (Hbase : BasePlot.get_min_max (set_ax (Some (Axes 111)) self)
                  = (inr c1, w1) ->
                  BasePlot.get_min_max
                    (set_ax (Some (Axes 111)) (set_grid_range g c1))
                  = (inr (set_grid_range g c1), w1)).
  { rewrite !get_min_max_eq. intros H.
    change (converted_x_data (set_ax (Some (Axes 111)) self))
      with (converted_x_data self) in H.
    change (y_data (set_ax (Some (Axes 111)) self)) with (y_data self) in H.
    destruct (ranges_of (converted_x_data self) (y_data self))
      as [e | [[a b] oy]] eqn:E; [discriminate |].
    cbn [rbind lift ok] in H. inversion H; subst c1 w1. clear H.
    assert (E' : ranges_of
                   (converted_x_data
                      (set_ax (Some (Axes 111))
                         (set_grid_range g
                            (with_ranges a b oy (set_ax (Some (Axes 111)) self)))))
                   (y_data
                      (set_ax (Some (Axes 111))
                         (set_grid_range g
                            (with_ranges a b oy (set_ax (Some (Axes 111)) self)))))
                 = ok (a, b, oy)).
    { destruct oy as [[mn mx] |]; exact E. }
    rewrite E'. cbn [rbind lift ok]. destruct oy as [[mn mx] |]; reflexivity. }
  destruct v; unfold_methods; try exact Hbase.
  unfold Histogram.get_min_max. intros H. inversion H; subst. reflexivity.
Qed.

Lemma get_ticks_replay (v : variant) (c : chart) (w : list event) (g : pyval) :
  v_get_ticks (methods_of v) c = (inr c, w) ->
  v_get_ticks (methods_of v) (set_grid_range g c) = (inr (set_grid_range g c), w).
Proof.
  assert (Hbase : BasePlot.get_ticks c = (inr c, w) ->
                  BasePlot.get_ticks (set_grid_range g c)
                  = (inr (set_grid_range g c), w)).
  { intros H.
    destruct (get_ticks_inv _ H) as (a & b & d & a' & b' & d' & x0 & Hr & Hx).
    rewrite (get_ticks_spec Hr Hx) in H. inversion H; subst w.
    apply (@get_ticks_spec (set_grid_range g c) a b d a' b' d' x0); assumption. }
  destruct v; unfold_methods; try exact Hbase.
  unfold Histogram.get_ticks. intros H.
  apply bind_inv in H. destruct H as (sy & ? & ? & H1 & H & ->).
  apply lift_inv in H1. destruct H1 as [H1 ->].
  apply bind_inv in H. destruct H as (yt & ? & ? & H2 & H & ->).
  apply lift_inv in H2. destruct H2 as [H2 ->].
  apply bind_inv in H. destruct H as (mn & ? & ? & H3 & H & ->).
  apply lift_inv in H3. destruct H3 as [H3 ->].
  apply bind_inv in H. destruct H as (mx & ? & ? & H4 & H & ->).
  apply lift_inv in H4. destruct H4 as [H4 ->].
  apply bind_inv in H. destruct H as (sx & ? & ? & H5 & H & ->).
  apply lift_inv in H5. destruct H5 as [H5 ->].
  apply bind_inv in H. destruct H as (xt & ? & ? & H6 & H & ->).
  apply lift_inv in H6. destruct H6 as [H6 ->].
  apply bind_inv in H. destruct H as (? & ? & ? & H7 & H & ->).
  inversion H7; subst.
  apply bind_inv in H. destruct H as (zs & ? & ? & H8 & H & ->).
  apply lift_inv in H8. destruct H8 as [H8 ->].
  apply bind_inv in H. destruct H as (? & ? & ? & H9 & H & ->).
  inversion H9; subst. inversion H; subst.
  change (max_y (set_grid_range g c)) with (max_y c).
  change (min_y (set_grid_range g c)) with (min_y c).
  change (diff_y_ticks (set_grid_range g c)) with (diff_y_ticks c).
  change (diff_x_ticks (set_grid_range g c)) with (diff_x_ticks c).
  change (bins (set_grid_range g c)) with (bins c).
  rewrite (bind_lift_ok _ H1), (bind_lift_ok _ H2), (bind_lift_ok _ H3),
    (bind_lift_ok _ H4), (bind_lift_ok _ H5), (bind_lift_ok _ H6).
  rewrite bind_emit, (bind_lift_ok _ H8). reflexivity.
Qed.

Lemma get_grid_range_replay (v : variant) (c1 c2 : chart) (w3 : list event) :
  v_get_grid_range (methods_of v) c1 = (inr c2, w3) ->
  (exists g, c2 = set_grid_range g c1) /\
  v_get_grid_range (methods_of v) c2 = (inr c2, w3).
Proof.
  destruct v; unfold_methods;
    unfold BasePlot.get_grid_range, LineChart.get_grid_range,
      SingleBarChart.get_grid_range, MultipleBarChart.get_grid_range,
      MultipleBarChart.half_span, Histogram.get_grid_range;
    intros H; try discriminate H.
  - apply lift_inv in H. destruct H as [H ->].
    apply rbind_inv in H. destruct H as (stop & E1 & H).
    apply rbind_inv in H. destruct H as (r & E2 & H).
    inversion H; subst c2. split; [eexists; reflexivity |].
    change (max_x (set_grid_range (PArr r) c1)) with (max_x c1).
    change (min_x (set_grid_range (PArr r) c1)) with (min_x c1).
    change (diff_x_ticks (set_grid_range (PArr r) c1)) with (diff_x_ticks c1).
    rewrite E1. cbn [rbind ok]. rewrite E2. reflexivity.
  - apply lift_inv in H. destruct H as [H ->].
    apply rbind_inv in H. destruct H as (stop & E1 & H).
    apply rbind_inv in H. destruct H as (r & E2 & H).
    apply rbind_inv in H. destruct H as (h1 & E3 & H).
    apply rbind_inv in H. destruct H as (lo & E4 & H).
    apply rbind_inv in H. destruct H as (h2 & E5 & H).
    apply rbind_inv in H. destruct H as (hi & E6 & H).
    apply rbind_inv in H. destruct H as (s & E7 & H).
    inversion H; subst c2. split; [eexists; reflexivity |].
    change (max_x (set_grid_range (PList s) c1)) with (max_x c1).
    change (min_x (set_grid_range (PList s) c1)) with (min_x c1).
    rewrite E3 in E5. inversion E5; subst h2.
    rewrite E1. cbn [rbind ok]. rewrite E2. cbn [rbind ok].
    rewrite E3. cbn [rbind ok]. rewrite E4. cbn [rbind ok].
    rewrite E6. cbn [rbind ok]. rewrite E7. reflexivity.
  - apply lift_inv in H. destruct H as [H ->].
    apply rbind_inv in H. destruct H as (stop & E1 & H).
    apply rbind_inv in H. destruct H as (r & E2 & H).
    apply rbind_inv in H. destruct H as (p1 & E3 & H).
    apply rbind_inv in H. destruct H as (lo & E4 & H).
    apply rbind_inv in H. destruct H as (p2 & E5 & H).
    apply rbind_inv in H. destruct H as (hi & E6 & H).
    apply rbind_inv in H. destruct H as (s & E7 & H).
    inversion H; subst c2. split; [eexists; reflexivity |].
    change (max_x (set_grid_range (PList s) c1)) with (max_x c1).
    change (min_x (set_grid_range (PList s) c1)) with (min_x c1).
    change (y_data (set_grid_range (PList s) c1)) with (y_data c1).
    change (bar_width (set_grid_range (PList s) c1)) with (bar_width c1).
    rewrite E3 in E5. inversion E5; subst p2.
    rewrite E1. cbn [rbind ok]. rewrite E2. cbn [rbind ok].
    rewrite E3. cbn [rbind ok]. rewrite E4. cbn [rbind ok].
    rewrite E6. cbn [rbind ok]. rewrite E7. reflexivity.
  - apply lift_inv in H. destruct H as [H ->].
    apply rbind_inv in H. destruct H as (mn & E1 & H).
    apply rbind_inv in H. destruct H as (mx & E2 & H).
    apply rbind_inv in H. destruct H as (mx' & E3 & H).
    apply rbind_inv in H. destruct H as (mn' & E4 & H).
    apply rbind_inv in H. destruct H as (d & E5 & H).
    apply rbind_inv in H. destruct H as (n & E6 & H).
    apply rbind_inv in H. destruct H as (step & E7 & H).
    apply rbind_inv in H. destruct H as (r & E8 & H).
    apply rbind_inv in H. destruct H as (mx2 & E9 & H).
    apply rbind_inv in H. destruct H as (g & E10 & H).
    inversion H; subst c2. clear H.
    split; [exists (PList (g ++ [mx2])); reflexivity |].
    change (bins (set_grid_range (PList r) c1)) with (bins c1) in E9.
    rewrite E2 in E3. inversion E3; subst mx'.
    rewrite E1 in E4. inversion E4; subst mn'.
    rewrite E2 in E9. inversion E9; subst mx2.
    cbn [grid_range set_grid_range py_iter] in E10. inversion E10; subst g.
    repeat match goal with
           | |- context [bins (set_grid_range ?x ?y)] =>
               change (bins (set_grid_range x y)) with (bins y)
           end.
    rewrite E1. cbn [rbind ok]. rewrite E2. cbn [rbind ok].
    rewrite E5. cbn [rbind ok]. rewrite E6. cbn [rbind ok].
    rewrite E7. cbn [rbind ok]. rewrite E8. cbn [rbind ok].
    repeat match goal with
           | |- context [bins (set_grid_range ?x ?y)] =>
               change (bins (set_grid_range x y)) with (bins y)
           end.
    rewrite E2. reflexivity.
Qed.

(** X24.  A render can be repeated.  When a render returns, rendering the
    object it leaves behind returns too, makes the same backend calls and
    leaves the same object, for every class. *)
Theorem render_is_repeatable (v : variant) (self self' : chart) (w : list event) :
  render v self = (inr self', w) -> render v self' = (inr self', w).
Proof.
  intros H.
  destruct (render_inv v self H) as (ws & wp & wt & Hs & Hp & Ht & ->).
  destruct (set_up_chart_inv v self Hs)
    as (c1 & w1 & w2 & w3 & w4 & Hc & H1 & H2 & H3 & H4 & ->).
  pose proof (get_min_max_silent v (set_ax (Some (Axes 111)) self)) as E1.
  rewrite H1 in E1. cbn in E1. subst w1.
  pose proof (get_grid_range_silent v c1) as E3.
  rewrite H3 in E3. cbn in E3. subst w3.
  destruct (get_grid_range_replay v c1 H3) as [(g & ->) H3'].
  assert (Hy : y_data (set_grid_range g c1) = y_data self).
  { pose proof (@get_min_max_keeps_inputs v _ _ _ H1) as Hk.
    apply inputs_plot_data in Hk. destruct Hk as (_ & Hk & _). exact Hk. }
  rewrite (@render_returns v (set_grid_range g c1) (set_grid_range g c1)
             (set_grid_range g c1) w2 w4 wp wt
             (@check_inputs_replay v self (set_grid_range g c1) Hc Hy)
             (@get_min_max_replay v self c1 [] g H1)
             (@get_ticks_replay v c1 w2 g H2) H3' H4 Hp Ht).
  rewrite <- !app_assoc. reflexivity.
Qed.

Lemma render_is_repeatable_witness :
  exists self' w,
    render Line
      (LineChart.init (ints [0; 1; 2; 3; 4])
         (PList [ints [10; 30; 70; 100; 150]; ints [20; 40; 80; 120; 30]])
         (PInt 1) (PInt 10) (PStr "Sample x-axis") PNone
         (strs ["Line 1"; "Line 2"]%string) (PStr "Sample plot"))
    = (inr self', w) /\
    render Line self' = (inr self', w).
Proof.
  let r := eval vm_compute in
      (render Line
         (LineChart.init (ints [0; 1; 2; 3; 4])
            (PList [ints [10; 30; 70; 100; 150]; ints [20; 40; 80; 120; 30]])
            (PInt 1) (PInt 10) (PStr "Sample x-axis") PNone
            (strs ["Line 1"; "Line 2"]%string) (PStr "Sample plot"))) in
  lazymatch r with
  | (inr ?c, ?w) =>
      exists c, w; split; [vm_compute; reflexivity |];
      apply (@render_is_repeatable Line
               (LineChart.init (ints [0; 1; 2; 3; 4])
                  (PList [ints [10; 30; 70; 100; 150];
                          ints [20; 40; 80; 120; 30]])
                  (PInt 1) (PInt 10) (PStr "Sample x-axis") PNone
                  (strs ["Line 1"; "Line 2"]%string) (PStr "Sample plot"))
               c w);
      vm_compute; reflexivity
  end.
Defined.
